(** * sokoban_rl: the environment-adaptation layer of [utils.py]

    A shallow embedding of the grid move validator, the environment wrapper
    ([EnvWrapper]) and the asynchronous environment pool ([AsyncEnvGen]),
    followed by the properties of the specification that concern them.

    Conventions of the embedding.
    - Python integers are [Z]; a numpy grid of tile codes is a list of rows.
    - Python floats and float tensors are idealised: exact reals ([R]) for
      rewards, observations and Gaussian policies, exact rationals ([Q]) for
      the discretisation tables, so that the tables can be computed.
      Rounding is not represented.
    - A Python exception is a value of [exn]; a fallible computation returns
      a [result]. *)

From Stdlib Require Import String.
From Stdlib Require Import ZArith List Bool Lia.
From Stdlib Require Import QArith Qround Qabs.
From Stdlib Require Import Reals Lqa Lra.
Import ListNotations.

Open Scope Z_scope.

(** ** Exceptions and fallible computations *)

Inductive exn : Type :=
| IndexError
| ValueError
| TypeError
| KeyError
| AttributeError
| ZeroDivisionError
| RuntimeError
| NotImplementedError.

Inductive result (A : Type) : Type :=
| Ok (a : A)
| Raise (e : exn).

Arguments Ok {A} a.
Arguments Raise {A} e.

Definition bind {A B : Type} (m : result A) (k : A -> result B) : result B :=
  match m with
  | Ok a => k a
  | Raise e => Raise e
  end.

Notation "x <- m ;; k" := (bind m (fun x => k))
  (at level 61, m at next level, right associativity).
Notation "' p <- m ;; k" := (bind m (fun p => k))
  (at level 61, p pattern, m at next level, right associativity).

(** ** Enumerations *)

Inductive ObsType : Type :=
| OBS_REGULAR
| ROOM_STATE_VECTOR
| ROOM_STATE_MATRIX
| BOX2D.

Inductive ActionType : Type :=
| REGULAR
| PUSH_ONLY
| PUSH_PULL
| GAUSSIAN
| DISCRETIZIED.

Inductive MoveType : Type :=
| PUSH_UP
| PUSH_DOWN
| PUSH_LEFT
| PUSH_RIGHT
| PULL_UP
| PULL_DOWN
| PULL_LEFT
| PULL_RIGHT.

Inductive TileType : Type :=
| WALL
| FLOOR
| TARGET
| BOX_ON_TARGET
| BOX
| PLAYER.

(** The integer value of each member, as the enum classes declare them. *)
Definition MoveType_value (m : MoveType) : Z :=
  match m with
  | PUSH_UP => 1
  | PUSH_DOWN => 2
  | PUSH_LEFT => 3
  | PUSH_RIGHT => 4
  | PULL_UP => 9
  | PULL_DOWN => 10
  | PULL_LEFT => 11
  | PULL_RIGHT => 12
  end.

Definition TileType_value (t : TileType) : Z :=
  match t with
  | WALL => 0
  | FLOOR => 1
  | TARGET => 2
  | BOX_ON_TARGET => 3
  | BOX => 4
  | PLAYER => 5
  end.

Definition all_moves : list MoveType :=
  [PUSH_UP; PUSH_DOWN; PUSH_LEFT; PUSH_RIGHT; PULL_UP; PULL_DOWN; PULL_LEFT; PULL_RIGHT].

Definition all_tiles : list TileType :=
  [WALL; FLOOR; TARGET; BOX_ON_TARGET; BOX; PLAYER].

(** [MoveType(v)] and [TileType(v)]: lookup of a member by value; a value
    that no member carries raises [ValueError]. *)
Definition MoveType_of (v : Z) : result MoveType :=
  match find (fun m => MoveType_value m =? v) all_moves with
  | Some m => Ok m
  | None => Raise ValueError
  end.

Definition TileType_of (v : Z) : result TileType :=
  match find (fun t => TileType_value t =? v) all_tiles with
  | Some t => Ok t
  | None => Raise ValueError
  end.

(** Equality of enum members ([==] on members is identity). *)
Definition MoveType_eqb (a b : MoveType) : bool :=
  MoveType_value a =? MoveType_value b.

Definition TileType_eqb (a b : TileType) : bool :=
  TileType_value a =? TileType_value b.

Definition PULL_MOVES : list MoveType := [PULL_UP; PULL_DOWN; PULL_LEFT; PULL_RIGHT].
Definition BOX_TILES : list TileType := [BOX; BOX_ON_TARGET].

(** [x in xs] on lists of members. *)
Definition move_in (m : MoveType) (ms : list MoveType) : bool :=
  existsb (MoveType_eqb m) ms.

Definition tile_in (t : TileType) (ts : list TileType) : bool :=
  existsb (TileType_eqb t) ts.

(** ** The room grid and numpy indexing *)

(** [room_state]: a two-dimensional integer array, row by row. *)
Definition Room : Type := list (list Z).

(** An index [i] along an axis of length [n]: [0 <= i < n] is used as it
    is, [-n <= i < 0] counts from the end, anything else raises
    [IndexError]. *)
Definition norm_index (n i : Z) : result Z :=
  if (0 <=? i) && (i <? n) then Ok i
  else if (- n <=? i) && (i <? 0) then Ok (i + n)
  else Raise IndexError.

(** [room[i, j]]. *)
Definition room_get (room : Room) (i j : Z) : result Z :=
  i' <- norm_index (Z.of_nat (length room)) i ;;
  let row := nth (Z.to_nat i') room [] in
  j' <- norm_index (Z.of_nat (length row)) j ;;
  Ok (nth (Z.to_nat j') row 0).

(** [room.flatten()]: the cells in row-major order. *)
Definition flatten (room : Room) : list Z := concat room.

(** ** Grid move validator *)

(** The displacement [(dx, dy)] chosen by the if/elif chain of [get_tiles]. *)
Definition displacement (move : MoveType) : Z * Z :=
  if MoveType_eqb move PUSH_UP || MoveType_eqb move PULL_UP then (0, -1)
  else if MoveType_eqb move PUSH_DOWN || MoveType_eqb move PULL_DOWN then (0, 1)
  else if MoveType_eqb move PUSH_LEFT || MoveType_eqb move PULL_LEFT then (-1, 0)
  else if MoveType_eqb move PUSH_RIGHT || MoveType_eqb move PULL_RIGHT then (1, 0)
  else (0, 0).

(** [get_tiles(room, player_pos, move)]: the tile after and the tile before
    the player along the move, in that order. *)
Definition get_tiles (room : Room) (player_pos : Z * Z) (move : MoveType)
  : result (TileType * TileType) :=
  let '(dx, dy) := displacement move in
  a <- room_get room (fst player_pos + dy) (snd player_pos + dx) ;;
  tile_after <- TileType_of a ;;
  b <- room_get room (fst player_pos - dy) (snd player_pos - dx) ;;
  tile_before <- TileType_of b ;;
  Ok (tile_after, tile_before).

(** [is_valid_command(room, player_pos, move)]. *)
Definition is_valid_command (room : Room) (player_pos : Z * Z) (move : MoveType)
  : result bool :=
  let is_valid := true in
  '(tile_after, tile_before) <- get_tiles room player_pos move ;;
  let is_valid := if TileType_eqb tile_after WALL then false else is_valid in
  let is_valid :=
    if move_in move PULL_MOVES && negb (tile_in tile_before BOX_TILES)
    then false else is_valid in
  Ok is_valid.

(** The cell of the grid at row [i], column [j], when it exists: no
    wrap-around, used to say which tile really lies next to the player. *)
Definition cell_at (room : Room) (i j : Z) : option Z :=
  if (0 <=? i) && (0 <=? j)
  then match nth_error room (Z.to_nat i) with
       | Some row => nth_error row (Z.to_nat j)
       | None => None
       end
  else None.

Definition tile_at (room : Room) (i j : Z) : option TileType :=
  match cell_at room i j with
  | Some v => match TileType_of v with Ok t => Some t | Raise _ => None end
  | None => None
  end.


(** ** Real-valued helpers *)

Definition Rltb (a b : R) : bool := if Rlt_dec a b then true else false.
Definition Rleb (a b : R) : bool := if Rle_dec a b then true else false.

(** [math.atan2(y, x)] on exact reals (signed zeros are not represented). *)
Definition atan2 (y x : R) : R :=
  if Rlt_dec 0 x then atan (y / x)
  else if Rlt_dec x 0 then
         if Rle_dec 0 y then (atan (y / x) + PI)%R else (atan (y / x) - PI)%R
  else if Rlt_dec 0 y then (PI / 2)%R
  else if Rlt_dec y 0 then (- (PI / 2))%R
  else 0%R.

(** ** The wrapped environment *)

(** An action as the caller passes it: a Python integer or a float tensor
    (its elements, flattened).  A tensor converted with [.numpy()] keeps
    its elements and is the same value here. *)
Inductive Action : Type :=
| AInt (i : Z)
| AArr (v : list R).

(** The declared spaces of a gym environment: [Discrete(n)], or a
    one-dimensional [Box] with its bounds. *)
Inductive Space : Type :=
| Discrete (n : Z)
| Box (low high : list Q).

(** What the wrapper uses of the environment it wraps.  [RawObs] is the
    environment's own observation; [raw_item o i] is [o[i]] read as a
    number.  An attribute an environment does not have is [None]. *)
Class GymEnv (E : Type) : Type := {
  RawObs : Type;
  StepInfo : Type;
  env_reset : E -> RawObs * E;
  env_step : E -> Action -> result (RawObs * R * bool * StepInfo * E);
  env_room_state : E -> option Room;
  env_player_position : E -> option (Z * Z);
  env_set_max_steps : E -> Z -> E;
  observation_shape : E -> list Z;
  action_space : E -> Space;
  raw_item : RawObs -> Z -> result R
}.

(** Attribute access: a missing attribute raises [AttributeError]. *)
Definition getattr {A : Type} (o : option A) : result A :=
  match o with
  | Some a => Ok a
  | None => Raise AttributeError
  end.

(** [kwargs[key]]: a missing key raises [KeyError]. *)
Definition getkey {A : Type} (o : option A) : result A :=
  match o with
  | Some a => Ok a
  | None => Raise KeyError
  end.

(** [xs[i]] on a one-dimensional sequence. *)
Definition seq_get {A : Type} (xs : list A) (i : Z) : result A :=
  i' <- norm_index (Z.of_nat (length xs)) i ;;
  match nth_error xs (Z.to_nat i') with
  | Some a => Ok a
  | None => Raise IndexError
  end.

(** ** Discretisation tables *)

Definition Qltb (a b : Q) : bool := negb (Qle_bool b a).

(** [a / b] on Python numbers. *)
Definition pydiv (a b : Q) : result Q :=
  if Qeq_bool b 0 then Raise ZeroDivisionError else Ok (a / b)%Q.

(** The values [start + i * step] for [0 <= i < n]. *)
Definition arange_values (start step : Q) (n : nat) : list Q :=
  map (fun i => (start + inject_Z (Z.of_nat i) * step)%Q) (seq 0 n).

(** [torch.arange(start, end, step)]: the values [start + i * step] for
    [0 <= i < ceil((end - start) / step)]; a zero step, or a step whose sign
    disagrees with the bounds, is refused.  The quotient is the exact one:
    it is the quotient of the code wherever the division is exact in binary
    floating point (bounds and steps that are small multiples of powers of
    two), and may be one entry short of the code's where it rounds up. *)
Definition torch_arange (start end_ step : Q) : result (list Q) :=
  if Qeq_bool step 0 then Raise RuntimeError
  else if (Qltb 0 step && Qltb end_ start) || (Qltb step 0 && Qltb start end_)
  then Raise RuntimeError
  else Ok (arange_values start step (Z.to_nat (Qceiling ((end_ - start) / step)))).

(** Lines 189-194 of [__init__]: the two tables of a DISCRETIZIED wrapper,
    from the first components of the declared bounds. *)
Definition make_discrete_arrays (low high : Q) (num_discrete : Z)
  : result (list Q * list Q) :=
  step <- pydiv (high - low) (inject_Z num_discrete) ;;
  discrete_array <- torch_arange low high step ;;
  step_a <- pydiv (- low / 2) (inject_Z (num_discrete / 2)) ;;
  a <- torch_arange low (low / 2) step_a ;;
  step_b <- pydiv (high / 2) (inject_Z (num_discrete / 2)) ;;
  b <- torch_arange (high / 2) high step_b ;;
  Ok (discrete_array, a ++ b).

(** ** The environment wrapper *)

(** A value read out of an observation with [obs[i]]: a number, or a row
    of the grid when the observation is the room matrix. *)
Inductive PyVal : Type :=
| VNum (r : R)
| VRow (row : list Z).

(** The conversion to a float that [math.atan2] applies to its arguments:
    a number is itself, a one-element array is its element, any other
    array raises [TypeError]. *)
Definition to_float (v : PyVal) : result R :=
  match v with
  | VNum r => Ok r
  | VRow [c] => Ok (IZR c)
  | VRow _ => Raise TypeError
  end.

(** [abs(v)]: elementwise on an array. *)
Definition py_abs (v : PyVal) : PyVal :=
  match v with
  | VNum r => VNum (Rabs r)
  | VRow row => VRow (map Z.abs row)
  end.

Section Wrapper.

Context {E : Type} `{GymEnv E}.

(** The observation handed to the caller. *)
Inductive Obs : Type :=
| ObsRaw (o : RawObs)
| ObsCells (v : list Z)
| ObsGrid (g : Room).

Record EnvWrapper : Type := mkEnvWrapper {
  obs_type : ObsType;
  env : E;
  env_name : string;
  max_steps : Z;
  action_type : ActionType;
  num_discrete : Z;
  discrete_array : list Q;
  split_discrete_array : list Q;
  cone_trick : bool;
  move_trick : bool;
  obs_size : Z;
  num_actions : Z
}.

(** The wrapper after [self.env] has moved to a new state. *)
Definition with_env (w : EnvWrapper) (e : E) : EnvWrapper :=
  mkEnvWrapper (obs_type w) e (env_name w) (max_steps w) (action_type w)
    (num_discrete w) (discrete_array w) (split_discrete_array w)
    (cone_trick w) (move_trick w) (obs_size w) (num_actions w).

Record Kwargs : Type := mkKwargs {
  kw_cone_trick : option bool;
  kw_move_trick : option bool;
  kw_num_discrete : option Z
}.

(** [space.n], [space.shape[0]], [space.low[0].item()], [space.high[0].item()]. *)
Definition space_n (s : Space) : result Z :=
  match s with
  | Discrete n => Ok n
  | Box _ _ => Raise AttributeError
  end.

Definition space_shape0 (s : Space) : result Z :=
  match s with
  | Discrete _ => Raise IndexError
  | Box low _ => Ok (Z.of_nat (length low))
  end.

Definition space_low0 (s : Space) : result Q :=
  match s with
  | Discrete _ => Raise AttributeError
  | Box low _ => seq_get low 0
  end.

Definition space_high0 (s : Space) : result Q :=
  match s with
  | Discrete _ => Raise AttributeError
  | Box _ high => seq_get high 0
  end.

(** [EnvWrapper.__init__], on the environment [gym.make(env_name)] returned. *)
Definition EnvWrapper_init (made : E) (name : string) (ot : ObsType)
    (at_ : ActionType) (steps : Z) (kwargs : Kwargs) : result EnvWrapper :=
  let e := env_set_max_steps made steps in
  cone <- getkey (kw_cone_trick kwargs) ;;
  move <- getkey (kw_move_trick kwargs) ;;
  size <- match ot with
          | OBS_REGULAR => seq_get (observation_shape e) 0
          | ROOM_STATE_VECTOR =>
              room <- getattr (env_room_state e) ;;
              Ok (Z.of_nat (length room) ^ 2)
          | ROOM_STATE_MATRIX =>
              room <- getattr (env_room_state e) ;;
              Ok (Z.of_nat (length room))
          | BOX2D => seq_get (observation_shape e) 0
          end ;;
  let mk n nd da sda :=
    mkEnvWrapper ot e name steps at_ nd da sda cone move size n in
  match at_ with
  | REGULAR => n <- space_n (action_space e) ;; Ok (mk n 0 [] [])
  | PUSH_ONLY => Ok (mk 4 0 [] [])
  | PUSH_PULL => Ok (mk 8 0 [] [])
  | GAUSSIAN => n <- space_shape0 (action_space e) ;; Ok (mk n 0 [] [])
  | DISCRETIZIED =>
      n <- space_shape0 (action_space e) ;;
      nd <- getkey (kw_num_discrete kwargs) ;;
      low <- space_low0 (action_space e) ;;
      high <- space_high0 (action_space e) ;;
      '(da, sda) <- make_discrete_arrays low high nd ;;
      Ok (mk n nd da sda)
  end.

(** [process_obs]. *)
Definition process_obs (w : EnvWrapper) (obs : RawObs) : result Obs :=
  match obs_type w with
  | OBS_REGULAR | BOX2D => Ok (ObsRaw obs)
  | ROOM_STATE_VECTOR =>
      room <- getattr (env_room_state (env w)) ;; Ok (ObsCells (flatten room))
  | ROOM_STATE_MATRIX =>
      room <- getattr (env_room_state (env w)) ;; Ok (ObsGrid room)
  end.

(** [reset]. *)
Definition reset (w : EnvWrapper) : result (Obs * EnvWrapper) :=
  let '(obs, e) := env_reset (env w) in
  let w := with_env w e in
  o <- process_obs w obs ;;
  Ok (o, w).

(** Lines 201-214 of [step]: the action handed to the environment.  On a
    tensor [action += 1] adds one to every element, and the test
    [action >= 5] has a truth value only for a single element. *)
Definition encode_action (w : EnvWrapper) (action : Action) : result Action :=
  match action_type w with
  | REGULAR => Ok action
  | PUSH_ONLY =>
      match action with
      | AInt i => Ok (AInt (i + 1))
      | AArr v => Ok (AArr (map (fun x => (x + 1)%R) v))
      end
  | PUSH_PULL =>
      match action with
      | AInt i =>
          let i := i + 1 in
          if 5 <=? i then Ok (AInt (i + 4)) else Ok (AInt i)
      | AArr v =>
          match map (fun x => (x + 1)%R) v with
          | [x] => if Rleb 5 x then Ok (AArr [(x + 4)%R]) else Ok (AArr [x])
          | _ => Raise RuntimeError
          end
      end
  | GAUSSIAN | DISCRETIZIED =>
      match action with
      | AInt _ => Raise AttributeError
      | AArr v => Ok (AArr v)
      end
  end.

(** [obs[i]] on the projected observation. *)
Definition obs_getitem (obs : Obs) (i : Z) : result PyVal :=
  match obs with
  | ObsRaw o => r <- raw_item o i ;; Ok (VNum r)
  | ObsCells v => c <- seq_get v i ;; Ok (VNum (IZR c))
  | ObsGrid g => row <- seq_get g i ;; Ok (VRow row)
  end.

(** Lines 217-223 of [step]: the cone rule, on the reward and done flag it
    finds. *)
Definition cone_rule (w : EnvWrapper) (obs : Obs) (reward : R) (done : bool)
  : result (R * bool) :=
  if cone_trick w then
    x_pos <- obs_getitem obs 0 ;;
    y_pos <- obs_getitem obs 1 ;;
    y <- to_float y_pos ;;
    x <- to_float (py_abs x_pos) ;;
    let alpha := atan2 y x in
    if Rltb alpha (PI / 4) && Rltb (1 / 3) y
    then Ok ((reward - 300)%R, true)
    else Ok (reward, done)
  else Ok (reward, done).

(** [MoveType(action)] on the encoded action; only an integer carries a
    member's value. *)
Definition MoveType_of_action (action : Action) : result MoveType :=
  match action with
  | AInt i => MoveType_of i
  | AArr _ => Raise ValueError
  end.

(** Lines 224-230 of [step]: the move rule, read on the environment as the
    underlying step left it. *)
Definition move_rule (w : EnvWrapper) (action : Action) (reward : R) (done : bool)
  : result (R * bool) :=
  if move_trick w then
    room <- getattr (env_room_state (env w)) ;;
    player_pos <- getattr (env_player_position (env w)) ;;
    move <- MoveType_of_action action ;;
    is_valid <- is_valid_command room player_pos move ;;
    if negb is_valid
    then Ok ((reward - 300)%R, true)
    else Ok (reward, done)
  else Ok (reward, done).

(** Lines 215-231 of [step], from the encoded action on. *)
Definition step_encoded (w : EnvWrapper) (action : Action)
  : result (Obs * R * bool * StepInfo * EnvWrapper) :=
  '(obs, reward, done, info, e) <- env_step (env w) action ;;
  let w := with_env w e in
  obs <- process_obs w obs ;;
  '(reward, done) <- cone_rule w obs reward done ;;
  '(reward, done) <- move_rule w action reward done ;;
  Ok (obs, reward, done, info, w).

(** [step]. *)
Definition step (w : EnvWrapper) (action : Action)
  : result (Obs * R * bool * StepInfo * EnvWrapper) :=
  action <- encode_action w action ;;
  step_encoded w action.

(** [q_vals.max()] over the elements of a tensor; an empty tensor has no
    maximum. *)
Definition tensor_max (xs : list R) : result R :=
  match xs with
  | [] => Raise RuntimeError
  | x :: rest => Ok (fold_left Rmax rest x)
  end.

(** [q_vals.max(dim=1)] on one row: a row without entries has no maximum. *)
Definition row_max (xs : list R) : result R :=
  match xs with
  | [] => Raise IndexError
  | x :: rest => Ok (fold_left Rmax rest x)
  end.

Fixpoint map_result {A B : Type} (f : A -> result B) (xs : list A) : result (list B) :=
  match xs with
  | [] => Ok []
  | x :: rest => y <- f x ;; ys <- map_result f rest ;; Ok (y :: ys)
  end.

(** What [off_policy] returns: one number, or one number per row. *)
Inductive QVal : Type :=
| QScalar (r : R)
| QRows (v : list R).

(** [off_policy], on a two-dimensional tensor of value estimates given row
    by row; the wrapper after the call is returned with the outcome. *)
Definition off_policy (w : EnvWrapper) (q_vals : list (list R))
  : result QVal * EnvWrapper :=
  match action_type w with
  | REGULAR => (q_val <- tensor_max (concat q_vals) ;; Ok (QScalar q_val), w)
  | DISCRETIZIED => (q_val <- map_result row_max q_vals ;; Ok (QRows q_val), w)
  | _ => (Raise NotImplementedError, w)
  end.

End Wrapper.

Arguments Obs E {_}.
Arguments EnvWrapper : clear implicits.

(** ** Gaussian action sampling *)

(** A float tensor of the policy: its elements (one axis; the leading
    singleton axes that [expand] adds and [squeeze] removes hold no data
    and are not represented) and whether it is attached to the gradient
    graph. *)
Record Tensor : Type := mkTensor {
  data : list R;
  requires_grad : bool
}.

(** Broadcasting of two operands: equal sizes pair up, a single element is
    repeated, other sizes are refused. *)
Definition broadcast2 (a b : list R) : result (list (R * R)) :=
  if Nat.eqb (length a) (length b) then Ok (combine a b)
  else match a, b with
       | [x], _ => Ok (map (fun y => (x, y)) b)
       | _, [y] => Ok (map (fun x => (x, y)) a)
       | _, _ => Raise RuntimeError
       end.

(** An elementwise binary operation; the result is attached when an operand is. *)
Definition t_binop (f : R -> R -> R) (a b : Tensor) : result Tensor :=
  xy <- broadcast2 (data a) (data b) ;;
  Ok (mkTensor (map (fun p => f (fst p) (snd p)) xy)
               (requires_grad a || requires_grad b)).

Definition t_map (f : R -> R) (a : Tensor) : Tensor :=
  mkTensor (map f (data a)) (requires_grad a).

Definition t_sum (a : Tensor) : Tensor :=
  mkTensor [fold_right Rplus 0%R (data a)] (requires_grad a).

Definition detach (a : Tensor) : Tensor := mkTensor (data a) false.

Definition sigmoid (x : R) : R := (1 / (1 + exp (- x)))%R.

(** The random source: the standard Normal draws still to be handed out. *)
Definition Rng : Type := nat -> R.

(** [torch.normal(mean, std, size)]: takes [size] draws from the source. *)
Definition torch_normal (mean std : R) (size : nat) (g : Rng) : Tensor * Rng :=
  (mkTensor (map (fun i => (mean + std * g i)%R) (seq 0 size)) false,
   fun i => g (size + i)%nat).

(** [reparametrize(mu, std)]. *)
Definition reparametrize (mu std : Tensor) (g : Rng) : result (Tensor * Rng) :=
  let '(eps, g) := torch_normal 0 1 (length (data std)) g in
  scaled <- t_binop Rmult eps std ;;
  z <- t_binop Rplus mu scaled ;;
  Ok (z, g).

(** [Normal(loc, scale)]: the two parameters are broadcast against each
    other, and a scale that is not positive everywhere is refused with
    [ValueError].  The distribution is its location and its scale. *)
Definition Normal_init (loc scale : Tensor) : result (Tensor * Tensor) :=
  xy <- broadcast2 (data loc) (data scale) ;;
  if forallb (fun p => Rltb 0 (snd p)) xy
  then Ok (mkTensor (map fst xy) (requires_grad loc),
           mkTensor (map snd xy) (requires_grad scale))
  else Raise ValueError.

(** [Normal.entropy()], elementwise. *)
Definition normal_entropy (dist : Tensor * Tensor) : Tensor :=
  t_map (fun s => (1 / 2 + 1 / 2 * ln (2 * PI) + ln s)%R) (snd dist).

(** [process_action], the branch taken when [action_type] is GAUSSIAN
    (lines 242-251 and 264): [dist] holds the detached mean and deviation,
    [policy_dist] the attached ones. *)
Definition process_action_gaussian (dist policy_dist : Tensor * Tensor) (g : Rng)
  : result (Tensor * Tensor * Tensor * Rng) :=
  let detached_mu := fst dist in
  let detached_sigma := snd dist in
  let attached_mu := fst policy_dist in
  let attached_sigma := snd policy_dist in
  '(action, g) <- reparametrize attached_mu attached_sigma g ;;
  action_dist <- Normal_init detached_mu detached_sigma ;;
  dev <- t_binop Rminus action detached_mu ;;
  ratio <- t_binop Rdiv (t_map Rabs dev) detached_sigma ;;
  let log_prob := t_map ln (t_map sigmoid ratio) in
  let entropy := t_sum (detach (normal_entropy action_dist)) in
  let action := detach action in
  Ok (action, log_prob, entropy, g).

(** ** The asynchronous environment pool *)

Section Pool.

(** The pooled environments: anything with a [reset()] that returns a state. *)
Variables (X S : Type).
Variable reset_env : X -> result (S * X).

(** The parent's view of the pool and the worker's.  The worker process
    runs on its own copy of [envs]; the queue carries copies of what it
    put. *)
Record AsyncEnvGen : Type := mkAsyncEnvGen {
  envs : list X;
  q : list (S * X);
  q_maxsize : Z;
  kill_set : bool;
  alive : bool;
  worker_envs : list X;
  env_idx : Z;
  sleep_interval : R
}.

Definition SEM_VALUE_MAX : Z := 2147483647.

(** [mp.Queue(maxsize)]: a size that is not positive means no bound. *)
Definition queue_maxsize (maxsize : Z) : Z :=
  if maxsize <=? 0 then SEM_VALUE_MAX else maxsize.

(** [__init__]. *)
Definition AsyncEnvGen_init (es : list X) (interval : R) : AsyncEnvGen :=
  mkAsyncEnvGen es [] (queue_maxsize (Z.of_nat (length es) - 1)) false false es 0 interval.

(** [start()], inherited from [mp.Process]: the worker begins on a copy of
    the parent's state. *)
Definition start (g : AsyncEnvGen) : AsyncEnvGen :=
  mkAsyncEnvGen (envs g) (q g) (q_maxsize g) (kill_set g) true (envs g) (env_idx g)
    (sleep_interval g).

(** What a call that may wait gives back. *)
Inductive Blocking (A : Type) : Type :=
| Done (a : A)
| Blocked.

Arguments Done {A} a.
Arguments Blocked {A}.

Fixpoint list_set {A : Type} (xs : list A) (i : nat) (a : A) : list A :=
  match xs, i with
  | [], _ => []
  | _ :: rest, O => a :: rest
  | x :: rest, Datatypes.S i => x :: list_set rest i a
  end.

(** [get_reset_env]: with the worker alive, [q.get()] hands out the oldest
    item or waits for one; otherwise [envs[0]] is reset in place and
    returned. *)
Definition get_reset_env (g : AsyncEnvGen)
  : result (Blocking ((S * X) * AsyncEnvGen)) :=
  if alive g then
    match q g with
    | item :: rest =>
        Ok (Done (item,
                  mkAsyncEnvGen (envs g) rest (q_maxsize g) (kill_set g) (alive g)
                    (worker_envs g) (env_idx g) (sleep_interval g)))
    | [] => Ok Blocked
    end
  else
    e0 <- seq_get (envs g) 0 ;;
    '(state, e0) <- reset_env e0 ;;
    Ok (Done ((state, e0),
              mkAsyncEnvGen (list_set (envs g) 0 e0) (q g) (q_maxsize g) (kill_set g)
                (alive g) (worker_envs g) (env_idx g) (sleep_interval g))).

(** [kill]. *)
Definition kill (g : AsyncEnvGen) : AsyncEnvGen :=
  mkAsyncEnvGen (envs g) (q g) (q_maxsize g) true (alive g) (worker_envs g)
    (env_idx g) (sleep_interval g).

(** One turn of the loop of [run], in the worker: leave when the stop
    signal is set; otherwise reset the next environment and put it when the
    queue has room.  An exception ends the worker. *)
Definition worker_turn (g : AsyncEnvGen) : AsyncEnvGen :=
  if kill_set g then
    mkAsyncEnvGen (envs g) (q g) (q_maxsize g) (kill_set g) false (worker_envs g)
      (env_idx g) (sleep_interval g)
  else if negb (Z.of_nat (length (q g)) =? q_maxsize g) then
    match (e <- seq_get (worker_envs g) (env_idx g) ;; reset_env e) with
    | Ok (state, e) =>
        let i := Z.to_nat (if env_idx g <? 0
                           then env_idx g + Z.of_nat (length (worker_envs g))
                           else env_idx g) in
        let idx := env_idx g + 1 in
        let idx := if idx =? Z.of_nat (length (worker_envs g)) then 0 else idx in
        mkAsyncEnvGen (envs g) (q g ++ [(state, e)]) (q_maxsize g) (kill_set g)
          (alive g) (list_set (worker_envs g) i e) idx (sleep_interval g)
    | Raise _ =>
        mkAsyncEnvGen (envs g) (q g) (q_maxsize g) (kill_set g) false (worker_envs g)
          (env_idx g) (sleep_interval g)
    end
  else g.

(** The states a pool goes through: started once, then worker turns and
    the parent's calls in any order. *)
Inductive pool_reachable (es : list X) (interval : R) : AsyncEnvGen -> Prop :=
| reach_init : pool_reachable es interval (AsyncEnvGen_init es interval)
| reach_start g :
    pool_reachable es interval g -> q g = [] -> alive g = false -> kill_set g = false ->
    pool_reachable es interval (start g)
| reach_turn g :
    pool_reachable es interval g -> alive g = true ->
    pool_reachable es interval (worker_turn g)
| reach_get g item g' :
    pool_reachable es interval g -> get_reset_env g = Ok (Done (item, g')) ->
    pool_reachable es interval g'
| reach_kill g :
    pool_reachable es interval g -> pool_reachable es interval (kill g).

End Pool.

Arguments Done {A} a.
Arguments Blocked {A}.

(** ** A fixed environment for worked examples

    An environment that stays in the state it is given: every step answers
    with the same observation, reward and done flag, whatever the action.
    Its observations are float vectors. *)
Record FixedEnv : Type := mkFixedEnv {
  fe_room : option Room;
  fe_pos : option (Z * Z);
  fe_obs : list R;
  fe_reward : R;
  fe_done : bool;
  fe_obs_shape : list Z;
  fe_action_space : Space
}.

#[export] Instance FixedEnv_GymEnv : GymEnv FixedEnv := {
  RawObs := list R;
  StepInfo := unit;
  env_reset e := (fe_obs e, e);
  env_step e _ := Ok (fe_obs e, fe_reward e, fe_done e, tt, e);
  env_room_state := fe_room;
  env_player_position := fe_pos;
  env_set_max_steps e _ := e;
  observation_shape := fe_obs_shape;
  action_space := fe_action_space;
  raw_item o i := seq_get o i
}.

(** A 3 x 3 room of floor tiles with the player in the middle of the
    bottom row. *)
Definition floor_room : Room :=
  [[1; 1; 1];
   [1; 1; 1];
   [1; 5; 1]].

(** Two 5 x 3 rooms inside walls, the player at row 2, column 1 with a
    floor tile above: with a box below the player, and without. *)
Definition room_with_box : Room :=
  [[0; 0; 0];
   [0; 1; 0];
   [0; 5; 0];
   [0; 4; 0];
   [0; 0; 0]].

Definition room_without_box : Room :=
  [[0; 0; 0];
   [0; 1; 0];
   [0; 5; 0];
   [0; 1; 0];
   [0; 0; 0]].

(** ** The validator as the specification words it *)

(** The unit displacement (rows, columns) of a move's direction. *)
Definition move_delta (move : MoveType) : Z * Z :=
  match move with
  | PUSH_UP | PULL_UP => (-1, 0)
  | PUSH_DOWN | PULL_DOWN => (1, 0)
  | PUSH_LEFT | PULL_LEFT => (0, -1)
  | PUSH_RIGHT | PULL_RIGHT => (0, 1)
  end.

Definition is_pull (move : MoveType) : bool :=
  match move with
  | PULL_UP | PULL_DOWN | PULL_LEFT | PULL_RIGHT => true
  | _ => false
  end.

Definition cell_ahead (pos : Z * Z) (move : MoveType) : Z * Z :=
  (fst pos + fst (move_delta move), snd pos + snd (move_delta move)).

Definition cell_behind (pos : Z * Z) (move : MoveType) : Z * Z :=
  (fst pos - fst (move_delta move), snd pos - snd (move_delta move)).

(** The verdict the specification gives from the two neighbouring tiles:
    illegal when the tile ahead is WALL, or when the move is a pull and the
    tile behind is neither BOX nor BOX_ON_TARGET; legal otherwise. *)
Definition spec_verdict (tile_after tile_before : option TileType) (move : MoveType) : bool :=
  match tile_after, is_pull move, tile_before with
  | Some WALL, _, _ => false
  | _, true, Some BOX => true
  | _, true, Some BOX_ON_TARGET => true
  | _, true, _ => false
  | _, false, _ => true
  end.

(** The validator of the specification, total on every grid and position. *)
Definition spec_is_valid (room : Room) (pos : Z * Z) (move : MoveType) : bool :=
  spec_verdict (tile_at room (fst (cell_ahead pos move)) (snd (cell_ahead pos move)))
               (tile_at room (fst (cell_behind pos move)) (snd (cell_behind pos move)))
               move.

(** The cone condition as the specification words it: the polar angle of
    [(x, y)], folded onto the right half-plane, is below 45 degrees and
    [y] exceeds one third. *)
Definition cone_fires (x y : R) : bool :=
  Rltb (atan2 y (Rabs x)) (PI / 4) && Rltb (1 / 3) y.

(** The projection of the room under the two room-state observation modes. *)
Definition project_room {E : Type} `{GymEnv E} (ot : ObsType) (room : Room) : Obs E :=
  match ot with
  | ROOM_STATE_VECTOR => ObsCells (flatten room)
  | _ => ObsGrid room
  end.

(** ** Worked configurations *)

(** A lander-like environment frozen on the observation [(x, y)], and its
    wrapper with the cone rule on. *)
Definition lander_env (x y : R) : FixedEnv :=
  mkFixedEnv None None [x; y] 0 false [2] (Discrete 4).

Definition lander_wrapper (x y : R) : EnvWrapper FixedEnv :=
  mkEnvWrapper BOX2D (lander_env x y) "LunarLander-v2" 300 REGULAR 0 [] []
    true false 2 4.

(** A Sokoban-like environment frozen on a room, the player at row 2,
    column 1, answering every step with the observation [obs]; and its
    push/pull wrapper with the move rule on. *)
Definition sokoban_env (room : Room) (obs : list R) : FixedEnv :=
  mkFixedEnv (Some room) (Some (2, 1)) obs 0 false [2] (Discrete 13).

Definition sokoban_wrapper (room : Room) (obs : list R) (cone : bool)
  : EnvWrapper FixedEnv :=
  mkEnvWrapper OBS_REGULAR (sokoban_env room obs) "Sokoban-v0" 300 PUSH_PULL 0 [] []
    cone true 2 8.

(** The same environment observed through its room state. *)
Definition room_wrapper (room : Room) (ot : ObsType) : EnvWrapper FixedEnv :=
  mkEnvWrapper ot (sokoban_env room []) "Sokoban-v0" 300 PUSH_ONLY 0 [] []
    false false
    (match ot with
     | ROOM_STATE_VECTOR => Z.of_nat (length room) ^ 2
     | ROOM_STATE_MATRIX => Z.of_nat (length room)
     | _ => 2
     end) 4.

(** A continuous-control environment with two engines, both bounded by
    [-1] and [1]. *)
Definition continuous_env : FixedEnv :=
  mkFixedEnv None None [0%R; 0%R] 0 false [8] (Box [-1; -1]%Q [1; 1]%Q).

Definition gaussian_wrapper : EnvWrapper FixedEnv :=
  mkEnvWrapper BOX2D continuous_env "LunarLanderContinuous-v2" 300 GAUSSIAN 0 [] []
    false false 8 2.

(** ** Maxima *)

(** [m] is a greatest element of [xs]. *)
Definition is_max (xs : list R) (m : R) : Prop :=
  In m xs /\ forall y, In y xs -> (y <= m)%R.

(** The constructor arguments of a DISCRETIZIED wrapper with
    [num_discrete = n]. *)
Definition discretized_kwargs (n : Z) : Kwargs :=
  mkKwargs (Some false) (Some false) (Some n).

(** A table whose entries grow from one to the next. *)
Definition increasing (l : list Q) : Prop :=
  forall i a b, nth_error l i = Some a -> nth_error l (Datatypes.S i) = Some b ->
                (a < b)%Q.

(** The log-density of [Normal(mu, sigma)] at [x], as
    [torch.distributions.Normal.log_prob] computes it; the quantity the
    Gaussian branch does not use. *)
Definition normal_log_density (x mu sigma : R) : R :=
  (- ((x - mu) ^ 2) / (2 * sigma ^ 2) - ln sigma - ln (sqrt (2 * PI)))%R.

(** A pool of three wrapped rooms. *)
Definition room_pool : list (EnvWrapper FixedEnv) :=
  [room_wrapper room_with_box ROOM_STATE_VECTOR;
   room_wrapper room_without_box ROOM_STATE_VECTOR;
   room_wrapper floor_room ROOM_STATE_VECTOR].

(** A grid as numpy holds it: every row has [w] cells; and as the game
    fills it: every cell is a tile code. *)
Definition rectangular (room : Room) (w : Z) : Prop :=
  Forall (fun row => Z.of_nat (length row) = w) room.

Definition tile_codes (room : Room) : Prop :=
  Forall (Forall (fun v => 0 <= v <= 5)) room.

(** ** On-policy action selection *)

(** [F.softmax(q_vals, dim=1)], one row, over the reals.  What follows uses
    the shape of the result only: in floating point a weight may round to
    zero, where the real one is positive. *)
Definition softmax_row (row : list R) : list R :=
  let total := fold_right Rplus 0%R (map exp row) in
  map (fun x => (exp x / total)%R) row.

(** [torch.multinomial(weights, 1)] with its outcome [draw] given: a row
    without entries is refused. *)
Definition multinomial1 (weights : list (list R)) (draw : list nat) : result (list nat) :=
  if existsb (fun row => Nat.eqb (length row) 0) weights
  then Raise RuntimeError
  else Ok draw.

(** [table[i]] on a one-dimensional tensor, for a sampled index. *)
Definition table_get (table : list Q) (i : nat) : result Q :=
  match nth_error table i with
  | Some v => Ok v
  | None => Raise IndexError
  end.

(** The action [on_policy] returns: a Python integer, or the table values
    chosen for each control dimension. *)
Inductive PolicyAction : Type :=
| PInt (i : Z)
| PValues (v : list Q).

Definition LUNAR_LANDER : string := "LunarLanderContinuous-v2".

(** [on_policy], on a two-dimensional tensor of value estimates given row
    by row, with the outcome [draw] of the multinomial draw. *)
Definition on_policy {E : Type} (w : EnvWrapper E) (q_vals : list (list R))
    (draw : list nat) : result (PolicyAction * list nat) :=
  let activated := map softmax_row q_vals in
  match action_type w with
  | REGULAR =>
      action_idx <- multinomial1 activated draw ;;
      match action_idx with
      | [i] => Ok (PInt (Z.of_nat i), [i])
      | _ => Raise RuntimeError
      end
  | DISCRETIZIED =>
      action_idx <- multinomial1 activated draw ;;
      if String.eqb (env_name w) LUNAR_LANDER then
        i0 <- seq_get action_idx 0 ;;
        a0 <- table_get (discrete_array w) i0 ;;
        i1 <- seq_get action_idx 1 ;;
        a1 <- table_get (split_discrete_array w) i1 ;;
        Ok (PValues [a0; a1], action_idx)
      else
        action <- map_result (table_get (discrete_array w)) action_idx ;;
        Ok (PValues action, action_idx)
  | _ => Raise NotImplementedError
  end.

(** ** Statistics *)

(** [xs[-k:]]: the last [k] elements for [0 < k]; a start index of zero
    or before the beginning is the beginning. *)
Definition py_last {A : Type} (xs : list A) (k : Z) : list A :=
  let n := Z.of_nat (length xs) in
  let start := - k in
  let start := if start <? 0 then Z.max (start + n) 0 else Z.min start n in
  skipn (Z.to_nat start) xs.

(** [np.mean(xs)]; the mean of no numbers is not a number. *)
Definition np_mean (xs : list R) : option R :=
  match xs with
  | [] => None
  | _ => Some (fold_right Rplus 0%R xs / INR (length xs))%R
  end.

(** What [print_stats] reads of the agent. *)
Record AgentStats : Type := mkAgentStats {
  all_rewards : list R;
  all_lengths : list R;
  all_times : list R
}.

(** The three averages that [print_stats] formats into its line. *)
Definition print_stats_means (agent : AgentStats) (print_interval : Z)
  : option R * option R * option R :=
  (np_mean (py_last (all_rewards agent) print_interval),
   np_mean (py_last (all_lengths agent) print_interval),
   np_mean (py_last (all_times agent) print_interval)).

(** ** Runs of the pool *)

Section Runs.

Variables (X S : Type).
Variable reset_env : X -> result (S * X).

(** [k] turns of the worker's loop. *)
Fixpoint worker_turns (k : nat) (g : AsyncEnvGen X S) : AsyncEnvGen X S :=
  match k with
  | O => g
  | Datatypes.S k => worker_turn X S reset_env (worker_turns k g)
  end.

(** [k] calls of [get_reset_env], each of which returns: the pairs handed
    out, oldest first, and the pool after them. *)
Fixpoint get_many (k : nat) (g : AsyncEnvGen X S)
  : option (list (S * X) * AsyncEnvGen X S) :=
  match k with
  | O => Some ([], g)
  | Datatypes.S k =>
      match get_reset_env X S reset_env g with
      | Ok (Done (item, g')) =>
          match get_many k g' with
          | Some (items, g'') => Some (item :: items, g'')
          | None => None
          end
      | _ => None
      end
  end.

End Runs.


(** The push and the pull in the direction of a move. *)
Definition push_of (move : MoveType) : MoveType :=
  match move with
  | PUSH_UP | PULL_UP => PUSH_UP
  | PUSH_DOWN | PULL_DOWN => PUSH_DOWN
  | PUSH_LEFT | PULL_LEFT => PUSH_LEFT
  | PUSH_RIGHT | PULL_RIGHT => PUSH_RIGHT
  end.

Definition pull_of (move : MoveType) : MoveType :=
  match move with
  | PUSH_UP | PULL_UP => PULL_UP
  | PUSH_DOWN | PULL_DOWN => PULL_DOWN
  | PUSH_LEFT | PULL_LEFT => PULL_LEFT
  | PUSH_RIGHT | PULL_RIGHT => PULL_RIGHT
  end.

(** The integers that are the value of a move. *)
Definition is_move_value (v : Z) : Prop := 1 <= v <= 4 \/ 9 <= v <= 12.

(** The Sokoban-like environment under its own action numbering, with the
    move rule on. *)
Definition regular_wrapper (room : Room) : EnvWrapper FixedEnv :=
  mkEnvWrapper OBS_REGULAR (sokoban_env room []) "Sokoban-v0" 300 REGULAR 0 [] []
    false true 2 13.

(** A room of two rows and three columns. *)
Definition wide_room : Room :=
  [[0; 5; 0];
   [0; 1; 0]].

(** ** An environment that carries out pulls

    A Sokoban-like environment for rooms without targets, in which a pull
    is carried out as the game does: when the cell ahead of the player is
    floor the player steps onto it, and a box behind the player follows
    onto the cell the player left.  Every other action leaves the room as
    it is.  Every step returns reward 0 and done false. *)
Record PullEnv : Type := mkPullEnv {
  pe_room : Room;
  pe_pos : Z * Z
}.

(** [room[i, j] = v] for a cell inside the grid. *)
Definition set_cell (room : Room) (i j v : Z) : Room :=
  list_set room (Z.to_nat i) (list_set (nth (Z.to_nat i) room []) (Z.to_nat j) v).

Definition pull (e : PullEnv) (move : MoveType) : PullEnv :=
  let ahead := cell_ahead (pe_pos e) move in
  let behind := cell_behind (pe_pos e) move in
  let here := pe_pos e in
  match cell_at (pe_room e) (fst ahead) (snd ahead) with
  | Some a =>
      if a =? 1 then
        let room := set_cell (pe_room e) (fst ahead) (snd ahead) 5 in
        let room := set_cell room (fst here) (snd here) 1 in
        match cell_at room (fst behind) (snd behind) with
        | Some b =>
            if b =? 4 then
              let room := set_cell room (fst here) (snd here) 4 in
              let room := set_cell room (fst behind) (snd behind) 1 in
              mkPullEnv room ahead
            else mkPullEnv room ahead
        | None => mkPullEnv room ahead
        end
      else e
  | None => e
  end.

Definition PullEnv_GymEnv : GymEnv PullEnv := {|
  RawObs := list R;
  StepInfo := unit;
  env_reset := fun e => ([], e);
  env_step := fun e a =>
    Ok ([], 0%R, false, tt,
        match a with
        | AInt i =>
            match MoveType_of i with
            | Ok move => if is_pull move then pull e move else e
            | Raise _ => e
            end
        | AArr _ => e
        end);
  env_room_state := fun e => Some (pe_room e);
  env_player_position := fun e => Some (pe_pos e);
  env_set_max_steps := fun e _ => e;
  observation_shape := fun _ => [160; 160; 3];
  action_space := fun _ => Discrete 13;
  raw_item := fun o i => seq_get o i
|}.

(** The push/pull wrapper of such an environment, with the move rule on
    and the cone rule off. *)
Definition pull_wrapper (e : PullEnv) : EnvWrapper PullEnv :=
  mkEnvWrapper OBS_REGULAR e "PushAndPull-Sokoban-v0" 300 PUSH_PULL 0 [] []
    false true 160 8.

(** [room_with_box] after the player has pulled the box one cell up. *)
Definition room_after_pull : Room :=
  [[0; 0; 0];
   [0; 5; 0];
   [0; 4; 0];
   [0; 1; 0];
   [0; 0; 0]].

(** * Properties *)

(** ** Indexing *)

Lemma norm_index_inside (n i : Z) :
  0 <= i < n -> norm_index n i = Ok i.
Proof.
  intros Hi. unfold norm_index.
  destruct (0 <=? i) eqn:H0; [| lia].
  destruct (i <? n) eqn:H1; [reflexivity | lia].
Qed.

Lemma norm_index_wrap (n i : Z) :
  - n <= i < 0 -> norm_index n i = Ok (i + n).
Proof.
  intros Hi. unfold norm_index.
  destruct (0 <=? i) eqn:H0; [lia |]. simpl.
  destruct (- n <=? i) eqn:H1; [| lia].
  destruct (i <? 0) eqn:H2; [reflexivity | lia].
Qed.

Lemma norm_index_outside (n i : Z) :
  i < - n \/ n <= i -> 0 <= n -> norm_index n i = Raise IndexError.
Proof.
  intros Hi Hn. unfold norm_index.
  destruct (0 <=? i) eqn:H0; destruct (i <? n) eqn:H1; simpl; try lia;
    destruct (- n <=? i) eqn:H2; destruct (i <? 0) eqn:H3; simpl; try lia; reflexivity.
Qed.

Lemma norm_index_range (n i k : Z) :
  norm_index n i = Ok k -> 0 <= k < n /\ (k = i \/ (i < 0 /\ k = i + n)).
Proof.
  unfold norm_index.
  destruct (0 <=? i) eqn:H0; destruct (i <? n) eqn:H1; simpl;
    try (intros [= <-]; lia);
    destruct (- n <=? i) eqn:H2; destruct (i <? 0) eqn:H3; simpl;
    try discriminate; intros [= <-]; lia.
Qed.

Lemma cell_at_Some (room : Room) (i j v : Z) :
  cell_at room i j = Some v ->
  0 <= i /\ 0 <= j /\
  exists row, nth_error room (Z.to_nat i) = Some row /\
              nth_error row (Z.to_nat j) = Some v.
Proof.
  unfold cell_at.
  destruct (0 <=? i) eqn:Hi; destruct (0 <=? j) eqn:Hj; simpl; try discriminate.
  destruct (nth_error room (Z.to_nat i)) as [row |] eqn:Hrow; try discriminate.
  intros Hv. repeat split; try lia. exists row. split; [reflexivity | assumption].
Qed.

(** Inside the grid, [room[i, j]] is the cell at row [i], column [j]. *)
Lemma room_get_inside (room : Room) (i j v : Z) :
  cell_at room i j = Some v -> room_get room i j = Ok v.
Proof.
  intros Hc. apply cell_at_Some in Hc as (Hi & Hj & row & Hrow & Hv).
  assert (Hli : (Z.to_nat i < length room)%nat)
    by (apply nth_error_Some; congruence).
  assert (Hlj : (Z.to_nat j < length row)%nat)
    by (apply nth_error_Some; congruence).
  unfold room_get.
  rewrite norm_index_inside by lia. simpl.
  rewrite (nth_error_nth room (Z.to_nat i) [] Hrow).
  rewrite norm_index_inside by lia. simpl.
  rewrite (nth_error_nth row (Z.to_nat j) 0 Hv). reflexivity.
Qed.

(** Outside the grid, [room[i, j]] raises, or a negative index wraps and
    the value comes from another cell of the grid. *)
Lemma room_get_outside (room : Room) (i j : Z) :
  cell_at room i j = None ->
  room_get room i j = Raise IndexError \/
  exists i' j' v,
    (i' <> i \/ j' <> j) /\ (i < 0 \/ j < 0) /\
    cell_at room i' j' = Some v /\ room_get room i j = Ok v.
Proof.
  intros Hc. unfold room_get.
  destruct (norm_index (Z.of_nat (length room)) i) as [i' | e] eqn:Hni.
  2:{ left. simpl. unfold norm_index in Hni.
      destruct ((0 <=? i) && (i <? Z.of_nat (length room))); try discriminate.
      destruct ((- Z.of_nat (length room) <=? i) && (i <? 0)); try discriminate.
      injection Hni as <-. reflexivity. }
  simpl. apply norm_index_range in Hni as [Hi' Hi].
  set (row := nth (Z.to_nat i') room []).
  destruct (norm_index (Z.of_nat (length row)) j) as [j' | e] eqn:Hnj.
  2:{ left. simpl. unfold norm_index in Hnj.
      destruct ((0 <=? j) && (j <? Z.of_nat (length row))); try discriminate.
      destruct ((- Z.of_nat (length row) <=? j) && (j <? 0)); try discriminate.
      injection Hnj as <-. reflexivity. }
  simpl. apply norm_index_range in Hnj as [Hj' Hj].
  assert (Hrow : nth_error room (Z.to_nat i') = Some row).
  { unfold row. apply nth_error_nth'. lia. }
  assert (Hv : nth_error row (Z.to_nat j') = Some (nth (Z.to_nat j') row 0)).
  { apply nth_error_nth'. lia. }
  assert (Hc' : cell_at room i' j' = Some (nth (Z.to_nat j') row 0)).
  { unfold cell_at.
    destruct (0 <=? i') eqn:A; [| lia]. destruct (0 <=? j') eqn:B; [| lia].
    simpl. rewrite Hrow. exact Hv. }
  right. exists i', j', (nth (Z.to_nat j') row 0).
  assert (Hne : i' <> i \/ j' <> j).
  { destruct Hi as [-> | [Hi ->]]; [| left; lia].
    destruct Hj as [-> | [Hj ->]]; [| right; lia].
    rewrite Hc' in Hc. discriminate. }
  repeat split; try assumption.
  destruct Hi as [-> | [Hi _]]; [| left; lia].
  destruct Hj as [-> | [Hj _]]; [| right; lia].
  rewrite Hc' in Hc. discriminate.
Qed.

(** ** The validator *)

Lemma displacement_move_delta (move : MoveType) :
  displacement move = (snd (move_delta move), fst (move_delta move)).
Proof. destruct move; reflexivity. Qed.

Lemma is_pull_PULL_MOVES (move : MoveType) :
  move_in move PULL_MOVES = is_pull move.
Proof. destruct move; reflexivity. Qed.

Lemma is_pull_In (move : MoveType) :
  is_pull move = true <-> In move PULL_MOVES.
Proof.
  split.
  - destruct move; simpl; try discriminate; intros _; tauto.
  - intros Hin. simpl in Hin.
    repeat (destruct Hin as [<- | Hin]; [reflexivity |]). contradiction.
Qed.

Lemma get_tiles_cells (room : Room) (pos : Z * Z) (move : MoveType) :
  get_tiles room pos move =
  (a <- room_get room (fst (cell_ahead pos move)) (snd (cell_ahead pos move)) ;;
   tile_after <- TileType_of a ;;
   b <- room_get room (fst (cell_behind pos move)) (snd (cell_behind pos move)) ;;
   tile_before <- TileType_of b ;;
   Ok (tile_after, tile_before)).
Proof. destruct move; reflexivity. Qed.

(** The verdict on the two tiles that [get_tiles] returned. *)
Lemma is_valid_command_verdict (room : Room) (pos : Z * Z) (move : MoveType) :
  is_valid_command room pos move =
  ('(tile_after, tile_before) <- get_tiles room pos move ;;
   Ok (spec_verdict (Some tile_after) (Some tile_before) move)).
Proof.
  unfold is_valid_command.
  destruct (get_tiles room pos move) as [[ta tb] | e]; simpl; [| reflexivity].
  destruct ta, tb, move; reflexivity.
Qed.

Lemma tile_at_Some (room : Room) (i j : Z) (t : TileType) :
  tile_at room i j = Some t ->
  exists v, cell_at room i j = Some v /\ TileType_of v = Ok t.
Proof.
  unfold tile_at. destruct (cell_at room i j) as [v |]; try discriminate.
  destruct (TileType_of v) as [t' | e] eqn:Ht; try discriminate.
  intros [= <-]. exists v. split; [reflexivity | exact Ht].
Qed.

(** With both neighbours inside the grid, [get_tiles] returns them and the
    validator gives the verdict of the specification. *)
Lemma is_valid_command_inside (room : Room) (pos : Z * Z) (move : MoveType)
    (ta tb : TileType) :
  tile_at room (fst (cell_ahead pos move)) (snd (cell_ahead pos move)) = Some ta ->
  tile_at room (fst (cell_behind pos move)) (snd (cell_behind pos move)) = Some tb ->
  get_tiles room pos move = Ok (ta, tb) /\
  is_valid_command room pos move = Ok (spec_is_valid room pos move).
Proof.
  intros Ha Hb.
  assert (Hg : get_tiles room pos move = Ok (ta, tb)).
  { rewrite get_tiles_cells.
    destruct (tile_at_Some _ _ _ _ Ha) as (a & Hca & Hta).
    destruct (tile_at_Some _ _ _ _ Hb) as (b & Hcb & Htb).
    rewrite (room_get_inside _ _ _ _ Hca). cbn [bind]. rewrite Hta. cbn [bind].
    rewrite (room_get_inside _ _ _ _ Hcb). cbn [bind]. rewrite Htb. reflexivity. }
  split; [exact Hg |].
  rewrite is_valid_command_verdict, Hg. simpl.
  unfold spec_is_valid. rewrite Ha, Hb. reflexivity.
Qed.

Lemma spec_verdict_false (ta tb : TileType) (move : MoveType) :
  spec_verdict (Some ta) (Some tb) move = false <->
  ta = WALL \/ (In move PULL_MOVES /\ tb <> BOX /\ tb <> BOX_ON_TARGET).
Proof.
  rewrite <- is_pull_In. split.
  - destruct ta, tb, move; simpl; intros Hv; try discriminate;
      first [ left; reflexivity
            | right; repeat split; try reflexivity; discriminate ].
  - intros [-> | (Hp & Hb1 & Hb2)]; [reflexivity |].
    destruct ta, tb, move; simpl in *; try reflexivity; try discriminate;
      congruence.
Qed.

Lemma TileType_of_code (v : Z) :
  0 <= v <= 5 -> exists t, TileType_of v = Ok t.
Proof.
  intros Hv.
  assert (Hc : v = 0 \/ v = 1 \/ v = 2 \/ v = 3 \/ v = 4 \/ v = 5) by lia.
  destruct Hc as [-> | [-> | [-> | [-> | [-> | ->]]]]]; eexists; reflexivity.
Qed.

Lemma cell_at_In (room : Room) (i j v : Z) :
  cell_at room i j = Some v -> exists row, In row room /\ In v row.
Proof.
  intros Hc. apply cell_at_Some in Hc as (_ & _ & row & Hrow & Hv).
  exists row. split; eapply nth_error_In; eassumption.
Qed.

Lemma tile_codes_cell (room : Room) (i j v : Z) :
  tile_codes room -> cell_at room i j = Some v -> exists t, TileType_of v = Ok t.
Proof.
  intros Hcodes Hc. apply cell_at_In in Hc as (row & Hrow & Hv).
  apply TileType_of_code.
  unfold tile_codes in Hcodes. rewrite Forall_forall in Hcodes.
  specialize (Hcodes row Hrow). rewrite Forall_forall in Hcodes.
  exact (Hcodes v Hv).
Qed.

(** Every position of a rectangular grid of tile codes holds a tile. *)
Lemma tile_at_inside (room : Room) (w i j : Z) :
  rectangular room w -> tile_codes room ->
  0 <= i < Z.of_nat (length room) -> 0 <= j < w ->
  exists t, tile_at room i j = Some t.
Proof.
  intros Hrect Hcodes Hi Hj.
  destruct (nth_error room (Z.to_nat i)) as [row |] eqn:Hrow.
  2:{ apply nth_error_None in Hrow. lia. }
  assert (Hlen : Z.of_nat (length row) = w).
  { unfold rectangular in Hrect. rewrite Forall_forall in Hrect.
    apply Hrect. eapply nth_error_In. eassumption. }
  destruct (nth_error row (Z.to_nat j)) as [v |] eqn:Hv.
  2:{ apply nth_error_None in Hv. lia. }
  assert (Hc : cell_at room i j = Some v).
  { unfold cell_at.
    destruct (0 <=? i) eqn:A; [| lia]. destruct (0 <=? j) eqn:B; [| lia].
    simpl. rewrite Hrow. exact Hv. }
  destruct (tile_codes_cell _ _ _ _ Hcodes Hc) as [t Ht].
  exists t. unfold tile_at. rewrite Hc, Ht. reflexivity.
Qed.

Lemma tile_at_room_get (room : Room) (i j : Z) (t : TileType) :
  tile_at room i j = Some t ->
  exists v, room_get room i j = Ok v /\ TileType_of v = Ok t.
Proof.
  intros Ht. apply tile_at_Some in Ht as (v & Hc & Hv).
  exists v. split; [apply room_get_inside; exact Hc | exact Hv].
Qed.

(** A negative row index reads the row counted from the bottom. *)
Lemma room_get_wrap_row (room : Room) (i j : Z) :
  - Z.of_nat (length room) <= i < 0 ->
  room_get room i j = room_get room (i + Z.of_nat (length room)) j.
Proof.
  intros Hi. unfold room_get.
  rewrite norm_index_wrap by exact Hi.
  rewrite norm_index_inside by lia. reflexivity.
Qed.

(** A negative column index reads the column counted from the right. *)
Lemma room_get_wrap_col (room : Room) (w i j : Z) :
  rectangular room w -> 0 <= i < Z.of_nat (length room) -> - w <= j < 0 ->
  room_get room i j = room_get room i (j + w).
Proof.
  intros Hrect Hi Hj. unfold room_get.
  rewrite norm_index_inside by exact Hi. cbn [bind].
  assert (Hlen : Z.of_nat (length (nth (Z.to_nat i) room [])) = w).
  { unfold rectangular in Hrect. rewrite Forall_forall in Hrect.
    apply Hrect. apply nth_In. lia. }
  rewrite Hlen.
  rewrite norm_index_wrap by exact Hj.
  rewrite norm_index_inside by lia. reflexivity.
Qed.

(** Past the last row, and past the last column, [room[i, j]] raises. *)
Lemma room_get_past_rows (room : Room) (j : Z) :
  room_get room (Z.of_nat (length room)) j = Raise IndexError.
Proof.
  unfold room_get. rewrite norm_index_outside by lia. reflexivity.
Qed.

Lemma room_get_past_cols (room : Room) (w i : Z) :
  rectangular room w -> 0 <= i < Z.of_nat (length room) ->
  room_get room i w = Raise IndexError.
Proof.
  intros Hrect Hi. unfold room_get.
  rewrite norm_index_inside by exact Hi. cbn [bind].
  assert (Hlen : Z.of_nat (length (nth (Z.to_nat i) room [])) = w).
  { unfold rectangular in Hrect. rewrite Forall_forall in Hrect.
    apply Hrect. apply nth_In. lia. }
  rewrite Hlen. rewrite norm_index_outside by lia. reflexivity.
Qed.

(** Whatever [room[i, j]] returns is the content of some cell. *)
Lemma room_get_Ok_cell (room : Room) (i j v : Z) :
  room_get room i j = Ok v -> exists i' j', cell_at room i' j' = Some v.
Proof.
  intros Hg. destruct (cell_at room i j) as [v' |] eqn:Hc.
  - rewrite (room_get_inside _ _ _ _ Hc) in Hg. injection Hg as <-.
    exists i, j. exact Hc.
  - destruct (room_get_outside _ _ _ Hc) as [Hr | (i' & j' & v' & _ & _ & Hc' & Hg')].
    + rewrite Hr in Hg. discriminate.
    + rewrite Hg' in Hg. injection Hg as <-. exists i', j'. exact Hc'.
Qed.

Lemma room_get_raise (room : Room) (i j : Z) (e : exn) :
  room_get room i j = Raise e -> e = IndexError.
Proof.
  unfold room_get, norm_index.
  destruct ((0 <=? i) && (i <? Z.of_nat (length room)));
    [| destruct ((- Z.of_nat (length room) <=? i) && (i <? 0)) ]; cbn [bind];
    try (intros [= <-]; reflexivity);
    match goal with
    | |- context [nth ?k room []] => set (row := nth k room [])
    end;
    (destruct ((0 <=? j) && (j <? Z.of_nat (length row)));
     [| destruct ((- Z.of_nat (length row) <=? j) && (j <? 0)) ]; cbn [bind];
     try discriminate; intros [= <-]; reflexivity).
Qed.

Lemma get_tiles_at (room : Room) (pos : Z * Z) (move : MoveType)
    (ia ja ib jb a b : Z) (ta tb : TileType) :
  cell_ahead pos move = (ia, ja) -> cell_behind pos move = (ib, jb) ->
  room_get room ia ja = Ok a -> TileType_of a = Ok ta ->
  room_get room ib jb = Ok b -> TileType_of b = Ok tb ->
  get_tiles room pos move = Ok (ta, tb) /\
  is_valid_command room pos move = Ok (spec_verdict (Some ta) (Some tb) move).
Proof.
  intros Ha Hb Hga Hta Hgb Htb.
  assert (Hg : get_tiles room pos move = Ok (ta, tb)).
  { rewrite get_tiles_cells, Ha, Hb. cbn [fst snd].
    rewrite Hga. cbn [bind]. rewrite Hta. cbn [bind].
    rewrite Hgb. cbn [bind]. rewrite Htb. reflexivity. }
  split; [exact Hg |].
  rewrite is_valid_command_verdict, Hg. reflexivity.
Qed.

Lemma get_tiles_ahead_raises (room : Room) (pos : Z * Z) (move : MoveType) (e : exn) :
  room_get room (fst (cell_ahead pos move)) (snd (cell_ahead pos move)) = Raise e ->
  get_tiles room pos move = Raise e /\ is_valid_command room pos move = Raise e.
Proof.
  intros Hg.
  assert (Ht : get_tiles room pos move = Raise e).
  { rewrite get_tiles_cells, Hg. reflexivity. }
  split; [exact Ht |].
  rewrite is_valid_command_verdict, Ht. reflexivity.
Qed.

(** ** C1: the verdict of the validator *)

(** C1, as the code has it: for every grid, position and move whose two
    cells along the move axis (one ahead, one behind) lie inside the grid
    and hold tiles, [is_valid_command] returns the verdict of the
    specification: false exactly when the tile ahead is WALL, or the move is
    one of the four pull moves and the tile behind is neither BOX nor
    BOX_ON_TARGET, and true in every other case.  The function takes and
    returns values only; it has no state to change. *)
Theorem is_valid_command_spec (room : Room) (pos : Z * Z) (move : MoveType)
    (ta tb : TileType) :
  tile_at room (fst (cell_ahead pos move)) (snd (cell_ahead pos move)) = Some ta ->
  tile_at room (fst (cell_behind pos move)) (snd (cell_behind pos move)) = Some tb ->
  get_tiles room pos move = Ok (ta, tb) /\
  (is_valid_command room pos move = Ok false <->
   ta = WALL \/ (In move PULL_MOVES /\ tb <> BOX /\ tb <> BOX_ON_TARGET)) /\
  (is_valid_command room pos move = Ok true <->
   ~ (ta = WALL \/ (In move PULL_MOVES /\ tb <> BOX /\ tb <> BOX_ON_TARGET))).
Proof.
  intros Ha Hb.
  destruct (is_valid_command_inside room pos move ta tb Ha Hb) as [Hg Hv].
  split; [exact Hg |].
  rewrite Hv. unfold spec_is_valid. rewrite Ha, Hb.
  pose proof (spec_verdict_false ta tb move) as Hf.
  destruct (spec_verdict (Some ta) (Some tb) move) eqn:Hs.
  - split.
    + split; [discriminate |]. intros Hc. apply Hf in Hc. discriminate.
    + split; [| reflexivity]. intros _ Hc. apply Hf in Hc. discriminate.
  - split.
    + split; [| reflexivity]. intros _. apply Hf. reflexivity.
    + split; [discriminate |]. intros Hn. exfalso. apply Hn, Hf. reflexivity.
Qed.

Lemma is_valid_command_spec_witness :
  tile_at room_with_box (fst (cell_ahead (2, 1) PULL_UP))
                        (snd (cell_ahead (2, 1) PULL_UP)) = Some FLOOR /\
  tile_at room_with_box (fst (cell_behind (2, 1) PULL_UP))
                        (snd (cell_behind (2, 1) PULL_UP)) = Some BOX /\
  get_tiles room_with_box (2, 1) PULL_UP = Ok (FLOOR, BOX) /\
  (is_valid_command room_with_box (2, 1) PULL_UP = Ok false <->
   FLOOR = WALL \/ (In PULL_UP PULL_MOVES /\ BOX <> BOX /\ BOX <> BOX_ON_TARGET)) /\
  (is_valid_command room_with_box (2, 1) PULL_UP = Ok true <->
   ~ (FLOOR = WALL \/ (In PULL_UP PULL_MOVES /\ BOX <> BOX /\ BOX <> BOX_ON_TARGET))).
Proof.
  split; [reflexivity |]. split; [reflexivity |].
  apply (is_valid_command_spec room_with_box (2, 1) PULL_UP FLOOR BOX);
    reflexivity.
Defined.

(** C1 as stated fails on the bottom row: the player stands at row 2 of a
    3 x 3 room of floor tiles and pushes down.  No tile lies ahead, so none
    is WALL, and the move is not a pull: the stated rule answers true.  The
    code indexes row 3 and raises. *)
Lemma is_valid_command_edge_counterexample :
  spec_is_valid floor_room (2, 1) PUSH_DOWN = true /\
  is_valid_command floor_room (2, 1) PUSH_DOWN = Raise IndexError.
Proof. split; reflexivity. Qed.

(** ** C10: the validator at the edges of the grid *)

(** C10: [get_tiles] indexes the grid with no bounds check.  On a
    rectangular grid of tile codes with [n] rows and [w] columns:
    - from the top row, a move up reads row [-1], which is row [n - 1], the
      bottom row, and the validator returns a verdict computed from that
      tile (at least two rows); likewise from the leftmost column a move
      left reads the rightmost column;
    - from the bottom row a move down, and from the rightmost column a move
      right, raise [IndexError];
    - when both cells along the move axis lie inside the grid, the verdict
      is the one of the specification; when one does not, the validator
      raises [IndexError] or returns a verdict from a cell that is not the
      neighbour. *)
Theorem get_tiles_edge_behaviour (room : Room) (w : Z) :
  rectangular room w -> tile_codes room ->
  (forall c move, 2 <= Z.of_nat (length room) -> 0 <= c < w ->
     move_delta move = (-1, 0) ->
     exists ta tb,
       cell_at room (fst (cell_ahead (0, c) move)) (snd (cell_ahead (0, c) move)) = None /\
       tile_at room (Z.of_nat (length room) - 1) c = Some ta /\
       tile_at room 1 c = Some tb /\
       get_tiles room (0, c) move = Ok (ta, tb) /\
       is_valid_command room (0, c) move = Ok (spec_verdict (Some ta) (Some tb) move)) /\
  (forall r move, 2 <= w -> 0 <= r < Z.of_nat (length room) ->
     move_delta move = (0, -1) ->
     exists ta tb,
       cell_at room (fst (cell_ahead (r, 0) move)) (snd (cell_ahead (r, 0) move)) = None /\
       tile_at room r (w - 1) = Some ta /\
       tile_at room r 1 = Some tb /\
       get_tiles room (r, 0) move = Ok (ta, tb) /\
       is_valid_command room (r, 0) move = Ok (spec_verdict (Some ta) (Some tb) move)) /\
  (forall c move, move_delta move = (1, 0) ->
     get_tiles room (Z.of_nat (length room) - 1, c) move = Raise IndexError /\
     is_valid_command room (Z.of_nat (length room) - 1, c) move = Raise IndexError) /\
  (forall r move, 0 <= r < Z.of_nat (length room) -> move_delta move = (0, 1) ->
     get_tiles room (r, w - 1) move = Raise IndexError /\
     is_valid_command room (r, w - 1) move = Raise IndexError) /\
  (forall pos move ta tb,
     tile_at room (fst (cell_ahead pos move)) (snd (cell_ahead pos move)) = Some ta ->
     tile_at room (fst (cell_behind pos move)) (snd (cell_behind pos move)) = Some tb ->
     is_valid_command room pos move = Ok (spec_is_valid room pos move)) /\
  (forall pos move,
     cell_at room (fst (cell_ahead pos move)) (snd (cell_ahead pos move)) = None \/
     cell_at room (fst (cell_behind pos move)) (snd (cell_behind pos move)) = None ->
     is_valid_command room pos move = Raise IndexError \/
     exists i j i' j' v verdict,
       ((i, j) = cell_ahead pos move \/ (i, j) = cell_behind pos move) /\
       cell_at room i j = None /\
       (i' <> i \/ j' <> j) /\ cell_at room i' j' = Some v /\
       room_get room i j = Ok v /\
       is_valid_command room pos move = Ok verdict).
Proof.
  intros Hrect Hcodes.
  split; [| split; [| split; [| split; [| split]]]].
  - intros c move Hn Hc Hd.
    destruct (tile_at_inside room w (Z.of_nat (length room) - 1) c Hrect Hcodes)
      as [ta Hta]; try lia.
    destruct (tile_at_inside room w 1 c Hrect Hcodes) as [tb Htb]; try lia.
    destruct (tile_at_room_get _ _ _ _ Hta) as (a & Hga & Hka).
    destruct (tile_at_room_get _ _ _ _ Htb) as (b & Hgb & Hkb).
    exists ta, tb.
    assert (Hah : cell_ahead (0, c) move = (-1, c)).
    { unfold cell_ahead. rewrite Hd. cbn [fst snd]. f_equal; lia. }
    assert (Hbe : cell_behind (0, c) move = (1, c)).
    { unfold cell_behind. rewrite Hd. cbn [fst snd]. f_equal; lia. }
    split; [rewrite Hah; reflexivity |].
    split; [exact Hta |]. split; [exact Htb |].
    apply (get_tiles_at room (0, c) move (-1) c 1 c a b ta tb Hah Hbe); try assumption.
    rewrite room_get_wrap_row by lia.
    replace (-1 + Z.of_nat (length room)) with (Z.of_nat (length room) - 1) by lia.
    exact Hga.
  - intros r move Hw Hr Hd.
    destruct (tile_at_inside room w r (w - 1) Hrect Hcodes) as [ta Hta]; try lia.
    destruct (tile_at_inside room w r 1 Hrect Hcodes) as [tb Htb]; try lia.
    destruct (tile_at_room_get _ _ _ _ Hta) as (a & Hga & Hka).
    destruct (tile_at_room_get _ _ _ _ Htb) as (b & Hgb & Hkb).
    exists ta, tb.
    assert (Hah : cell_ahead (r, 0) move = (r, -1)).
    { unfold cell_ahead. rewrite Hd. cbn [fst snd]. f_equal; lia. }
    assert (Hbe : cell_behind (r, 0) move = (r, 1)).
    { unfold cell_behind. rewrite Hd. cbn [fst snd]. f_equal; lia. }
    split.
    { rewrite Hah. cbn [fst snd]. unfold cell_at.
      destruct (0 <=? r); reflexivity. }
    split; [exact Hta |]. split; [exact Htb |].
    apply (get_tiles_at room (r, 0) move r (-1) r 1 a b ta tb Hah Hbe); try assumption.
    rewrite (room_get_wrap_col room w) by (assumption || lia).
    replace (-1 + w) with (w - 1) by lia.
    exact Hga.
  - intros c move Hd.
    apply get_tiles_ahead_raises.
    unfold cell_ahead. rewrite Hd. cbn [fst snd].
    replace (Z.of_nat (length room) - 1 + 1) with (Z.of_nat (length room)) by lia.
    apply room_get_past_rows.
  - intros r move Hr Hd.
    apply get_tiles_ahead_raises.
    unfold cell_ahead. rewrite Hd. cbn [fst snd].
    replace (r + 0) with r by lia. replace (w - 1 + 1) with w by lia.
    apply (room_get_past_cols room w); assumption.
  - intros pos move ta tb Ha Hb.
    apply (is_valid_command_inside room pos move ta tb Ha Hb).
  - intros pos move Hout.
    destruct (cell_ahead pos move) as [ia ja] eqn:Hah.
    destruct (cell_behind pos move) as [ib jb] eqn:Hbe.
    cbn [fst snd] in Hout.
    destruct (room_get room ia ja) as [a | e] eqn:Hga.
    2:{ left. pose proof (room_get_raise _ _ _ _ Hga) as ->.
        apply (get_tiles_ahead_raises room pos move IndexError).
        rewrite Hah. exact Hga. }
    destruct (room_get room ib jb) as [b | e] eqn:Hgb.
    2:{ left. pose proof (room_get_raise _ _ _ _ Hgb) as ->.
        destruct (room_get_Ok_cell _ _ _ _ Hga) as (i' & j' & Hc').
        destruct (tile_codes_cell _ _ _ _ Hcodes Hc') as [ta Hta].
        rewrite is_valid_command_verdict, get_tiles_cells, Hah, Hbe. cbn [fst snd].
        rewrite Hga. cbn [bind]. rewrite Hta. cbn [bind]. rewrite Hgb. reflexivity. }
    right.
    destruct (room_get_Ok_cell _ _ _ _ Hga) as (ia' & ja' & Hca').
    destruct (tile_codes_cell _ _ _ _ Hcodes Hca') as [ta Hta].
    destruct (room_get_Ok_cell _ _ _ _ Hgb) as (ib' & jb' & Hcb').
    destruct (tile_codes_cell _ _ _ _ Hcodes Hcb') as [tb Htb].
    destruct (get_tiles_at room pos move ia ja ib jb a b ta tb Hah Hbe Hga Hta Hgb Htb)
      as [_ Hv].
    destruct Hout as [Hnone | Hnone].
    + destruct (room_get_outside _ _ _ Hnone) as [Hr | (i' & j' & v & Hne & _ & Hc & Hg)].
      { rewrite Hr in Hga. discriminate. }
      exists ia, ja, i', j', v, (spec_verdict (Some ta) (Some tb) move).
      repeat split; try assumption. left. reflexivity.
    + destruct (room_get_outside _ _ _ Hnone) as [Hr | (i' & j' & v & Hne & _ & Hc & Hg)].
      { rewrite Hr in Hgb. discriminate. }
      exists ib, jb, i', j', v, (spec_verdict (Some ta) (Some tb) move).
      repeat split; try assumption. right. reflexivity.
Qed.

Lemma get_tiles_edge_behaviour_witness :
  rectangular room_with_box 3 /\ tile_codes room_with_box /\
  (exists ta tb,
     cell_at room_with_box (fst (cell_ahead (0, 1) PUSH_UP))
                           (snd (cell_ahead (0, 1) PUSH_UP)) = None /\
     tile_at room_with_box (Z.of_nat (length room_with_box) - 1) 1 = Some ta /\
     tile_at room_with_box 1 1 = Some tb /\
     get_tiles room_with_box (0, 1) PUSH_UP = Ok (ta, tb) /\
     is_valid_command room_with_box (0, 1) PUSH_UP
       = Ok (spec_verdict (Some ta) (Some tb) PUSH_UP)) /\
  is_valid_command room_with_box (Z.of_nat (length room_with_box) - 1, 1) PUSH_DOWN
    = Raise IndexError.
Proof.
  assert (Hrect : rectangular room_with_box 3)
    by (unfold rectangular, room_with_box; repeat constructor).
  assert (Hcodes : tile_codes room_with_box)
    by (unfold tile_codes, room_with_box; repeat constructor; lia).
  split; [exact Hrect |]. split; [exact Hcodes |].
  destruct (get_tiles_edge_behaviour room_with_box 3 Hrect Hcodes)
    as (Htop & _ & Hbottom & _).
  split.
  - apply (Htop 1 PUSH_UP); [simpl; lia | lia | reflexivity].
  - apply (Hbottom 1 PUSH_DOWN). reflexivity.
Defined.

(** ** The worked configurations are what the constructor builds *)

Example lander_wrapper_init (x y : R) :
  EnvWrapper_init (lander_env x y) "LunarLander-v2" BOX2D REGULAR 300
    (mkKwargs (Some true) (Some false) None) = Ok (lander_wrapper x y).
Proof. reflexivity. Qed.

Example sokoban_wrapper_init (room : Room) (obs : list R) (cone : bool) :
  EnvWrapper_init (sokoban_env room obs) "Sokoban-v0" OBS_REGULAR PUSH_PULL 300
    (mkKwargs (Some cone) (Some true) None) = Ok (sokoban_wrapper room obs cone).
Proof. reflexivity. Qed.

Example room_wrapper_init (room : Room) (ot : ObsType) :
  EnvWrapper_init (sokoban_env room []) "Sokoban-v0" ot PUSH_ONLY 300
    (mkKwargs (Some false) (Some false) None) = Ok (room_wrapper room ot).
Proof. destruct ot; reflexivity. Qed.

(** ** The angle test *)

Lemma Rltb_true (a b : R) : Rltb a b = true <-> (a < b)%R.
Proof.
  unfold Rltb. destruct (Rlt_dec a b); split; intros; try assumption;
    try reflexivity; try discriminate; contradiction.
Qed.

Lemma atan_lt_PI4 (t : R) : (atan t < PI / 4 <-> t < 1)%R.
Proof.
  rewrite <- atan_1. split.
  - intros Hlt. destruct (Rlt_dec t 1) as [Ht | Ht]; [exact Ht |].
    exfalso. apply Rnot_lt_le in Ht.
    destruct Ht as [Ht | Ht].
    + apply atan_increasing in Ht. lra.
    + subst t. lra.
  - apply atan_increasing.
Qed.

(** With [x >= 0] and [y > 1/3] the angle of [(x, y)] is below 45 degrees
    exactly when [y < x]. *)
Lemma atan2_lt_PI4 (y x : R) :
  (0 <= x)%R -> (1 / 3 < y)%R -> (atan2 y x < PI / 4 <-> y < x)%R.
Proof.
  intros Hx Hy. unfold atan2.
  destruct (Rlt_dec 0 x) as [Hpos | Hnpos].
  - rewrite atan_lt_PI4. split; intros Hlt.
    + apply (Rmult_lt_compat_r x) in Hlt; [| exact Hpos].
      unfold Rdiv in Hlt. rewrite Rmult_assoc, Rinv_l in Hlt by lra. lra.
    + apply (Rmult_lt_reg_r x); [exact Hpos |].
      unfold Rdiv. rewrite Rmult_assoc, Rinv_l by lra. lra.
  - destruct (Rlt_dec x 0) as [Hneg | Hnneg]; [lra |].
    destruct (Rlt_dec 0 y) as [Hy0 | Hy0]; [| lra].
    pose proof PI_RGT_0. split; intros; lra.
Qed.

Lemma cone_fires_iff (x y : R) :
  (cone_fires x y = true <-> (atan2 y (Rabs x) < PI / 4 /\ 1 / 3 < y)%R) /\
  (cone_fires x y = true <-> (1 / 3 < y < Rabs x)%R).
Proof.
  unfold cone_fires. rewrite andb_true_iff, !Rltb_true.
  split; [reflexivity |].
  pose proof (Rabs_pos x) as Hx.
  split.
  - intros [Ha Hy]. split; [exact Hy |]. apply (atan2_lt_PI4 y (Rabs x)); assumption.
  - intros [Hy Hlt]. split; [| exact Hy]. apply (atan2_lt_PI4 y (Rabs x)); assumption.
Qed.

Lemma cone_fires_examples :
  cone_fires 0.1 0.4 = false /\ cone_fires 0.05 0.4 = false /\
  cone_fires 0.5 0.4 = true.
Proof.
  repeat split.
  - destruct (cone_fires 0.1 0.4) eqn:Hc; [| reflexivity].
    apply (cone_fires_iff 0.1 0.4) in Hc. rewrite Rabs_pos_eq in Hc by lra. lra.
  - destruct (cone_fires 0.05 0.4) eqn:Hc; [| reflexivity].
    apply (cone_fires_iff 0.05 0.4) in Hc. rewrite Rabs_pos_eq in Hc by lra. lra.
  - apply (cone_fires_iff 0.5 0.4). rewrite Rabs_pos_eq by lra. lra.
Qed.

(** ** The wrapper's step *)

Section WrapperProps.

Context {E : Type} `{GymEnv E}.

Lemma step_unfold (w : EnvWrapper E) (action a' : Action) (raw : RawObs)
    (r : R) (d : bool) (info : StepInfo) (e : E) (obs : Obs E) :
  encode_action w action = Ok a' ->
  env_step (env w) a' = Ok (raw, r, d, info, e) ->
  process_obs (with_env w e) raw = Ok obs ->
  step w action =
  ('(r1, d1) <- cone_rule (with_env w e) obs r d ;;
   '(r2, d2) <- move_rule (with_env w e) a' r1 d1 ;;
   Ok (obs, r2, d2, info, with_env w e)).
Proof.
  intros Henc Hstep Hobs. unfold step, step_encoded.
  rewrite Henc. cbn [bind]. rewrite Hstep. cbn [bind]. cbv beta iota.
  rewrite Hobs. reflexivity.
Qed.

Lemma cone_rule_off (w : EnvWrapper E) (obs : Obs E) (r : R) (d : bool) :
  cone_trick w = false -> cone_rule w obs r d = Ok (r, d).
Proof. intros Hc. unfold cone_rule. rewrite Hc. reflexivity. Qed.

Lemma cone_rule_on (w : EnvWrapper E) (obs : Obs E) (r : R) (d : bool) (x y : R) :
  cone_trick w = true ->
  obs_getitem obs 0 = Ok (VNum x) -> obs_getitem obs 1 = Ok (VNum y) ->
  cone_rule w obs r d =
  Ok (if cone_fires x y then (r - 300)%R else r, if cone_fires x y then true else d).
Proof.
  intros Hc Hx Hy. unfold cone_rule. rewrite Hc, Hx. cbn [bind]. rewrite Hy.
  cbn [bind to_float py_abs]. unfold cone_fires.
  destruct (Rltb (atan2 y (Rabs x)) (PI / 4) && Rltb (1 / 3) y); reflexivity.
Qed.

Lemma move_rule_off (w : EnvWrapper E) (a : Action) (r : R) (d : bool) :
  move_trick w = false -> move_rule w a r d = Ok (r, d).
Proof. intros Hm. unfold move_rule. rewrite Hm. reflexivity. Qed.

Lemma move_rule_on (w : EnvWrapper E) (a : Action) (r : R) (d : bool)
    (room : Room) (pos : Z * Z) (move : MoveType) (v : bool) :
  move_trick w = true ->
  env_room_state (env w) = Some room ->
  env_player_position (env w) = Some pos ->
  MoveType_of_action a = Ok move ->
  is_valid_command room pos move = Ok v ->
  move_rule w a r d = Ok (if v then r else (r - 300)%R, if v then d else true).
Proof.
  intros Hm Hroom Hpos Hmove Hv. unfold move_rule.
  rewrite Hm, Hroom. cbn [bind getattr]. rewrite Hpos. cbn [bind getattr].
  rewrite Hmove. cbn [bind]. rewrite Hv. cbn [bind].
  destruct v; reflexivity.
Qed.

(** ** C2: the encoding of the action *)

(** C2: in PUSH_ONLY mode the index [i] reaches the environment as
    [i + 1]; in PUSH_PULL mode as [i + 1] when [i + 1 < 5] and as
    [i + 1 + 4] otherwise, so that the indices 0..7 go onto
    1, 2, 3, 4, 9, 10, 11, 12 (the values of the eight moves, in order);
    in REGULAR mode the action is passed as it is.  What [step] does with
    the encoded action starts with the environment's own step on it. *)
Theorem step_encodes_action (w : EnvWrapper E) :
  (action_type w = PUSH_ONLY -> forall i,
     encode_action w (AInt i) = Ok (AInt (i + 1)) /\
     step w (AInt i) = step_encoded w (AInt (i + 1))) /\
  (action_type w = PUSH_PULL -> forall i,
     encode_action w (AInt i) = Ok (AInt (if i + 1 <? 5 then i + 1 else i + 1 + 4)) /\
     step w (AInt i) = step_encoded w (AInt (if i + 1 <? 5 then i + 1 else i + 1 + 4))) /\
  (action_type w = PUSH_PULL ->
     map (fun i => encode_action w (AInt i)) [0; 1; 2; 3; 4; 5; 6; 7] =
     map (fun j => Ok (AInt j)) [1; 2; 3; 4; 9; 10; 11; 12] /\
     map (fun i => a <- encode_action w (AInt i) ;; MoveType_of_action a)
         [0; 1; 2; 3; 4; 5; 6; 7] = map Ok all_moves) /\
  (action_type w = REGULAR -> forall a,
     encode_action w a = Ok a /\ step w a = step_encoded w a) /\
  (forall a ex, env_step (env w) a = Raise ex -> step_encoded w a = Raise ex).
Proof.
  split; [| split; [| split; [| split]]].
  - intros Hat i. unfold step, encode_action. rewrite Hat. split; reflexivity.
  - intros Hat i. unfold step, encode_action. rewrite Hat.
    replace (5 <=? i + 1) with (negb (i + 1 <? 5)) by (rewrite Z.leb_antisym; reflexivity).
    destruct (i + 1 <? 5); split; reflexivity.
  - intros Hat. unfold encode_action. rewrite Hat. split; reflexivity.
  - intros Hat a. unfold step, encode_action. rewrite Hat. split; reflexivity.
  - intros a ex Hex. unfold step_encoded. rewrite Hex. reflexivity.
Qed.

End WrapperProps.

Lemma step_encodes_action_witness :
  action_type (sokoban_wrapper room_with_box [] false) = PUSH_PULL /\
  step (sokoban_wrapper room_with_box [] false) (AInt 4)
  = step_encoded (sokoban_wrapper room_with_box [] false) (AInt 9).
Proof.
  split; [reflexivity |].
  destruct (step_encodes_action (sokoban_wrapper room_with_box [] false))
    as (_ & Hpp & _).
  exact (proj2 (Hpp eq_refl 4)).
Defined.

Section ShapingProps.

Context {E : Type} `{GymEnv E}.

(** ** C3: the cone rule *)

(** C3, as the code has it: with the cone trick enabled, on an observation
    whose first two components are the numbers [x] and [y], step subtracts
    300 from the reward of the environment and forces done exactly when
    [atan2(y, |x|) < pi/4] and [y > 1/3], which is when [1/3 < y < |x|];
    the move rule then runs on that reward and flag, and leaves them alone
    when it is disabled.  The observation (0.1, 0.4) does not trigger the
    penalty, and neither does (0.05, 0.4), whose angle is above 45 degrees;
    (0.5, 0.4) does. *)
Theorem cone_rule_step (w : EnvWrapper E) (action a' : Action) (raw : RawObs)
    (r : R) (d : bool) (info : StepInfo) (e : E) (obs : Obs E) (x y : R) :
  cone_trick w = true ->
  encode_action w action = Ok a' ->
  env_step (env w) a' = Ok (raw, r, d, info, e) ->
  process_obs (with_env w e) raw = Ok obs ->
  obs_getitem obs 0 = Ok (VNum x) ->
  obs_getitem obs 1 = Ok (VNum y) ->
  (cone_fires x y = true <-> (atan2 y (Rabs x) < PI / 4 /\ 1 / 3 < y)%R) /\
  (cone_fires x y = true <-> (1 / 3 < y < Rabs x)%R) /\
  cone_rule (with_env w e) obs r d =
    Ok (if cone_fires x y then (r - 300)%R else r,
        if cone_fires x y then true else d) /\
  step w action =
    ('(r2, d2) <- move_rule (with_env w e) a'
                    (if cone_fires x y then (r - 300)%R else r)
                    (if cone_fires x y then true else d) ;;
     Ok (obs, r2, d2, info, with_env w e)) /\
  (move_trick w = false ->
   step w action =
     Ok (obs, if cone_fires x y then (r - 300)%R else r,
         if cone_fires x y then true else d, info, with_env w e)) /\
  cone_fires 0.1 0.4 = false /\ cone_fires 0.05 0.4 = false /\
  cone_fires 0.5 0.4 = true.
Proof.
  intros Hc Henc Hstep Hobs Hx Hy.
  assert (Hrule : cone_rule (with_env w e) obs r d =
                  Ok (if cone_fires x y then (r - 300)%R else r,
                      if cone_fires x y then true else d))
    by (apply cone_rule_on; assumption).
  split; [apply cone_fires_iff |]. split; [apply cone_fires_iff |].
  split; [exact Hrule |].
  split; [| split; [| exact cone_fires_examples]].
  - rewrite (step_unfold w action a' raw r d info e obs Henc Hstep Hobs).
    rewrite Hrule. reflexivity.
  - intros Hm.
    rewrite (step_unfold w action a' raw r d info e obs Henc Hstep Hobs).
    rewrite Hrule. cbn [bind]. cbv beta iota.
    rewrite move_rule_off by exact Hm. reflexivity.
Qed.

(** ** C4: the move rule *)

(** The move rule inside [step]: with the move trick enabled, the verdict
    [v] of the validator on the room and the player position that the
    underlying step returned decides the outcome.  A verdict of invalid
    costs 300 and forces done; a verdict of valid leaves the reward and the
    flag as the cone rule left them, which are those of the environment
    when the cone trick is disabled. *)
Lemma move_rule_verdict (w : EnvWrapper E) (action a' : Action) (raw : RawObs)
    (r r1 : R) (d d1 : bool) (info : StepInfo) (e : E) (obs : Obs E)
    (room : Room) (pos : Z * Z) (move : MoveType) (v : bool) :
  move_trick w = true ->
  encode_action w action = Ok a' ->
  env_step (env w) a' = Ok (raw, r, d, info, e) ->
  process_obs (with_env w e) raw = Ok obs ->
  cone_rule (with_env w e) obs r d = Ok (r1, d1) ->
  env_room_state e = Some room ->
  env_player_position e = Some pos ->
  MoveType_of_action a' = Ok move ->
  is_valid_command room pos move = Ok v ->
  step w action =
    Ok (obs, if v then r1 else (r1 - 300)%R, if v then d1 else true,
        info, with_env w e) /\
  (cone_trick w = false -> r1 = r /\ d1 = d) /\
  is_valid_command room_without_box (2, 1) PULL_UP = Ok false /\
  is_valid_command room_with_box (2, 1) PULL_UP = Ok true.
Proof.
  intros Hm Henc Hstep Hobs Hcone Hroom Hpos Hmove Hv.
  split; [| split; [| split; reflexivity]].
  - rewrite (step_unfold w action a' raw r d info e obs Henc Hstep Hobs).
    rewrite Hcone. cbn [bind]. cbv beta iota.
    rewrite (move_rule_on (with_env w e) a' r1 d1 room pos move v);
      try assumption; reflexivity.
  - intros Hc. rewrite cone_rule_off in Hcone by exact Hc.
    injection Hcone as <- <-. split; reflexivity.
Qed.

End ShapingProps.

Lemma cone_rule_step_witness :
  cone_trick (lander_wrapper 0.5 0.4) = true /\
  step (lander_wrapper 0.5 0.4) (AInt 0) =
    Ok (ObsRaw [0.5%R; 0.4%R],
        if cone_fires 0.5 0.4 then (0 - 300)%R else 0%R,
        if cone_fires 0.5 0.4 then true else false,
        tt, lander_wrapper 0.5 0.4).
Proof.
  split; [reflexivity |].
  destruct (@cone_rule_step FixedEnv FixedEnv_GymEnv (lander_wrapper 0.5 0.4) (AInt 0) (AInt 0)
              [0.5%R; 0.4%R] 0%R false tt (lander_env 0.5 0.4)
              (@ObsRaw FixedEnv FixedEnv_GymEnv [0.5%R; 0.4%R]) 0.5%R 0.4%R
              eq_refl eq_refl eq_refl eq_refl eq_refl eq_refl)
    as (_ & _ & _ & _ & Hstep & _).
  exact (Hstep eq_refl).
Defined.

(** C3 as stated fails on its second example: at [x = 0.05], [y = 0.4] the
    angle [atan2(0.4, 0.05)] is above 45 degrees (about 83), so with the
    cone trick enabled step leaves the reward and the done flag as the
    environment returned them. *)
Lemma cone_rule_counterexample :
  cone_trick (lander_wrapper 0.05 0.4) = true /\
  (PI / 4 < atan2 0.4 (Rabs 0.05))%R /\
  env_step (env (lander_wrapper 0.05 0.4)) (AInt 0) =
    Ok ([0.05%R; 0.4%R], 0%R, false, tt, lander_env 0.05 0.4) /\
  step (lander_wrapper 0.05 0.4) (AInt 0) =
    Ok (ObsRaw [0.05%R; 0.4%R], 0%R, false, tt, lander_wrapper 0.05 0.4).
Proof.
  split; [reflexivity |]. split; [| split; [reflexivity |]].
  - rewrite Rabs_pos_eq by lra. unfold atan2.
    destruct (Rlt_dec 0 0.05) as [_ | Hn]; [| lra].
    rewrite <- atan_1. apply atan_increasing. lra.
  - rewrite (@step_unfold FixedEnv FixedEnv_GymEnv (lander_wrapper 0.05 0.4) (AInt 0) (AInt 0)
               [0.05%R; 0.4%R] 0%R false tt (lander_env 0.05 0.4)
               (@ObsRaw FixedEnv FixedEnv_GymEnv [0.05%R; 0.4%R]) eq_refl eq_refl eq_refl).
    rewrite (cone_rule_on _ _ _ _ 0.05%R 0.4%R) by reflexivity.
    destruct cone_fires_examples as (_ & -> & _). reflexivity.
Qed.

(** C4, on the code: the claim holds of a pull judged where it is made,
    and [step] judges it elsewhere.  [step] asks the validator only after
    the environment has carried the move out, so the verdict is about
    repeating the move from the new position.  In [room_with_box] the
    player at (2, 1) has floor above and a box below: pulling up is valid,
    as the claim and the validator's own description have it, and the
    environment carries the pull out with reward 0 and done false.  The
    player then stands at (1, 1) under the wall, the validator called on
    that room answers invalid, and [step] returns reward -300 and done
    true for the valid pull. *)
Theorem move_rule_penalises_valid_pull :
  move_trick (pull_wrapper (mkPullEnv room_with_box (2, 1))) = true /\
  cone_trick (pull_wrapper (mkPullEnv room_with_box (2, 1))) = false /\
  @encode_action PullEnv (pull_wrapper (mkPullEnv room_with_box (2, 1))) (AInt 4)
  = Ok (AInt 9) /\
  MoveType_of_action (AInt 9) = Ok PULL_UP /\
  is_valid_command room_with_box (2, 1) PULL_UP = Ok true /\
  @env_step PullEnv PullEnv_GymEnv (mkPullEnv room_with_box (2, 1)) (AInt 9)
  = Ok ([], 0%R, false, tt, mkPullEnv room_after_pull (1, 1)) /\
  is_valid_command room_after_pull (1, 1) PULL_UP = Ok false /\
  @step PullEnv PullEnv_GymEnv (pull_wrapper (mkPullEnv room_with_box (2, 1))) (AInt 4)
  = Ok (@ObsRaw PullEnv PullEnv_GymEnv [], (0 - 300)%R, true, tt,
        pull_wrapper (mkPullEnv room_after_pull (1, 1))).
Proof.
  assert (Hstep : @env_step PullEnv PullEnv_GymEnv (mkPullEnv room_with_box (2, 1)) (AInt 9)
                  = Ok ([], 0%R, false, tt, mkPullEnv room_after_pull (1, 1)))
    by reflexivity.
  do 5 (split; [reflexivity |]).
  split; [exact Hstep |]. split; [reflexivity |].
  rewrite (@step_unfold PullEnv PullEnv_GymEnv
             (pull_wrapper (mkPullEnv room_with_box (2, 1))) (AInt 4) (AInt 9)
             [] 0%R false tt (mkPullEnv room_after_pull (1, 1))
             (@ObsRaw PullEnv PullEnv_GymEnv []) eq_refl Hstep eq_refl).
  rewrite cone_rule_off by reflexivity. cbn [bind]. cbv beta iota.
  rewrite (@move_rule_on PullEnv PullEnv_GymEnv _ (AInt 9) _ _
             room_after_pull (1, 1) PULL_UP false) by reflexivity.
  reflexivity.
Qed.

(** ** C9: observations under the room-state modes *)

Lemma cell_at_cons (row : list Z) (rest : Room) (i j : Z) :
  0 < i -> cell_at (row :: rest) i j = cell_at rest (i - 1) j.
Proof.
  intros Hi. unfold cell_at.
  replace (0 <=? i) with true by (symmetry; apply Z.leb_le; lia).
  replace (0 <=? i - 1) with true by (symmetry; apply Z.leb_le; lia).
  replace (Z.to_nat i) with (Datatypes.S (Z.to_nat (i - 1))) by lia.
  reflexivity.
Qed.

(** [flatten] is row-major: cell [(i, j)] of a grid with [w] columns is
    element [i * w + j]. *)
Lemma flatten_row_major (room : Room) (w : Z) :
  rectangular room w ->
  forall i j, 0 <= i -> 0 <= j < w ->
  nth_error (flatten room) (Z.to_nat (i * w + j)) = cell_at room i j.
Proof.
  unfold flatten. intros Hrect. induction Hrect as [| row rest Hlen Hrest IH];
    intros i j Hi Hj.
  - unfold cell_at. simpl.
    destruct ((0 <=? i) && (0 <=? j)); destruct (Z.to_nat (i * w + j));
      destruct (Z.to_nat i); reflexivity.
  - simpl concat. destruct (Z.eq_dec i 0) as [-> | Hne].
    + rewrite nth_error_app1 by lia.
      unfold cell_at. replace (0 <=? j) with true by (symmetry; apply Z.leb_le; lia).
      simpl. f_equal.
    + assert (Hge : w <= i * w + j) by nia.
      rewrite nth_error_app2 by lia.
      replace (Z.to_nat (i * w + j) - length row)%nat
        with (Z.to_nat ((i - 1) * w + j)) by nia.
      rewrite IH by lia. symmetry. apply cell_at_cons. lia.
Qed.

Section ObservationProps.

Context {E : Type} `{GymEnv E}.

Lemma process_obs_room (w : EnvWrapper E) (o : RawObs) :
  obs_type w = ROOM_STATE_VECTOR \/ obs_type w = ROOM_STATE_MATRIX ->
  process_obs w o =
  (room <- getattr (env_room_state (env w)) ;; Ok (project_room (obs_type w) room)).
Proof.
  intros [Hot | Hot]; unfold process_obs; rewrite Hot; reflexivity.
Qed.

(** C9: under ROOM_STATE_VECTOR and ROOM_STATE_MATRIX [process_obs] does not
    look at its argument: it returns the room state of the wrapped
    environment, flattened row-major or as it is.  So the observation that
    [reset] and [step] return is the projection of the room of the
    environment as the call left it, whatever raw observation the
    environment produced. *)
Theorem process_obs_room_state (w : EnvWrapper E) :
  obs_type w = ROOM_STATE_VECTOR \/ obs_type w = ROOM_STATE_MATRIX ->
  (forall o1 o2, process_obs w o1 = process_obs w o2) /\
  (forall o room, env_room_state (env w) = Some room ->
     process_obs w o = Ok (project_room (obs_type w) room)) /\
  (forall room,
     project_room (obs_type w) room =
     match obs_type w with
     | ROOM_STATE_VECTOR => ObsCells (flatten room)
     | _ => ObsGrid room
     end) /\
  (forall room cols i j, rectangular room cols -> 0 <= i -> 0 <= j < cols ->
     nth_error (flatten room) (Z.to_nat (i * cols + j)) = cell_at room i j) /\
  (forall room, env_room_state (snd (env_reset (env w))) = Some room ->
     reset w = Ok (project_room (obs_type w) room,
                   with_env w (snd (env_reset (env w))))) /\
  (forall obs w', reset w = Ok (obs, w') ->
     exists room, env_room_state (env w') = Some room /\
                  obs = project_room (obs_type w) room) /\
  (forall a a' raw r d info e room,
     cone_trick w = false -> move_trick w = false ->
     encode_action w a = Ok a' ->
     env_step (env w) a' = Ok (raw, r, d, info, e) ->
     env_room_state e = Some room ->
     step w a = Ok (project_room (obs_type w) room, r, d, info, with_env w e)) /\
  (forall a obs r d info w', step w a = Ok (obs, r, d, info, w') ->
     exists room, env_room_state (env w') = Some room /\
                  obs = project_room (obs_type w) room).
Proof.
  intros Hot.
  assert (Hproj : forall e o room, env_room_state e = Some room ->
            process_obs (with_env w e) o = Ok (project_room (obs_type w) room)).
  { intros e o room Hroom.
    rewrite (process_obs_room (with_env w e) o Hot).
    cbn [with_env env obs_type]. rewrite Hroom. reflexivity. }
  assert (Hinv : forall e o obs, process_obs (with_env w e) o = Ok obs ->
            exists room, env_room_state e = Some room /\
                         obs = project_room (obs_type w) room).
  { intros e o obs. rewrite (process_obs_room (with_env w e) o Hot).
    cbn [with_env env obs_type].
    destruct (env_room_state e) as [room |]; cbn [bind getattr]; [| discriminate].
    intros [= <-]. exists room. split; reflexivity. }
  split; [| split; [| split; [| split; [| split; [| split; [| split]]]]]].
  - intros o1 o2. rewrite !process_obs_room by exact Hot. reflexivity.
  - intros o room Hroom. rewrite process_obs_room by exact Hot.
    rewrite Hroom. reflexivity.
  - intros room. reflexivity.
  - intros room cols i j Hr. apply flatten_row_major. exact Hr.
  - intros room Hroom. unfold reset.
    destruct (env_reset (env w)) as [raw e]. cbn [snd] in *.
    rewrite (Hproj e raw room Hroom). reflexivity.
  - intros obs w'. unfold reset.
    destruct (env_reset (env w)) as [raw e].
    destruct (process_obs (with_env w e) raw) as [o | ex] eqn:Hp;
      cbn [bind]; [| discriminate].
    intros [= <- <-]. exact (Hinv e raw o Hp).
  - intros a a' raw r d info e room Hc Hm Henc Hstep Hroom.
    rewrite (step_unfold w a a' raw r d info e _ Henc Hstep (Hproj e raw room Hroom)).
    rewrite cone_rule_off by exact Hc. cbn [bind]. cbv beta iota.
    rewrite move_rule_off by exact Hm. reflexivity.
  - intros a obs r d info w'. unfold step, step_encoded.
    destruct (encode_action w a) as [a' | ex]; cbn [bind]; [| discriminate].
    destruct (env_step (env w) a') as [[[[[raw r0] d0] info0] e] | ex];
      cbn [bind]; [| discriminate].
    cbv beta iota.
    destruct (process_obs (with_env w e) raw) as [o | ex] eqn:Hp;
      cbn [bind]; [| discriminate].
    destruct (cone_rule (with_env w e) o r0 d0) as [[r1 d1] | ex];
      cbn [bind]; [| discriminate].
    cbv beta iota.
    destruct (move_rule (with_env w e) a' r1 d1) as [[r2 d2] | ex];
      cbn [bind]; [| discriminate].
    cbv beta iota.
    intros [= <- <- <- <- <-]. exact (Hinv e raw o Hp).
Qed.

End ObservationProps.

Lemma process_obs_room_state_witness :
  (obs_type (room_wrapper room_with_box ROOM_STATE_VECTOR) = ROOM_STATE_VECTOR \/
   obs_type (room_wrapper room_with_box ROOM_STATE_VECTOR) = ROOM_STATE_MATRIX) /\
  process_obs (room_wrapper room_with_box ROOM_STATE_VECTOR) [7%R; 8%R] =
  Ok (ObsCells [0; 0; 0; 0; 1; 0; 0; 5; 0; 0; 4; 0; 0; 0; 0]).
Proof.
  split; [left; reflexivity |].
  exact (proj1 (proj2 (@process_obs_room_state FixedEnv FixedEnv_GymEnv
                         (room_wrapper room_with_box ROOM_STATE_VECTOR)
                         (or_introl eq_refl)))
           [7%R; 8%R] room_with_box eq_refl).
Defined.

(** ** C7: greedy scoring *)

Lemma fold_left_Rmax_is_max (rest : list R) (x : R) :
  is_max (x :: rest) (fold_left Rmax rest x).
Proof.
  revert x. induction rest as [| a rest IH]; intros x.
  - split; [left; reflexivity |].
    intros y [<- | []]. apply Rle_refl.
  - simpl fold_left. destruct (IH (Rmax x a)) as [Hin Hub]. split.
    + destruct Hin as [Heq | Hin].
      * rewrite <- Heq. unfold Rmax. destruct (Rle_dec x a).
        -- right. left. reflexivity.
        -- left. reflexivity.
      * right. right. exact Hin.
    + intros y [Hy | [Hy | Hy]].
      * subst y. apply Rle_trans with (Rmax x a); [apply Rmax_l |].
        apply Hub. left. reflexivity.
      * subst y. apply Rle_trans with (Rmax x a); [apply Rmax_r |].
        apply Hub. left. reflexivity.
      * apply Hub. right. exact Hy.
Qed.

Lemma tensor_max_is_max (xs : list R) :
  xs <> [] -> exists m, tensor_max xs = Ok m /\ is_max xs m.
Proof.
  destruct xs as [| x rest]; [congruence |]. intros _.
  exists (fold_left Rmax rest x). split; [reflexivity |].
  apply fold_left_Rmax_is_max.
Qed.

Lemma row_max_is_max (xs : list R) :
  xs <> [] -> exists m, row_max xs = Ok m /\ is_max xs m.
Proof.
  destruct xs as [| x rest]; [congruence |]. intros _.
  exists (fold_left Rmax rest x). split; [reflexivity |].
  apply fold_left_Rmax_is_max.
Qed.

Lemma map_result_row_max (rows : list (list R)) :
  Forall (fun row => row <> []) rows ->
  exists ms, map_result row_max rows = Ok ms /\ Forall2 is_max rows ms.
Proof.
  induction 1 as [| row rows Hrow Hrows IH].
  - exists []. split; [reflexivity | constructor].
  - destruct (row_max_is_max row Hrow) as (m & Hm & Hmax).
    destruct IH as (ms & Hms & Hall).
    exists (m :: ms). split.
    + simpl. rewrite Hm. cbn [bind]. rewrite Hms. reflexivity.
    + constructor; assumption.
Qed.

(** C7: [off_policy] returns the greatest of all the value estimates in
    REGULAR mode and the greatest of each row in DISCRETIZIED mode; in every
    other mode it raises [NotImplementedError]; and in every case the
    wrapper is left as it was. *)
Theorem off_policy_spec {E : Type} (w : EnvWrapper E) (q_vals : list (list R)) :
  (action_type w = REGULAR -> concat q_vals <> [] ->
   exists m, off_policy w q_vals = (Ok (QScalar m), w) /\ is_max (concat q_vals) m) /\
  (action_type w = DISCRETIZIED -> Forall (fun row => row <> []) q_vals ->
   exists ms, off_policy w q_vals = (Ok (QRows ms), w) /\ Forall2 is_max q_vals ms) /\
  (action_type w <> REGULAR -> action_type w <> DISCRETIZIED ->
   off_policy w q_vals = (Raise NotImplementedError, w)) /\
  snd (off_policy w q_vals) = w.
Proof.
  split; [| split; [| split]].
  - intros Hat Hne. unfold off_policy. rewrite Hat.
    destruct (tensor_max_is_max _ Hne) as (m & Hm & Hmax).
    exists m. rewrite Hm. split; [reflexivity | exact Hmax].
  - intros Hat Hrows. unfold off_policy. rewrite Hat.
    destruct (map_result_row_max _ Hrows) as (ms & Hms & Hall).
    exists ms. rewrite Hms. split; [reflexivity | exact Hall].
  - intros Hr Hd. unfold off_policy.
    destruct (action_type w); try reflexivity; congruence.
  - unfold off_policy. destruct (action_type w); reflexivity.
Qed.

Lemma off_policy_spec_witness :
  (action_type gaussian_wrapper <> REGULAR /\
   action_type gaussian_wrapper <> DISCRETIZIED /\
   off_policy gaussian_wrapper [[1%R; 3%R; 2%R]]
   = (Raise NotImplementedError, gaussian_wrapper)) /\
  (action_type (lander_wrapper 0 0) = REGULAR /\
   concat [[1%R; 3%R; 2%R]] <> [] /\
   exists m, off_policy (lander_wrapper 0 0) [[1%R; 3%R; 2%R]]
             = (Ok (QScalar m), lander_wrapper 0 0) /\
             is_max (concat [[1%R; 3%R; 2%R]]) m).
Proof.
  destruct (off_policy_spec gaussian_wrapper [[1%R; 3%R; 2%R]])
    as (_ & _ & Hother & _).
  destruct (off_policy_spec (lander_wrapper 0 0) [[1%R; 3%R; 2%R]])
    as (Hreg & _).
  split.
  - split; [discriminate |]. split; [discriminate |].
    apply Hother; discriminate.
  - split; [reflexivity |]. split; [discriminate |].
    apply Hreg; [reflexivity | discriminate].
Defined.

(** ** C6: the discretisation tables *)

Lemma Qltb_true (a b : Q) : Qltb a b = true <-> (a < b)%Q.
Proof.
  unfold Qltb. rewrite negb_true_iff. split.
  - intros Hb. apply Qnot_le_lt. intros Hle.
    apply Qle_bool_iff in Hle. congruence.
  - intros Hlt. destruct (Qle_bool b a) eqn:Hb; [| reflexivity].
    apply Qle_bool_iff in Hb. apply Qlt_not_le in Hlt. contradiction.
Qed.

Lemma Qltb_false (a b : Q) : Qltb a b = false <-> (b <= a)%Q.
Proof.
  unfold Qltb. rewrite negb_false_iff. apply Qle_bool_iff.
Qed.

Lemma inject_Z_nonzero (k : Z) : k <> 0 -> ~ (inject_Z k == 0)%Q.
Proof. intros Hk Heq. unfold Qeq in Heq. simpl in Heq. lia. Qed.

Lemma inject_Z_pos (k : Z) : 0 < k -> (0 < inject_Z k)%Q.
Proof. intros Hk. unfold Qlt. simpl. lia. Qed.

Lemma pydiv_nonzero (a : Q) (k : Z) :
  k <> 0 -> pydiv a (inject_Z k) = Ok (a / inject_Z k)%Q.
Proof.
  intros Hk. unfold pydiv.
  destruct (Qeq_bool (inject_Z k) 0) eqn:Hz; [| reflexivity].
  apply Qeq_bool_iff in Hz. exfalso. exact (inject_Z_nonzero k Hk Hz).
Qed.

Lemma pydiv_zero (a : Q) : pydiv a (inject_Z 0) = Raise ZeroDivisionError.
Proof. reflexivity. Qed.

Ltac decide_Qltb :=
  repeat match goal with
         | |- context [Qltb ?a ?b] =>
             let Hb := fresh "Hb" in
             destruct (Qltb a b) eqn:Hb;
             [apply Qltb_true in Hb | apply Qltb_false in Hb]
         end;
  cbn [andb orb]; try reflexivity; try (exfalso; Lqa.lra).

(** With [k > 0] steps of size [(end - start) / k] between two different
    bounds, [torch.arange] returns exactly [k] values. *)
Lemma torch_arange_even (start end_ step : Q) (k : Z) :
  0 < k -> ~ (start == end_)%Q -> (step == (end_ - start) / inject_Z k)%Q ->
  torch_arange start end_ step = Ok (arange_values start step (Z.to_nat k)).
Proof.
  intros Hk Hne Hstep.
  pose proof (inject_Z_pos k Hk) as HK.
  assert (Hsign : ((start < end_ /\ 0 < step) \/ (end_ < start /\ step < 0))%Q).
  { destruct (Q_dec start end_) as [[Hlt | Hgt] | Heq]; [| | contradiction].
    - left. split; [exact Hlt |]. rewrite Hstep.
      apply Qlt_shift_div_l; [exact HK | Lqa.lra].
    - right. split; [exact Hgt |]. rewrite Hstep.
      apply Qlt_shift_div_r; [exact HK | Lqa.lra]. }
  assert (Hnz : ~ (step == 0)%Q) by (destruct Hsign as [[_ Hs] | [_ Hs]]; Lqa.lra).
  unfold torch_arange.
  destruct (Qeq_bool step 0) eqn:Hz.
  { apply Qeq_bool_iff in Hz. contradiction. }
  assert (Hcheck : (Qltb 0 step && Qltb end_ start) || (Qltb step 0 && Qltb start end_)
                   = false).
  { destruct Hsign as [[H1 H2] | [H1 H2]]; decide_Qltb. }
  rewrite Hcheck.
  rewrite (Qceiling_comp ((end_ - start) / step) (inject_Z k)).
  - rewrite Qceiling_Z. reflexivity.
  - rewrite Hstep. field. split; [apply inject_Z_nonzero; lia | Lqa.lra].
Qed.

Lemma torch_arange_zero_step (start end_ step : Q) :
  (step == 0)%Q -> torch_arange start end_ step = Raise RuntimeError.
Proof.
  intros Hz. unfold torch_arange.
  apply Qeq_bool_iff in Hz. rewrite Hz. reflexivity.
Qed.

Lemma torch_arange_wrong_sign (start end_ step : Q) :
  (step < 0)%Q -> (start < end_)%Q -> torch_arange start end_ step = Raise RuntimeError.
Proof.
  intros Hs Hlt. unfold torch_arange.
  destruct (Qeq_bool step 0); [reflexivity |].
  assert (Hcheck : (Qltb 0 step && Qltb end_ start) || (Qltb step 0 && Qltb start end_)
                   = true) by decide_Qltb.
  rewrite Hcheck. reflexivity.
Qed.

Lemma arange_values_length (start step : Q) (n : nat) :
  length (arange_values start step n) = n.
Proof. unfold arange_values. rewrite length_map, length_seq. reflexivity. Qed.

Lemma arange_values_nth (start step : Q) (n i : nat) :
  (i < n)%nat ->
  nth_error (arange_values start step n) i
  = Some (start + inject_Z (Z.of_nat i) * step)%Q.
Proof.
  intros Hi. unfold arange_values.
  rewrite nth_error_map, nth_error_seq.
  destruct (Nat.ltb_spec i n) as [_ | Hge]; [reflexivity | lia].
Qed.

Lemma arange_step_lt (start step : Q) (i : nat) :
  (0 < step)%Q ->
  (start + inject_Z (Z.of_nat i) * step
   < start + inject_Z (Z.of_nat (Datatypes.S i)) * step)%Q.
Proof.
  intros Hs. rewrite Nat2Z.inj_succ. unfold Z.succ. rewrite inject_Z_plus.
  change (inject_Z 1) with 1%Q.
  set (x := inject_Z (Z.of_nat i)).
  setoid_replace ((x + 1) * step)%Q with (x * step + step)%Q by ring.
  Lqa.lra.
Qed.

Lemma arange_values_increasing (start step : Q) (n : nat) :
  (0 < step)%Q -> increasing (arange_values start step n).
Proof.
  intros Hs i a b Ha Hb.
  assert (Hi : (Datatypes.S i < n)%nat).
  { rewrite <- (arange_values_length start step n).
    apply nth_error_Some. congruence. }
  rewrite arange_values_nth in Ha by lia. rewrite arange_values_nth in Hb by lia.
  assert (Ha' : a = (start + inject_Z (Z.of_nat i) * step)%Q) by congruence.
  assert (Hb' : b = (start + inject_Z (Z.of_nat (Datatypes.S i)) * step)%Q)
    by congruence.
  rewrite Ha', Hb'. apply arange_step_lt. exact Hs.
Qed.

Lemma arange_values_bounds (start end_ step : Q) (k : Z) :
  0 < k -> (start < end_)%Q -> (step == (end_ - start) / inject_Z k)%Q ->
  Forall (fun v => (start <= v /\ v < end_)%Q) (arange_values start step (Z.to_nat k)).
Proof.
  intros Hk Hlt Hstep.
  pose proof (inject_Z_pos k Hk) as HK.
  assert (Hs : (0 < step)%Q).
  { rewrite Hstep. apply Qlt_shift_div_l; [exact HK | Lqa.lra]. }
  assert (Hks : (inject_Z k * step == end_ - start)%Q).
  { rewrite Hstep. field. apply inject_Z_nonzero. lia. }
  apply Forall_forall. intros v Hv.
  unfold arange_values in Hv. apply in_map_iff in Hv as (i & <- & Hi).
  apply in_seq in Hi.
  assert (Hi0 : (0 <= inject_Z (Z.of_nat i))%Q).
  { change 0%Q with (inject_Z 0). rewrite <- Zle_Qle. lia. }
  assert (Hi1 : (inject_Z (Z.of_nat i) <= inject_Z k - 1)%Q).
  { change 1%Q with (inject_Z 1). unfold Qminus.
    rewrite <- inject_Z_opp, <- inject_Z_plus, <- Zle_Qle. lia. }
  pose proof (Qmult_le_0_compat _ _ Hi0 (Qlt_le_weak _ _ Hs)) as Hlow.
  pose proof (Qmult_le_compat_r _ _ step Hi1 (Qlt_le_weak _ _ Hs)) as Hup.
  setoid_replace ((inject_Z k - 1) * step)%Q with (inject_Z k * step - step)%Q
    in Hup by ring.
  rewrite Hks in Hup.
  split; Lqa.lra.
Qed.

(** The two tables that lines 189-194 build from bounds [low < high],
    neither of them zero, and at least two buckets. *)
Lemma make_discrete_arrays_values (low high : Q) (n : Z) :
  (low < high)%Q -> ~ (low == 0)%Q -> ~ (high == 0)%Q -> 2 <= n ->
  make_discrete_arrays low high n =
  Ok (arange_values low ((high - low) / inject_Z n) (Z.to_nat n),
      arange_values low ((- low / 2) / inject_Z (n / 2)) (Z.to_nat (n / 2)) ++
      arange_values (high / 2) ((high / 2) / inject_Z (n / 2)) (Z.to_nat (n / 2))).
Proof.
  intros Hlt Hlow Hhigh Hn.
  assert (Hhalf : 0 < n / 2) by (apply Z.div_str_pos; lia).
  unfold make_discrete_arrays.
  rewrite pydiv_nonzero by lia. cbn [bind].
  rewrite (torch_arange_even low high _ n) by (lia || Lqa.lra || reflexivity).
  cbn [bind].
  rewrite pydiv_nonzero by lia. cbn [bind].
  rewrite (torch_arange_even low (low / 2) _ (n / 2)).
  2: exact Hhalf.
  2:{ intros Heq. apply Hlow.
      setoid_replace low with (2 * (low - low / 2))%Q by field.
      rewrite <- Heq. field. }
  2:{ apply Qdiv_comp; [field | reflexivity]. }
  cbn [bind].
  rewrite pydiv_nonzero by lia. cbn [bind].
  rewrite (torch_arange_even (high / 2) high _ (n / 2)).
  2: exact Hhalf.
  2:{ intros Heq. apply Hhigh.
      setoid_replace high with (2 * (high - high / 2))%Q by field.
      rewrite Heq. field. }
  2:{ apply Qdiv_comp; [field | reflexivity]. }
  reflexivity.
Qed.

(** The constructor only gets through these lines with at least two
    buckets and bounds that are not zero. *)
Lemma make_discrete_arrays_Ok (low high : Q) (n : Z) (da sda : list Q) :
  (low < high)%Q -> make_discrete_arrays low high n = Ok (da, sda) ->
  2 <= n /\ ~ (low == 0)%Q /\ ~ (high == 0)%Q.
Proof.
  intros Hlt Hmk. unfold make_discrete_arrays in Hmk.
  destruct (Z.eq_dec n 0) as [-> | Hn0]; [discriminate Hmk |].
  rewrite pydiv_nonzero in Hmk by exact Hn0. cbn [bind] in Hmk.
  destruct (Z_lt_le_dec n 0) as [Hneg | Hpos].
  { rewrite torch_arange_wrong_sign in Hmk; [discriminate Hmk | | exact Hlt].
    apply Qlt_minus_iff.
    setoid_replace (0 + - ((high - low) / inject_Z n))%Q
      with ((high - low) / inject_Z (- n))%Q.
    - apply Qlt_shift_div_l; [apply inject_Z_pos; lia | Lqa.lra].
    - rewrite inject_Z_opp. field. apply inject_Z_nonzero. exact Hn0. }
  destruct (torch_arange low high ((high - low) / inject_Z n)) as [da' | ex];
    [cbn [bind] in Hmk | discriminate Hmk].
  destruct (Z.eq_dec (n / 2) 0) as [Hhalf | Hhalf].
  { rewrite Hhalf in Hmk. discriminate Hmk. }
  assert (Hn : 2 <= n).
  { destruct (Z_lt_le_dec n 2) as [Hsmall | Hbig]; [| exact Hbig].
    exfalso. apply Hhalf. apply Z.div_small. lia. }
  rewrite pydiv_nonzero in Hmk by exact Hhalf. cbn [bind] in Hmk.
  split; [exact Hn |]. split.
  - intros Hz. rewrite torch_arange_zero_step in Hmk; [discriminate Hmk |].
    rewrite Hz. field. apply inject_Z_nonzero. exact Hhalf.
  - intros Hz.
    destruct (torch_arange low (low / 2) (- low / 2 / inject_Z (n / 2))) as [a | ex];
      [cbn [bind] in Hmk | discriminate Hmk].
    rewrite pydiv_nonzero in Hmk by exact Hhalf. cbn [bind] in Hmk.
    rewrite torch_arange_zero_step in Hmk; [discriminate Hmk |].
    rewrite Hz. field. apply inject_Z_nonzero. exact Hhalf.
Qed.

(** The tables of a DISCRETIZIED wrapper, in exact arithmetic, from bounds
    [low < high]: the first table has [num_discrete] entries, starts at
    [low], grows from entry to entry and stays below [high]; the split
    table has [2 * (num_discrete // 2)] entries, which is [num_discrete]
    only for an even [num_discrete]. *)
Lemma discrete_tables (low high : Q) (n : Z) (da sda : list Q) :
  (low < high)%Q -> make_discrete_arrays low high n = Ok (da, sda) ->
  Z.of_nat (length da) = n /\
  (exists first, nth_error da 0 = Some first /\ (first == low)%Q) /\
  increasing da /\
  Forall (fun v => (low <= v /\ v < high)%Q) da /\
  Z.of_nat (length sda) = 2 * (n / 2) /\
  (Z.of_nat (length sda) = n <-> Z.even n = true).
Proof.
  intros Hlt Hmk.
  destruct (make_discrete_arrays_Ok low high n da sda Hlt Hmk) as (Hn & Hlow & Hhigh).
  rewrite (make_discrete_arrays_values low high n Hlt Hlow Hhigh Hn) in Hmk.
  injection Hmk as <- <-.
  assert (Hhalf : 0 < n / 2) by (apply Z.div_str_pos; lia).
  assert (Hstep : (0 < (high - low) / inject_Z n)%Q).
  { apply Qlt_shift_div_l; [apply inject_Z_pos; lia | Lqa.lra]. }
  assert (Hlen : Z.of_nat (length
            (arange_values low (- low / 2 / inject_Z (n / 2)) (Z.to_nat (n / 2)) ++
             arange_values (high / 2) (high / 2 / inject_Z (n / 2)) (Z.to_nat (n / 2))))
          = 2 * (n / 2)).
  { rewrite length_app, !arange_values_length. lia. }
  split; [rewrite arange_values_length; lia |].
  split.
  { exists (low + inject_Z (Z.of_nat 0) * ((high - low) / inject_Z n))%Q. split.
    - apply arange_values_nth. lia.
    - change (inject_Z (Z.of_nat 0)) with 0%Q. ring. }
  split; [apply arange_values_increasing; exact Hstep |].
  split; [apply (arange_values_bounds low high _ n); [lia | exact Hlt | reflexivity] |].
  split; [exact Hlen |].
  rewrite Hlen. rewrite Z.even_spec. split.
  - intros Heq. exists (n / 2). lia.
  - intros [m Hm]. subst n. rewrite (Z.mul_comm 2 m), Z.div_mul by lia. lia.
Qed.

Section TableProps.

Context {E : Type} `{GymEnv E}.

(** The tables of a wrapper are those lines 189-194 built at construction. *)
Lemma EnvWrapper_init_tables (made : E) (name : string) (ot : ObsType)
    (steps : Z) (kwargs : Kwargs) (w : EnvWrapper E) :
  EnvWrapper_init made name ot DISCRETIZIED steps kwargs = Ok w ->
  action_type w = DISCRETIZIED /\
  kw_num_discrete kwargs = Some (num_discrete w) /\
  exists low high,
    space_low0 (action_space (env w)) = Ok low /\
    space_high0 (action_space (env w)) = Ok high /\
    make_discrete_arrays low high (num_discrete w)
    = Ok (discrete_array w, split_discrete_array w).
Proof.
  unfold EnvWrapper_init.
  destruct (getkey (kw_cone_trick kwargs)) as [cone | ex]; cbn [bind]; [| discriminate].
  destruct (getkey (kw_move_trick kwargs)) as [move | ex]; cbn [bind]; [| discriminate].
  match goal with
  | |- context [bind ?m _] => destruct m as [size | ex]; cbn [bind]; [| discriminate]
  end.
  destruct (space_shape0 (action_space (env_set_max_steps made steps))) as [n | ex];
    cbn [bind]; [| discriminate].
  destruct (kw_num_discrete kwargs) as [nd |]; cbn [bind getkey]; [| discriminate].
  destruct (space_low0 (action_space (env_set_max_steps made steps))) as [low | ex] eqn:Hlow;
    cbn [bind]; [| discriminate].
  destruct (space_high0 (action_space (env_set_max_steps made steps))) as [high | ex] eqn:Hhigh;
    cbn [bind]; [| discriminate].
  destruct (make_discrete_arrays low high nd) as [[da sda] | ex] eqn:Hmk;
    cbn [bind]; [| discriminate].
  intros [= <-]. cbn.
  split; [reflexivity |]. split; [reflexivity |].
  exists low, high. repeat split; assumption.
Qed.

(** No operation of the wrapper changes its configuration: [reset] and
    [step] return the wrapper with a new environment state and nothing
    else changed. *)
Lemma reset_keeps_configuration (w w' : EnvWrapper E) (obs : Obs E) :
  reset w = Ok (obs, w') -> exists e, w' = with_env w e.
Proof.
  unfold reset. destruct (env_reset (env w)) as [raw e].
  destruct (process_obs (with_env w e) raw) as [o | ex]; cbn [bind]; [| discriminate].
  intros [= _ <-]. exists e. reflexivity.
Qed.

Lemma step_keeps_configuration (w w' : EnvWrapper E) (a : Action) (obs : Obs E)
    (r : R) (d : bool) (info : StepInfo) :
  step w a = Ok (obs, r, d, info, w') -> exists e, w' = with_env w e.
Proof.
  unfold step, step_encoded.
  destruct (encode_action w a) as [a' | ex]; cbn [bind]; [| discriminate].
  destruct (env_step (env w) a') as [[[[[raw r0] d0] info0] e] | ex];
    cbn [bind]; [| discriminate].
  cbv beta iota.
  destruct (process_obs (with_env w e) raw) as [o | ex]; cbn [bind]; [| discriminate].
  destruct (cone_rule (with_env w e) o r0 d0) as [[r1 d1] | ex];
    cbn [bind]; [| discriminate].
  cbv beta iota.
  destruct (move_rule (with_env w e) a' r1 d1) as [[r2 d2] | ex];
    cbn [bind]; [| discriminate].
  cbv beta iota.
  intros [= _ _ _ _ <-]. exists e. reflexivity.
Qed.

Lemma with_env_tables (w : EnvWrapper E) (e : E) :
  num_discrete (with_env w e) = num_discrete w /\
  discrete_array (with_env w e) = discrete_array w /\
  split_discrete_array (with_env w e) = split_discrete_array w /\
  num_actions (with_env w e) = num_actions w /\
  action_type (with_env w e) = action_type w /\
  obs_type (with_env w e) = obs_type w.
Proof. repeat split; reflexivity. Qed.

End TableProps.

(** C6, on the code: the constructor of a DISCRETIZIED wrapper with bounds
    [-1] and [1] and [num_discrete = 5] builds a first table of five
    entries, [-1, -3/5, -1/5, 1/5, 3/5], and a split table of four entries,
    [-1, -3/4, 1/2, 3/4], one short of [num_discrete]: each half of the split
    table has [num_discrete // 2] entries. *)
Theorem split_table_odd_num_discrete :
  exists w,
    EnvWrapper_init continuous_env "LunarLanderContinuous-v2" BOX2D DISCRETIZIED 300
      (discretized_kwargs 5) = Ok w /\
    num_discrete w = 5 /\
    length (discrete_array w) = 5%nat /\
    Forall2 Qeq (discrete_array w) [-1; -(3 # 5); -(1 # 5); 1 # 5; 3 # 5]%Q /\
    length (split_discrete_array w) = 4%nat /\
    Forall2 Qeq (split_discrete_array w) [-1; -(3 # 4); 1 # 2; 3 # 4]%Q.
Proof.
  eexists. split; [vm_compute; reflexivity |].
  cbn [num_discrete discrete_array split_discrete_array length].
  repeat split; repeat constructor.
Qed.

(** ** C8: the environment pool *)

Lemma seq_get_head {A : Type} (x : A) (xs : list A) : seq_get (x :: xs) 0 = Ok x.
Proof.
  unfold seq_get. rewrite norm_index_inside by (simpl length; lia). reflexivity.
Qed.

Lemma seq_get_nil {A : Type} (i : Z) : seq_get (@nil A) i = Raise IndexError.
Proof.
  unfold seq_get. rewrite norm_index_outside by (simpl length; lia). reflexivity.
Qed.

Section PoolProps.

Variables (X S : Type).
Variable reset_env : X -> result (S * X).

(** Every item in the queue is what a reset returned. *)
Lemma queue_holds_resets (es : list X) (interval : R) (g : AsyncEnvGen X S) :
  pool_reachable X S reset_env es interval g ->
  Forall (fun item => exists x, reset_env x = Ok item) (q X S g).
Proof.
  induction 1 as [| g Hg IH Hq Ha Hk | g Hg IH Ha | g item g' Hg IH Hget | g Hg IH].
  - constructor.
  - exact IH.
  - unfold worker_turn.
    destruct (kill_set X S g); [exact IH |].
    destruct (negb (Z.of_nat (length (q X S g)) =? q_maxsize X S g)); [| exact IH].
    destruct (seq_get (worker_envs X S g) (env_idx X S g)) as [x | ex];
      cbn [bind]; [| exact IH].
    destruct (reset_env x) as [[state e] | ex] eqn:Hr; [| exact IH].
    cbn [q]. apply Forall_app. split; [exact IH |].
    constructor; [| constructor]. exists x. exact Hr.
  - unfold get_reset_env in Hget.
    destruct (alive X S g).
    + destruct (q X S g) as [| it rest] eqn:Hq; [discriminate |].
      injection Hget as <- <-. cbn [q]. inversion IH; assumption.
    + destruct (seq_get (envs X S g) 0) as [e0 | ex]; cbn [bind] in Hget;
        [| discriminate].
      destruct (reset_env e0) as [[state e0'] | ex]; cbn [bind] in Hget;
        [| discriminate].
      injection Hget as <- <-. exact IH.
  - exact IH.
Qed.

(** C8: with the worker alive [get_reset_env] takes the oldest pair off
    the queue, waiting while the queue is empty, and the pair is an
    observation and an environment that a reset returned.  With the worker
    not alive and a pool that holds an environment, it does not touch the
    queue: it resets [envs[0]] and returns the observation of that reset
    with [envs[0]] itself; it fails only if that reset does. *)
Theorem get_reset_env_spec (g : AsyncEnvGen X S) :
  (alive X S g = true -> forall item rest, q X S g = item :: rest ->
   exists g', get_reset_env X S reset_env g = Ok (Done (item, g')) /\
              q X S g' = rest /\ envs X S g' = envs X S g) /\
  (alive X S g = true -> q X S g = [] ->
   get_reset_env X S reset_env g = Ok Blocked) /\
  (forall es interval, pool_reachable X S reset_env es interval g ->
   alive X S g = true -> forall item g',
   get_reset_env X S reset_env g = Ok (Done (item, g')) ->
   exists x, reset_env x = Ok item) /\
  (alive X S g = false -> forall e0 rest state e0',
   envs X S g = e0 :: rest -> reset_env e0 = Ok (state, e0') ->
   exists g', get_reset_env X S reset_env g = Ok (Done ((state, e0'), g')) /\
              envs X S g' = e0' :: rest /\ q X S g' = q X S g /\
              alive X S g' = false) /\
  (alive X S g = false -> forall ex, get_reset_env X S reset_env g = Raise ex ->
   (envs X S g = [] /\ ex = IndexError) \/
   exists e0 rest, envs X S g = e0 :: rest /\ reset_env e0 = Raise ex).
Proof.
  split; [| split; [| split; [| split]]].
  - intros Ha item rest Hq. unfold get_reset_env. rewrite Ha, Hq.
    eexists. split; [reflexivity |]. split; reflexivity.
  - intros Ha Hq. unfold get_reset_env. rewrite Ha, Hq. reflexivity.
  - intros es interval Hreach Ha item g' Hget.
    pose proof (queue_holds_resets es interval g Hreach) as Hinv.
    unfold get_reset_env in Hget. rewrite Ha in Hget.
    destruct (q X S g) as [| it rest]; [discriminate |].
    injection Hget as <- <-. inversion Hinv; assumption.
  - intros Ha e0 rest state e0' Henvs Hreset. unfold get_reset_env.
    rewrite Ha, Henvs, seq_get_head. cbn [bind]. rewrite Hreset. cbn [bind].
    eexists. split; [reflexivity |]. cbn [envs q alive list_set].
    repeat split; assumption.
  - intros Ha ex. unfold get_reset_env. rewrite Ha.
    destruct (envs X S g) as [| e0 rest].
    + rewrite seq_get_nil. cbn [bind]. intros [= <-]. left. split; reflexivity.
    + rewrite seq_get_head. cbn [bind].
      destruct (reset_env e0) as [[state e0'] | ex'] eqn:Hr; cbn [bind];
        [discriminate |].
      intros [= <-]. right. exists e0, rest. split; [reflexivity | exact Hr].
Qed.

End PoolProps.

Lemma get_reset_env_spec_witness :
  let g := worker_turn _ _ reset (kill _ _ (start _ _ (AsyncEnvGen_init _ _ room_pool 0))) in
  alive _ _ g = false /\
  exists g',
    get_reset_env _ _ reset g
    = Ok (Done ((ObsCells (flatten room_with_box),
                 room_wrapper room_with_box ROOM_STATE_VECTOR), g')) /\
    envs _ _ g' = room_pool.
Proof.
  cbv zeta. split; [reflexivity |].
  destruct (get_reset_env_spec (EnvWrapper FixedEnv) (Obs FixedEnv) reset
              (worker_turn _ _ reset
                 (kill _ _ (start _ _ (AsyncEnvGen_init _ _ room_pool 0)))))
    as (_ & _ & _ & Hfallback & _).
  destruct (Hfallback eq_refl
              (room_wrapper room_with_box ROOM_STATE_VECTOR)
              [room_wrapper room_without_box ROOM_STATE_VECTOR;
               room_wrapper floor_room ROOM_STATE_VECTOR]
              (ObsCells (flatten room_with_box))
              (room_wrapper room_with_box ROOM_STATE_VECTOR)
              eq_refl eq_refl)
    as (g' & Hget & Henvs & _).
  exists g'. split; [exact Hget | exact Henvs].
Defined.

(** ** C5: Gaussian sampling *)

Lemma broadcast2_same (a b : list R) :
  length a = length b -> broadcast2 a b = Ok (combine a b).
Proof.
  intros Hlen. unfold broadcast2. rewrite Hlen, Nat.eqb_refl. reflexivity.
Qed.

Lemma t_binop_same (f : R -> R -> R) (a b : Tensor) :
  length (data a) = length (data b) ->
  t_binop f a b =
  Ok (mkTensor (map (fun p => f (fst p) (snd p)) (combine (data a) (data b)))
               (requires_grad a || requires_grad b)).
Proof.
  intros Hlen. unfold t_binop. rewrite broadcast2_same by exact Hlen. reflexivity.
Qed.

Lemma length_zip (f : R -> R -> R) (a b : list R) :
  length a = length b ->
  length (map (fun p => f (fst p) (snd p)) (combine a b)) = length a.
Proof.
  intros Hlen. rewrite length_map, length_combine, Hlen. apply Nat.min_id.
Qed.

Lemma nth_zip (f : R -> R -> R) (a b : list R) (i : nat) :
  length a = length b -> (i < length a)%nat ->
  nth i (map (fun p => f (fst p) (snd p)) (combine a b)) 0%R
  = f (nth i a 0%R) (nth i b 0%R).
Proof.
  revert b i. induction a as [| x a IH]; intros [| y b] i Hlen Hi;
    simpl in *; try lia.
  destruct i as [| i]; [reflexivity |].
  apply IH; lia.
Qed.

Lemma nth_map_seq (f : nat -> R) (n i : nat) :
  (i < n)%nat -> nth i (map f (seq 0 n)) 0%R = f i.
Proof.
  intros Hi. rewrite (nth_indep _ 0%R (f 0%nat)) by (rewrite length_map, length_seq; exact Hi).
  rewrite map_nth, seq_nth by exact Hi. reflexivity.
Qed.

Lemma nth_map_R (f : R -> R) (l : list R) (i : nat) :
  (i < length l)%nat -> nth i (map f l) 0%R = f (nth i l 0%R).
Proof.
  intros Hi. rewrite (nth_indep _ 0%R (f 0%R)) by (rewrite length_map; exact Hi).
  apply map_nth.
Qed.

Lemma map_snd_zip (f : R -> R) (a b : list R) :
  length a = length b ->
  map (fun p : R * R => f (snd p)) (combine a b) = map f b.
Proof.
  revert b. induction a as [| x a IH]; intros [| y b] Hlen; simpl in *;
    try discriminate; [reflexivity |].
  f_equal. apply IH. lia.
Qed.

(** The surrogate is not the Normal log-density: at the mean, with unit
    deviation, it is [ln (1/2)] where the density gives [- ln (sqrt (2 pi))]. *)
Lemma surrogate_not_log_density :
  ln (sigmoid (Rabs (0 - 0) / 1)) <> normal_log_density 0 0 1.
Proof.
  unfold sigmoid, normal_log_density.
  replace (Rabs (0 - 0) / 1)%R with 0%R
    by (rewrite Rminus_diag, Rabs_R0; lra).
  rewrite Ropp_0, exp_0, ln_1.
  replace (- (0 - 0) ^ 2 / (2 * 1 ^ 2) - 0 - ln (sqrt (2 * PI)))%R
    with (- ln (sqrt (2 * PI)))%R by lra.
  replace (1 / (1 + 1))%R with (/ 2)%R by lra.
  rewrite ln_Rinv by lra.
  intros Heq. apply Ropp_eq_compat in Heq. rewrite !Ropp_involutive in Heq.
  pose proof PI2_1 as Hpi.
  assert (Hlt : (2 < sqrt (2 * PI))%R).
  { rewrite <- (sqrt_square 2) at 1 by lra. apply sqrt_lt_1_alt. lra. }
  apply ln_increasing in Hlt; lra.
Qed.

Lemma scale_positive (a b : list R) :
  length a = length b ->
  forallb (fun p : R * R => Rltb 0 (snd p)) (combine a b) = true
  <-> Forall (fun s => (0 < s)%R) b.
Proof.
  revert b. induction a as [| x a IH]; intros [| y b] Hlen; simpl in *;
    try discriminate.
  - split; [constructor | reflexivity].
  - rewrite andb_true_iff, Rltb_true, IH by lia. split.
    + intros [Hy Hb]. constructor; assumption.
    + intros Hall. inversion Hall; subst. split; assumption.
Qed.

Lemma map_snd_combine_same (a b : list R) :
  length a = length b -> map snd (combine a b) = b.
Proof.
  revert b. induction a as [| x a IH]; intros [| y b] Hlen; simpl in *;
    try discriminate; [reflexivity |].
  f_equal. apply IH. lia.
Qed.

(** C5: in GAUSSIAN mode, on mean and deviation tensors of one size with
    positive detached deviations, [process_action] takes one standard
    Normal draw per element of the deviation and returns
    - the action [mu + epsilon * std], computed from the attached mean and
      deviation and detached;
    - the log-probability [ln (sigmoid (|action - mu| / sigma))], computed
      with the detached mean and deviation (attached when any operand is),
      which is not the Normal log-density;
    - the entropy of the detached Normal, [1/2 + ln(2 pi)/2 + ln sigma],
      summed over the elements and detached.
    A detached deviation that is not positive is refused by [Normal] with
    [ValueError]. *)
Theorem process_action_gaussian_spec (mu_d sigma_d mu_a sigma_a : Tensor) (g : Rng) :
  length (data mu_a) = length (data sigma_a) ->
  length (data mu_d) = length (data sigma_a) ->
  length (data sigma_d) = length (data sigma_a) ->
  (Forall (fun s => (0 < s)%R) (data sigma_d) ->
   exists action log_prob entropy,
    process_action_gaussian (mu_d, sigma_d) (mu_a, sigma_a) g
    = Ok (action, log_prob, entropy,
          fun i => g (length (data sigma_a) + i)%nat) /\
    length (data action) = length (data sigma_a) /\
    (forall i, (i < length (data sigma_a))%nat ->
       nth i (data action) 0%R
       = (nth i (data mu_a) 0 + g i * nth i (data sigma_a) 0)%R) /\
    requires_grad action = false /\
    length (data log_prob) = length (data sigma_a) /\
    (forall i, (i < length (data sigma_a))%nat ->
       nth i (data log_prob) 0%R
       = ln (sigmoid (Rabs (nth i (data action) 0 - nth i (data mu_d) 0)
                      / nth i (data sigma_d) 0)%R)) /\
    requires_grad log_prob
    = (requires_grad mu_a || requires_grad sigma_a
       || requires_grad mu_d || requires_grad sigma_d) /\
    data entropy
    = [fold_right Rplus 0%R
         (map (fun s => (1 / 2 + 1 / 2 * ln (2 * PI) + ln s)%R) (data sigma_d))] /\
    requires_grad entropy = false /\
    ln (sigmoid (Rabs (0 - 0) / 1)) <> normal_log_density 0 0 1) /\
  (~ Forall (fun s => (0 < s)%R) (data sigma_d) ->
   process_action_gaussian (mu_d, sigma_d) (mu_a, sigma_a) g = Raise ValueError).
Proof.
  intros Hmu_a Hmu_d Hsigma_d.
  remember (length (data sigma_a)) as n eqn:Hn.
  set (eps := map (fun i => (0 + 1 * g i)%R) (seq 0 n)).
  assert (Heps : length eps = n)
    by (unfold eps; rewrite length_map, length_seq; reflexivity).
  set (scaled := map (fun p => Rmult (fst p) (snd p)) (combine eps (data sigma_a))).
  assert (Hscaled : length scaled = n)
    by (unfold scaled; rewrite length_zip; lia).
  set (z := map (fun p => Rplus (fst p) (snd p)) (combine (data mu_a) scaled)).
  assert (Hz : length z = n) by (unfold z; rewrite length_zip; lia).
  set (dev := map (fun p => Rminus (fst p) (snd p)) (combine z (data mu_d))).
  assert (Hdev : length dev = n) by (unfold dev; rewrite length_zip; lia).
  assert (Habs : length (map Rabs dev) = n) by (rewrite length_map; exact Hdev).
  set (ratio := map (fun p => Rdiv (fst p) (snd p))
                    (combine (map Rabs dev) (data sigma_d))).
  assert (Hratio : length ratio = n) by (unfold ratio; rewrite length_zip; lia).
  assert (Hznth : forall i, (i < n)%nat ->
            nth i z 0%R = (nth i (data mu_a) 0 + g i * nth i (data sigma_a) 0)%R).
  { intros i Hi. unfold z. rewrite nth_zip by lia.
    unfold scaled. rewrite nth_zip by lia.
    unfold eps. rewrite nth_map_seq by exact Hi. lra. }
  assert (Hstart :
    process_action_gaussian (mu_d, sigma_d) (mu_a, sigma_a) g =
    (action_dist <- Normal_init mu_d sigma_d ;;
     Ok (mkTensor z false,
         mkTensor (map ln (map sigmoid ratio))
                  (requires_grad mu_a || (false || requires_grad sigma_a)
                   || requires_grad mu_d || requires_grad sigma_d),
         t_sum (detach (normal_entropy action_dist)),
         fun i => g (n + i)%nat))).
  { unfold process_action_gaussian, reparametrize, torch_normal. cbn [fst snd].
    rewrite <- Hn. fold eps.
    rewrite t_binop_same by (cbn [data]; lia). cbn [bind data requires_grad].
    fold scaled.
    rewrite t_binop_same by (cbn [data]; lia). cbn [bind data requires_grad].
    fold z.
    destruct (Normal_init mu_d sigma_d) as [action_dist | ex]; cbn [bind];
      [| reflexivity].
    rewrite t_binop_same by (cbn [data]; lia). cbn [bind data requires_grad].
    fold dev.
    rewrite t_binop_same by (unfold t_map; cbn [data]; lia).
    reflexivity. }
  rewrite Hstart. unfold Normal_init.
  rewrite broadcast2_same by lia. cbn [bind].
  split.
  - intros Hpos.
    rewrite (proj2 (scale_positive (data mu_d) (data sigma_d) ltac:(lia)) Hpos).
    cbn [bind].
    eexists. eexists. eexists. split; [reflexivity |].
    cbn [data requires_grad normal_entropy t_map t_sum detach snd].
    split; [exact Hz |]. split; [exact Hznth |]. split; [reflexivity |].
    split; [rewrite !length_map; exact Hratio |].
    split.
    { intros i Hi.
      rewrite nth_map_R by (rewrite length_map; lia).
      rewrite nth_map_R by lia.
      unfold ratio. rewrite nth_zip by lia.
      rewrite nth_map_R by lia.
      unfold dev. rewrite nth_zip by lia.
      reflexivity. }
    split.
    { destruct (requires_grad mu_a), (requires_grad sigma_a),
        (requires_grad mu_d), (requires_grad sigma_d); reflexivity. }
    split.
    { rewrite map_snd_combine_same by lia. reflexivity. }
    split; [reflexivity | exact surrogate_not_log_density].
  - intros Hneg.
    destruct (forallb (fun p : R * R => Rltb 0 (snd p))
                      (combine (data mu_d) (data sigma_d))) eqn:Hall;
      [| reflexivity].
    exfalso. apply Hneg.
    apply (scale_positive (data mu_d) (data sigma_d)); [lia | exact Hall].
Qed.

Lemma process_action_gaussian_spec_witness :
  length (data (mkTensor [1%R; 2%R] true)) = length (data (mkTensor [3%R; 4%R] true)) /\
  Forall (fun s => (0 < s)%R) (data (mkTensor [3%R; 4%R] false)) /\
  exists action log_prob entropy,
    process_action_gaussian (mkTensor [1%R; 2%R] false, mkTensor [3%R; 4%R] false)
      (mkTensor [1%R; 2%R] true, mkTensor [3%R; 4%R] true) (fun _ => 1%R)
    = Ok (action, log_prob, entropy, fun i => 1%R) /\
    requires_grad action = false /\
    requires_grad log_prob = true /\
    nth 0 (data action) 0%R = (1 + 1 * 3)%R.
Proof.
  assert (Hpos : Forall (fun s => (0 < s)%R) (data (mkTensor [3%R; 4%R] false)))
    by (cbn [data]; repeat constructor; lra).
  split; [reflexivity |]. split; [exact Hpos |].
  destruct (proj1 (process_action_gaussian_spec
                     (mkTensor [1%R; 2%R] false) (mkTensor [3%R; 4%R] false)
                     (mkTensor [1%R; 2%R] true) (mkTensor [3%R; 4%R] true)
                     (fun _ => 1%R) eq_refl eq_refl eq_refl) Hpos)
    as (action & log_prob & entropy & Hrun & _ & Hact & Hdet & _ & _ & Hgrad & _).
  exists action, log_prob, entropy.
  split; [exact Hrun |]. split; [exact Hdet |]. split; [exact Hgrad |].
  exact (Hact 0%nat (Nat.lt_0_succ 1)).
Defined.

(** * Further properties of the code *)

(** ** The validator: pushes, pulls and the far edges *)

Lemma get_tiles_push_pull (room : Room) (pos : Z * Z) (move : MoveType) :
  get_tiles room pos (pull_of move) = get_tiles room pos (push_of move).
Proof. destruct move; reflexivity. Qed.

(** X1: a push and the pull in the same direction read the same two cells,
    so they fail on the same inputs with the same exception, and wherever
    the pull is valid the push is valid too. *)
Theorem pull_valid_push_valid (room : Room) (pos : Z * Z) (move : MoveType) :
  (is_valid_command room pos (pull_of move) = Ok true ->
   is_valid_command room pos (push_of move) = Ok true) /\
  (forall e, is_valid_command room pos (pull_of move) = Raise e <->
             is_valid_command room pos (push_of move) = Raise e).
Proof.
  rewrite !is_valid_command_verdict, get_tiles_push_pull.
  destruct (get_tiles room pos (push_of move)) as [[ta tb] | ex]; cbn [bind].
  - split.
    + destruct ta, tb, move; simpl; intros Hv; try discriminate Hv; reflexivity.
    + intros e. split; discriminate.
  - split; [discriminate |]. intros e. reflexivity.
Qed.

Lemma pull_valid_push_valid_witness :
  is_valid_command room_with_box (2, 1) (pull_of PUSH_UP) = Ok true /\
  is_valid_command room_with_box (2, 1) (push_of PUSH_UP) = Ok true.
Proof.
  split; [reflexivity |].
  apply (proj1 (pull_valid_push_valid room_with_box (2, 1) PUSH_UP)).
  reflexivity.
Defined.

(** X2: the cell behind the player is read for every move, also for a push,
    whose verdict does not use it.  On a rectangular grid of tile codes:
    from the bottom row every move up raises [IndexError], push or pull;
    from the top row a push down reads the bottom row as the cell behind
    and still returns the verdict of the specification, while a pull down
    takes the tile of the bottom row for the tile behind the player. *)
Theorem get_tiles_far_edge (room : Room) (w : Z) :
  rectangular room w -> tile_codes room ->
  (forall c move, 0 <= c < w -> 1 <= Z.of_nat (length room) ->
     move_delta move = (-1, 0) ->
     is_valid_command room (Z.of_nat (length room) - 1, c) move = Raise IndexError) /\
  (forall c, 0 <= c < w -> 2 <= Z.of_nat (length room) ->
     cell_at room (fst (cell_behind (0, c) PUSH_DOWN))
                  (snd (cell_behind (0, c) PUSH_DOWN)) = None /\
     is_valid_command room (0, c) PUSH_DOWN
     = Ok (spec_is_valid room (0, c) PUSH_DOWN)) /\
  (forall c, 0 <= c < w -> 2 <= Z.of_nat (length room) ->
     exists ta tb,
       tile_at room 1 c = Some ta /\
       tile_at room (Z.of_nat (length room) - 1) c = Some tb /\
       is_valid_command room (0, c) PULL_DOWN
       = Ok (spec_verdict (Some ta) (Some tb) PULL_DOWN)).
Proof.
  intros Hrect Hcodes.
  assert (Hdown : forall c move, 0 <= c < w -> 2 <= Z.of_nat (length room) ->
            move_delta move = (1, 0) ->
            exists ta tb,
              tile_at room 1 c = Some ta /\
              tile_at room (Z.of_nat (length room) - 1) c = Some tb /\
              is_valid_command room (0, c) move
              = Ok (spec_verdict (Some ta) (Some tb) move)).
  { intros c move Hc Hn Hd.
    destruct (tile_at_inside room w 1 c Hrect Hcodes) as [ta Hta]; try lia.
    destruct (tile_at_inside room w (Z.of_nat (length room) - 1) c Hrect Hcodes)
      as [tb Htb]; try lia.
    destruct (tile_at_room_get _ _ _ _ Hta) as (a & Hga & Hka).
    destruct (tile_at_room_get _ _ _ _ Htb) as (b & Hgb & Hkb).
    exists ta, tb. split; [exact Hta |]. split; [exact Htb |].
    assert (Hah : cell_ahead (0, c) move = (1, c)).
    { unfold cell_ahead. rewrite Hd. cbn [fst snd]. f_equal; lia. }
    assert (Hbe : cell_behind (0, c) move = (-1, c)).
    { unfold cell_behind. rewrite Hd. cbn [fst snd]. f_equal; lia. }
    apply (get_tiles_at room (0, c) move 1 c (-1) c a b ta tb Hah Hbe);
      try assumption.
    rewrite room_get_wrap_row by lia.
    replace (-1 + Z.of_nat (length room)) with (Z.of_nat (length room) - 1) by lia.
    exact Hgb. }
  split; [| split].
  - intros c move Hc Hn Hd.
    set (n := Z.of_nat (length room)) in *.
    assert (Hah : cell_ahead (n - 1, c) move = (n - 2, c)).
    { unfold cell_ahead. rewrite Hd. cbn [fst snd]. f_equal; lia. }
    assert (Hbe : cell_behind (n - 1, c) move = (n, c)).
    { unfold cell_behind. rewrite Hd. cbn [fst snd]. f_equal; lia. }
    assert (Hga : exists a ta, room_get room (n - 2) c = Ok a /\ TileType_of a = Ok ta).
    { destruct (Z.eq_dec n 1) as [Hn1 | Hn1].
      - destruct (tile_at_inside room w 0 c Hrect Hcodes) as [ta Hta];
          try (unfold n in *; lia).
        destruct (tile_at_room_get _ _ _ _ Hta) as (a & Hg & Hk).
        exists a, ta. split; [| exact Hk].
        rewrite room_get_wrap_row by (unfold n in *; lia).
        replace (n - 2 + Z.of_nat (length room)) with 0 by (unfold n in *; lia).
        exact Hg.
      - destruct (tile_at_inside room w (n - 2) c Hrect Hcodes) as [ta Hta];
          try (unfold n in *; lia).
        destruct (tile_at_room_get _ _ _ _ Hta) as (a & Hg & Hk).
        exists a, ta. split; assumption. }
    destruct Hga as (a & ta & Hg & Hk).
    rewrite is_valid_command_verdict, get_tiles_cells, Hah, Hbe. cbn [fst snd].
    rewrite Hg. cbn [bind]. rewrite Hk. cbn [bind].
    unfold n. rewrite room_get_past_rows. reflexivity.
  - intros c Hc Hn.
    destruct (Hdown c PUSH_DOWN Hc Hn eq_refl) as (ta & tb & Hta & Htb & Hv).
    split.
    + cbn. reflexivity.
    + rewrite Hv. unfold spec_is_valid.
      replace (fst (cell_ahead (0, c) PUSH_DOWN)) with 1 by reflexivity.
      replace (snd (cell_ahead (0, c) PUSH_DOWN)) with c by (cbn; lia).
      rewrite Hta. destruct ta; reflexivity.
  - intros c Hc Hn. exact (Hdown c PULL_DOWN Hc Hn eq_refl).
Qed.

Lemma get_tiles_far_edge_witness :
  rectangular room_with_box 3 /\ tile_codes room_with_box /\
  is_valid_command room_with_box (Z.of_nat (length room_with_box) - 1, 1) PUSH_UP
  = Raise IndexError.
Proof.
  assert (Hrect : rectangular room_with_box 3)
    by (unfold rectangular, room_with_box; repeat constructor).
  assert (Hcodes : tile_codes room_with_box)
    by (unfold tile_codes, room_with_box; repeat constructor; lia).
  split; [exact Hrect |]. split; [exact Hcodes |].
  apply (proj1 (get_tiles_far_edge room_with_box 3 Hrect Hcodes) 1 PUSH_UP);
    [lia | simpl; lia | reflexivity].
Defined.

(** ** The action encodings on every integer *)

Lemma MoveType_of_value (m : MoveType) : MoveType_of (MoveType_value m) = Ok m.
Proof. destruct m; reflexivity. Qed.

Lemma MoveType_of_Ok (v : Z) (m : MoveType) :
  MoveType_of v = Ok m -> v = MoveType_value m.
Proof.
  unfold MoveType_of.
  destruct (find (fun m0 => MoveType_value m0 =? v) all_moves) as [m' |] eqn:Hf;
    [| discriminate].
  intros [= <-]. apply find_some in Hf as [_ Hv]. lia.
Qed.

Lemma MoveType_of_defined (v : Z) :
  (exists m, MoveType_of v = Ok m) <-> is_move_value v.
Proof.
  unfold is_move_value. split.
  - intros [m Hm]. apply MoveType_of_Ok in Hm. subst v. destruct m; simpl; lia.
  - intros Hv.
    assert (Hc : v = 1 \/ v = 2 \/ v = 3 \/ v = 4 \/ v = 9 \/ v = 10 \/ v = 11 \/ v = 12)
      by lia.
    destruct Hc as [-> | [-> | [-> | [-> | [-> | [-> | [-> | ->]]]]]]];
      eexists; reflexivity.
Qed.

Lemma MoveType_of_undefined (v : Z) :
  ~ is_move_value v -> MoveType_of v = Raise ValueError.
Proof.
  intros Hv. destruct (MoveType_of v) as [m | e] eqn:Hm.
  - exfalso. apply Hv. apply MoveType_of_defined. exists m. exact Hm.
  - unfold MoveType_of in Hm.
    destruct (find (fun m0 => MoveType_value m0 =? v) all_moves); [discriminate |].
    symmetry. exact Hm.
Qed.

(** X3: on every integer index, the PUSH_PULL encoding is one-to-one and
    never produces a value of the unused band 5..8; what it produces is the
    value of a move exactly for the indices 0..7.  The PUSH_ONLY encoding
    produces the value of a push exactly for the indices 0..3, and for the
    indices 8..11 it produces the value of a pull. *)
Theorem encode_action_range {E : Type} `{GymEnv E} (w : EnvWrapper E) :
  (action_type w = PUSH_PULL ->
   forall i, exists j,
     encode_action w (AInt i) = Ok (AInt j) /\ ~ (5 <= j <= 8) /\
     (is_move_value j <-> 0 <= i <= 7)) /\
  (action_type w = PUSH_PULL ->
   forall i1 i2, encode_action w (AInt i1) = encode_action w (AInt i2) -> i1 = i2) /\
  (action_type w = PUSH_ONLY ->
   forall i,
     encode_action w (AInt i) = Ok (AInt (i + 1)) /\
     ((exists m, MoveType_of (i + 1) = Ok m /\ is_pull m = false) <-> 0 <= i <= 3) /\
     ((exists m, MoveType_of (i + 1) = Ok m /\ is_pull m = true) <-> 8 <= i <= 11)).
Proof.
  split; [| split].
  - intros Hat i. unfold encode_action. rewrite Hat. unfold is_move_value.
    destruct (5 <=? i + 1) eqn:Hc; eexists; (split; [reflexivity |]); lia.
  - intros Hat i1 i2. unfold encode_action. rewrite Hat.
    destruct (5 <=? i1 + 1) eqn:H1; destruct (5 <=? i2 + 1) eqn:H2;
      intros [= Heq]; lia.
  - intros Hat i. unfold encode_action. rewrite Hat.
    split; [reflexivity |]. split.
    + split.
      * intros (m & Hm & Hp). apply MoveType_of_Ok in Hm.
        destruct m; simpl in *; try discriminate; lia.
      * intros Hi.
        assert (Hc : i = 0 \/ i = 1 \/ i = 2 \/ i = 3) by lia.
        destruct Hc as [-> | [-> | [-> | ->]]]; eexists; split; reflexivity.
    + split.
      * intros (m & Hm & Hp). apply MoveType_of_Ok in Hm.
        destruct m; simpl in *; try discriminate; lia.
      * intros Hi.
        assert (Hc : i = 8 \/ i = 9 \/ i = 10 \/ i = 11) by lia.
        destruct Hc as [-> | [-> | [-> | ->]]]; eexists; split; reflexivity.
Qed.

Lemma encode_action_range_witness :
  action_type (room_wrapper room_with_box OBS_REGULAR) = PUSH_ONLY /\
  encode_action (room_wrapper room_with_box OBS_REGULAR) (AInt 8) = Ok (AInt 9) /\
  (exists m, MoveType_of (8 + 1) = Ok m /\ is_pull m = true).
Proof.
  split; [reflexivity |].
  destruct (encode_action_range (room_wrapper room_with_box OBS_REGULAR))
    as (_ & _ & Hpo).
  destruct (Hpo eq_refl 8) as (Henc & _ & Hpull).
  split; [exact Henc |]. apply Hpull. lia.
Defined.

Section StepProps.

Context {E : Type} `{GymEnv E}.

(** X4: in REGULAR mode with the move trick enabled, an action that is not
    the value of a move (0, the no-op, or 5 to 8) makes [step] raise
    [ValueError], after the environment has taken the step. *)
Theorem step_regular_not_a_move (w : EnvWrapper E) (i : Z) (raw : RawObs)
    (r r1 : R) (d d1 : bool) (info : StepInfo) (e : E) (obs : Obs E)
    (room : Room) (pos : Z * Z) :
  action_type w = REGULAR -> move_trick w = true ->
  env_step (env w) (AInt i) = Ok (raw, r, d, info, e) ->
  process_obs (with_env w e) raw = Ok obs ->
  cone_rule (with_env w e) obs r d = Ok (r1, d1) ->
  env_room_state e = Some room ->
  env_player_position e = Some pos ->
  ~ is_move_value i ->
  step w (AInt i) = Raise ValueError.
Proof.
  intros Hat Hm Hstep Hobs Hcone Hroom Hpos Hi.
  assert (Henc : encode_action w (AInt i) = Ok (AInt i))
    by (unfold encode_action; rewrite Hat; reflexivity).
  rewrite (step_unfold w (AInt i) (AInt i) raw r d info e obs Henc Hstep Hobs).
  rewrite Hcone. cbn [bind]. cbv beta iota.
  unfold move_rule. cbn [with_env move_trick env]. rewrite Hm, Hroom.
  cbn [bind getattr]. rewrite Hpos. cbn [bind getattr MoveType_of_action].
  rewrite (MoveType_of_undefined i Hi). reflexivity.
Qed.

Lemma cone_rule_cases (w : EnvWrapper E) (obs : Obs E) (r r1 : R) (d d1 : bool) :
  cone_rule w obs r d = Ok (r1, d1) ->
  (r1 = r /\ d1 = d) \/ (r1 = (r - 300)%R /\ d1 = true).
Proof.
  unfold cone_rule. destruct (cone_trick w).
  - destruct (obs_getitem obs 0) as [x | ex]; cbn [bind]; [| discriminate].
    destruct (obs_getitem obs 1) as [y | ex]; cbn [bind]; [| discriminate].
    destruct (to_float y) as [yf | ex]; cbn [bind]; [| discriminate].
    destruct (to_float (py_abs x)) as [xf | ex]; cbn [bind]; [| discriminate].
    destruct (Rltb (atan2 yf xf) (PI / 4) && Rltb (1 / 3) yf);
      intros [= <- <-]; [right | left]; split; reflexivity.
  - intros [= <- <-]. left. split; reflexivity.
Qed.

Lemma move_rule_cases (w : EnvWrapper E) (a : Action) (r r1 : R) (d d1 : bool) :
  move_rule w a r d = Ok (r1, d1) ->
  (r1 = r /\ d1 = d) \/ (r1 = (r - 300)%R /\ d1 = true).
Proof.
  unfold move_rule. destruct (move_trick w).
  - destruct (getattr (env_room_state (env w))) as [room | ex]; cbn [bind];
      [| discriminate].
    destruct (getattr (env_player_position (env w))) as [pos | ex]; cbn [bind];
      [| discriminate].
    destruct (MoveType_of_action a) as [m | ex]; cbn [bind]; [| discriminate].
    destruct (is_valid_command room pos m) as [v | ex]; cbn [bind]; [| discriminate].
    destruct v; cbn [negb]; intros [= <- <-]; [left | right]; split; reflexivity.
  - intros [= <- <-]. left. split; reflexivity.
Qed.

(** X5: whatever [step] returns, the shaping only takes away: the reward is
    that of the environment less 0, 300 or 600, the done flag of the
    environment is never cleared, a reduced reward always comes with done
    set, and the info of the environment is passed on as it is. *)
Theorem step_shaping_bounds (w w' : EnvWrapper E) (action a' : Action)
    (raw : RawObs) (r r' : R) (d d' : bool) (info info' : StepInfo) (e : E)
    (obs : Obs E) :
  encode_action w action = Ok a' ->
  env_step (env w) a' = Ok (raw, r, d, info, e) ->
  step w action = Ok (obs, r', d', info', w') ->
  (r' = r \/ r' = (r - 300)%R \/ r' = (r - 600)%R) /\
  (d = true -> d' = true) /\
  (r' <> r -> d' = true) /\
  info' = info /\ w' = with_env w e /\
  process_obs (with_env w e) raw = Ok obs.
Proof.
  intros Henc Hstep. unfold step, step_encoded.
  rewrite Henc. cbn [bind]. rewrite Hstep. cbn [bind]. cbv beta iota.
  destruct (process_obs (with_env w e) raw) as [o | ex]; cbn [bind]; [| discriminate].
  destruct (cone_rule (with_env w e) o r d) as [[r1 d1] | ex] eqn:Hc;
    cbn [bind]; [| discriminate].
  cbv beta iota.
  destruct (move_rule (with_env w e) a' r1 d1) as [[r2 d2] | ex] eqn:Hm;
    cbn [bind]; [| discriminate].
  cbv beta iota. intros [= <- <- <- <- <-].
  apply cone_rule_cases in Hc. apply move_rule_cases in Hm.
  destruct Hc as [[-> ->] | [-> ->]]; destruct Hm as [[-> ->] | [-> ->]];
    (split; [lra || (right; lra) |]);
    (split; [intros; (assumption || reflexivity) |]);
    (split; [intros Hne; (reflexivity || (exfalso; apply Hne; reflexivity)) |]);
    repeat split; reflexivity.
Qed.

End StepProps.

Lemma step_regular_not_a_move_witness :
  action_type (regular_wrapper room_with_box) = REGULAR /\
  move_trick (regular_wrapper room_with_box) = true /\
  ~ is_move_value 0 /\
  step (regular_wrapper room_with_box) (AInt 0) = Raise ValueError.
Proof.
  split; [reflexivity |]. split; [reflexivity |].
  assert (Hnot : ~ is_move_value 0) by (unfold is_move_value; lia).
  split; [exact Hnot |].
  exact (@step_regular_not_a_move FixedEnv FixedEnv_GymEnv
           (regular_wrapper room_with_box) 0 [] 0%R 0%R false false tt
           (sokoban_env room_with_box []) (@ObsRaw FixedEnv FixedEnv_GymEnv [])
           room_with_box (2, 1)
           eq_refl eq_refl eq_refl eq_refl eq_refl eq_refl eq_refl Hnot).
Defined.

Lemma sokoban_invalid_pull_step :
  step (sokoban_wrapper room_without_box [] false) (AInt 4) =
  Ok (ObsRaw [], (0 - 300)%R, true, tt, sokoban_wrapper room_without_box [] false).
Proof.
  rewrite (@step_unfold FixedEnv FixedEnv_GymEnv
             (sokoban_wrapper room_without_box [] false) (AInt 4) (AInt 9)
             [] 0%R false tt (sokoban_env room_without_box [])
             (@ObsRaw FixedEnv FixedEnv_GymEnv []) eq_refl eq_refl eq_refl).
  rewrite cone_rule_off by reflexivity. cbn [bind]. cbv beta iota.
  rewrite (move_rule_on _ (AInt 9) _ _ room_without_box (2, 1) PULL_UP false)
    by reflexivity.
  reflexivity.
Qed.

Lemma step_shaping_bounds_witness :
  encode_action (sokoban_wrapper room_without_box [] false) (AInt 4) = Ok (AInt 9) /\
  step (sokoban_wrapper room_without_box [] false) (AInt 4) =
    Ok (ObsRaw [], (0 - 300)%R, true, tt, sokoban_wrapper room_without_box [] false) /\
  ((0 - 300)%R = 0%R \/ (0 - 300)%R = (0 - 300)%R \/ (0 - 300)%R = (0 - 600)%R).
Proof.
  split; [reflexivity |]. split; [exact sokoban_invalid_pull_step |].
  exact (proj1 (@step_shaping_bounds FixedEnv FixedEnv_GymEnv
                  (sokoban_wrapper room_without_box [] false)
                  (sokoban_wrapper room_without_box [] false)
                  (AInt 4) (AInt 9) [] 0%R (0 - 300)%R false true tt tt
                  (sokoban_env room_without_box [])
                  (@ObsRaw FixedEnv FixedEnv_GymEnv [])
                  eq_refl eq_refl sokoban_invalid_pull_step)).
Defined.

(** ** The constructor *)

Section InitProps.

Context {E : Type} `{GymEnv E}.

(** X6: [cone_trick] and [move_trick] are required keyword arguments in
    every mode: without either the constructor raises [KeyError].
    [num_discrete] is read in DISCRETIZIED mode only: there the
    constructor does not return without it, and in every other mode its
    value makes no difference.  The push modes fix the number of actions at 4 and 8
    whatever the environment declares, and leave the tables empty. *)
Theorem EnvWrapper_init_keywords (made : E) (name : string) (ot : ObsType)
    (at_ : ActionType) (steps : Z) (kwargs : Kwargs) :
  (kw_cone_trick kwargs = None ->
   EnvWrapper_init made name ot at_ steps kwargs = Raise KeyError) /\
  (kw_cone_trick kwargs <> None -> kw_move_trick kwargs = None ->
   EnvWrapper_init made name ot at_ steps kwargs = Raise KeyError) /\
  (at_ <> DISCRETIZIED -> forall nd,
   EnvWrapper_init made name ot at_ steps kwargs =
   EnvWrapper_init made name ot at_ steps
     (mkKwargs (kw_cone_trick kwargs) (kw_move_trick kwargs) nd)) /\
  (at_ = DISCRETIZIED -> kw_num_discrete kwargs = None -> forall w,
   EnvWrapper_init made name ot at_ steps kwargs <> Ok w) /\
  (forall w, EnvWrapper_init made name ot at_ steps kwargs = Ok w ->
   (at_ = PUSH_ONLY -> num_actions w = 4) /\
   (at_ = PUSH_PULL -> num_actions w = 8) /\
   (at_ <> DISCRETIZIED ->
    num_discrete w = 0 /\ discrete_array w = [] /\ split_discrete_array w = [])).
Proof.
  split; [| split; [| split; [| split]]].
  - intros Hc. unfold EnvWrapper_init. rewrite Hc. reflexivity.
  - intros Hc Hm. unfold EnvWrapper_init.
    destruct (kw_cone_trick kwargs) as [cone |]; [| congruence].
    rewrite Hm. reflexivity.
  - intros Hat nd. unfold EnvWrapper_init. cbn [kw_cone_trick kw_move_trick].
    destruct at_; try reflexivity. congruence.
  - intros Hat Hnd w. subst at_. unfold EnvWrapper_init.
    destruct (getkey (kw_cone_trick kwargs)) as [cone | ex]; cbn [bind];
      [| discriminate].
    destruct (getkey (kw_move_trick kwargs)) as [move | ex]; cbn [bind];
      [| discriminate].
    match goal with
    | |- context [bind ?m _] => destruct m as [size | ex]; cbn [bind]; [| discriminate]
    end.
    destruct (space_shape0 (action_space (env_set_max_steps made steps))) as [n | ex];
      cbn [bind]; [| discriminate].
    rewrite Hnd. discriminate.
  - intros w. unfold EnvWrapper_init.
    destruct (getkey (kw_cone_trick kwargs)) as [cone | ex]; cbn [bind];
      [| discriminate].
    destruct (getkey (kw_move_trick kwargs)) as [move | ex]; cbn [bind];
      [| discriminate].
    match goal with
    | |- context [bind ?m _] => destruct m as [size | ex]; cbn [bind]; [| discriminate]
    end.
    destruct at_.
    + destruct (space_n (action_space (env_set_max_steps made steps))) as [n | ex];
        cbn [bind]; [| discriminate].
      intros [= <-]. cbn. repeat split; intros; (discriminate || reflexivity).
    + intros [= <-]. cbn. repeat split; intros; (discriminate || reflexivity).
    + intros [= <-]. cbn. repeat split; intros; (discriminate || reflexivity).
    + destruct (space_shape0 (action_space (env_set_max_steps made steps))) as [n | ex];
        cbn [bind]; [| discriminate].
      intros [= <-]. cbn. repeat split; intros; (discriminate || reflexivity).
    + intros _. repeat split; intros; (discriminate || congruence).
Qed.

End InitProps.

Lemma EnvWrapper_init_keywords_witness :
  kw_cone_trick (mkKwargs None (Some true) (Some 4)) = None /\
  EnvWrapper_init (sokoban_env room_with_box []) "Sokoban-v0" OBS_REGULAR PUSH_PULL 300
    (mkKwargs None (Some true) (Some 4)) = Raise KeyError.
Proof.
  split; [reflexivity |].
  exact (proj1 (@EnvWrapper_init_keywords FixedEnv FixedEnv_GymEnv
                  (sokoban_env room_with_box []) "Sokoban-v0" OBS_REGULAR PUSH_PULL
                  300 (mkKwargs None (Some true) (Some 4))) eq_refl).
Defined.

(** ** When the tables can be built *)

(** X7: from bounds [low < high], lines 189-194 build the two tables
    exactly when [num_discrete >= 2] and neither bound is zero.  With
    [num_discrete] 0 or 1 they raise [ZeroDivisionError]; with a negative
    [num_discrete], or a bound equal to zero, [torch.arange] refuses the
    step and they raise [RuntimeError]. *)
Theorem make_discrete_arrays_total (low high : Q) (n : Z) :
  (low < high)%Q ->
  (n = 0 \/ n = 1 -> make_discrete_arrays low high n = Raise ZeroDivisionError) /\
  (n < 0 -> make_discrete_arrays low high n = Raise RuntimeError) /\
  (2 <= n -> (low == 0)%Q \/ (high == 0)%Q ->
   make_discrete_arrays low high n = Raise RuntimeError) /\
  (2 <= n -> ~ (low == 0)%Q -> ~ (high == 0)%Q ->
   exists da sda, make_discrete_arrays low high n = Ok (da, sda)) /\
  (forall da sda, make_discrete_arrays low high n = Ok (da, sda) ->
   2 <= n /\ ~ (low == 0)%Q /\ ~ (high == 0)%Q).
Proof.
  intros Hlt.
  split; [| split; [| split; [| split]]].
  - intros [-> | ->]; [reflexivity |].
    unfold make_discrete_arrays. rewrite pydiv_nonzero by lia. cbn [bind].
    rewrite (torch_arange_even low high _ 1) by (lia || Lqa.lra || reflexivity).
    reflexivity.
  - intros Hneg. unfold make_discrete_arrays.
    rewrite pydiv_nonzero by lia. cbn [bind].
    rewrite torch_arange_wrong_sign; [reflexivity | | exact Hlt].
    apply Qlt_minus_iff.
    setoid_replace (0 + - ((high - low) / inject_Z n))%Q
      with ((high - low) / inject_Z (- n))%Q.
    + apply Qlt_shift_div_l; [apply inject_Z_pos; lia | Lqa.lra].
    + rewrite inject_Z_opp. field. apply inject_Z_nonzero. lia.
  - intros Hn Hzero.
    assert (Hhalf : 0 < n / 2) by (apply Z.div_str_pos; lia).
    unfold make_discrete_arrays. rewrite pydiv_nonzero by lia. cbn [bind].
    rewrite (torch_arange_even low high _ n) by (lia || Lqa.lra || reflexivity).
    cbn [bind]. rewrite pydiv_nonzero by lia. cbn [bind].
    destruct (Qeq_dec low 0) as [Hlow | Hlow].
    + rewrite torch_arange_zero_step; [reflexivity |].
      rewrite Hlow. field. apply inject_Z_nonzero. lia.
    + destruct Hzero as [Hz | Hhigh]; [contradiction |].
      rewrite (torch_arange_even low (low / 2) _ (n / 2)).
      * cbn [bind]. rewrite pydiv_nonzero by lia. cbn [bind].
        rewrite torch_arange_zero_step; [reflexivity |].
        rewrite Hhigh. field. apply inject_Z_nonzero. lia.
      * exact Hhalf.
      * intros Heq. apply Hlow.
        setoid_replace low with (2 * (low - low / 2))%Q by field.
        rewrite <- Heq. field.
      * apply Qdiv_comp; [field | reflexivity].
  - intros Hn Hlow Hhigh. eexists. eexists.
    apply make_discrete_arrays_values; assumption.
  - intros da sda. apply make_discrete_arrays_Ok. exact Hlt.
Qed.

Lemma make_discrete_arrays_total_witness :
  (0 < 1)%Q /\ make_discrete_arrays 0 1 4 = Raise RuntimeError.
Proof.
  assert (Hlt : (0 < 1)%Q) by reflexivity.
  split; [exact Hlt |].
  destruct (make_discrete_arrays_total 0 1 4 Hlt) as (_ & _ & Hzero & _).
  apply Hzero; [lia | left; reflexivity].
Defined.

Lemma pow2_halves (m : Z) : 1 <= m -> 2 * (2 ^ m / 2) = 2 ^ m.
Proof.
  intros Hm. replace m with (Z.succ (m - 1)) by lia.
  rewrite Z.pow_succ_r by lia.
  rewrite (Z.mul_comm 2 (2 ^ (m - 1))), Z.div_mul by lia. lia.
Qed.

Section TableExtras.

Context {E : Type} `{GymEnv E}.

(** X8: on an environment whose first declared bounds are -1 and 1, a
    DISCRETIZIED wrapper that the constructor returns with [num_discrete]
    a power of two from 2 to 2^20 (steps and entries are then binary
    fractions, which the code computes without rounding) has a first table
    of [num_discrete] entries that starts at -1, grows from entry to entry
    and never reaches 1, and a split table of [num_discrete] entries, each
    in [-1, -1/2) or in [1/2, 1): none falls in the dead band between -1/2
    and 1/2. *)
Theorem discretized_wrapper_tables (made : E) (name : string) (ot : ObsType)
    (steps : Z) (kwargs : Kwargs) (w : EnvWrapper E) (m : Z)
    (lows highs : list Q) :
  EnvWrapper_init made name ot DISCRETIZIED steps kwargs = Ok w ->
  action_space (env w) = Box ((-1)%Q :: lows) (1%Q :: highs) ->
  1 <= m <= 20 ->
  num_discrete w = 2 ^ m ->
  Z.of_nat (length (discrete_array w)) = num_discrete w /\
  (exists first, nth_error (discrete_array w) 0 = Some first /\ (first == -1)%Q) /\
  increasing (discrete_array w) /\
  Forall (fun v => (-1 <= v /\ v < 1)%Q) (discrete_array w) /\
  Z.of_nat (length (split_discrete_array w)) = num_discrete w /\
  Forall (fun v => (-1 <= v /\ v < -1 / 2) \/ (1 / 2 <= v /\ v < 1))%Q
         (split_discrete_array w).
Proof.
  intros Hinit Hspace Hm Hpow.
  assert (Hlt : (-1 < 1)%Q) by reflexivity.
  destruct (EnvWrapper_init_tables made name ot steps kwargs w Hinit)
    as (_ & _ & low' & high' & Hlow & Hhigh & Hmk).
  rewrite Hspace in Hlow, Hhigh. cbn [space_low0 space_high0] in Hlow, Hhigh.
  rewrite seq_get_head in Hlow, Hhigh.
  injection Hlow as <-. injection Hhigh as <-.
  destruct (discrete_tables (-1) 1 _ _ _ Hlt Hmk)
    as (Hlen & Hfirst & Hinc & Hbound & Hslen & _).
  destruct (make_discrete_arrays_Ok (-1) 1 _ _ _ Hlt Hmk) as (Hn & Hl0 & Hh0).
  split; [exact Hlen |]. split; [exact Hfirst |].
  split; [exact Hinc |]. split; [exact Hbound |].
  split.
  { rewrite Hslen, Hpow. apply pow2_halves. lia. }
  rewrite (make_discrete_arrays_values (-1) 1 _ Hlt Hl0 Hh0 Hn) in Hmk.
  injection Hmk as _ <-.
  assert (Hhalf : 0 < num_discrete w / 2) by (apply Z.div_str_pos; lia).
  apply Forall_app. split.
  - eapply Forall_impl;
      [| apply (arange_values_bounds (-1) (-1 / 2) _ (num_discrete w / 2))].
    + intros v Hv. left. exact Hv.
    + exact Hhalf.
    + reflexivity.
    + apply Qdiv_comp; [reflexivity | reflexivity].
  - eapply Forall_impl;
      [| apply (arange_values_bounds (1 / 2) 1 _ (num_discrete w / 2))].
    + intros v Hv. right. exact Hv.
    + exact Hhalf.
    + reflexivity.
    + apply Qdiv_comp; [reflexivity | reflexivity].
Qed.

End TableExtras.

Lemma discretized_wrapper_tables_witness :
  exists w,
    EnvWrapper_init continuous_env LUNAR_LANDER BOX2D DISCRETIZIED 300
      (discretized_kwargs 4) = Ok w /\
    action_space (env w) = Box [-1; -1]%Q [1; 1]%Q /\
    1 <= 2 <= 20 /\
    num_discrete w = 2 ^ 2 /\
    Z.of_nat (length (discrete_array w)) = num_discrete w /\
    Forall (fun v => (-1 <= v /\ v < -1 / 2) \/ (1 / 2 <= v /\ v < 1))%Q
           (split_discrete_array w).
Proof.
  destruct (EnvWrapper_init continuous_env LUNAR_LANDER BOX2D DISCRETIZIED 300
              (discretized_kwargs 4)) as [w | ex] eqn:Hinit;
    [| vm_compute in Hinit; discriminate Hinit].
  assert (Hfields : action_space (env w) = Box [-1; -1]%Q [1; 1]%Q /\
                    num_discrete w = 2 ^ 2).
  { vm_compute in Hinit. injection Hinit as <-. split; reflexivity. }
  destruct Hfields as (Hspace & Hpow).
  assert (Hm : 1 <= 2 <= 20) by lia.
  exists w. split; [reflexivity |]. split; [exact Hspace |].
  split; [exact Hm |]. split; [exact Hpow |].
  destruct (@discretized_wrapper_tables FixedEnv FixedEnv_GymEnv continuous_env
              LUNAR_LANDER BOX2D 300 (discretized_kwargs 4) w 2 [-1]%Q [1]%Q
              Hinit Hspace Hm Hpow)
    as (Hlen & _ & _ & _ & _ & Hdead).
  split; [exact Hlen | exact Hdead].
Defined.

(** ** The declared observation size *)

Lemma length_concat_rectangular (room : Room) (w : Z) :
  rectangular room w ->
  Z.of_nat (length (concat room)) = Z.of_nat (length room) * w.
Proof.
  induction 1 as [| row rest Hlen Hrest IH]; [reflexivity |].
  simpl concat. rewrite length_app. cbn [length]. lia.
Qed.

Section ObsSizeProps.

Context {E : Type} `{GymEnv E}.

(** X9: under ROOM_STATE_VECTOR the constructor declares an observation
    size of (number of rows) squared, while the observation is the whole
    room flattened, rows times columns long: for a room with at least one
    row the declared size is the length of the observation exactly when
    the room is square.  Under ROOM_STATE_MATRIX the declared size is the
    number of rows. *)
Theorem obs_size_room_state (made : E) (name : string) (ot : ObsType)
    (at_ : ActionType) (steps : Z) (kwargs : Kwargs) (w : EnvWrapper E)
    (room : Room) (cols : Z) :
  EnvWrapper_init made name ot at_ steps kwargs = Ok w ->
  env_room_state (env w) = Some room ->
  rectangular room cols ->
  (ot = ROOM_STATE_MATRIX -> obs_size w = Z.of_nat (length room)) /\
  (ot = ROOM_STATE_VECTOR ->
   obs_size w = Z.of_nat (length room) * Z.of_nat (length room) /\
   forall raw, exists v,
     process_obs w raw = Ok (ObsCells v) /\
     Z.of_nat (length v) = Z.of_nat (length room) * cols /\
     (0 < Z.of_nat (length room) ->
      (obs_size w = Z.of_nat (length v) <-> cols = Z.of_nat (length room)))).
Proof.
  intros Hinit Hroom Hrect.
  assert (Hfields : env w = env_set_max_steps made steps /\ obs_type w = ot /\
            forall size,
              match ot with
              | OBS_REGULAR | BOX2D =>
                  seq_get (observation_shape (env_set_max_steps made steps)) 0
              | ROOM_STATE_VECTOR =>
                  room0 <- getattr (env_room_state (env_set_max_steps made steps)) ;;
                  Ok (Z.of_nat (length room0) ^ 2)
              | ROOM_STATE_MATRIX =>
                  room0 <- getattr (env_room_state (env_set_max_steps made steps)) ;;
                  Ok (Z.of_nat (length room0))
              end = Ok size -> obs_size w = size).
  { revert Hinit. unfold EnvWrapper_init.
    destruct (getkey (kw_cone_trick kwargs)) as [cone | ex]; cbn [bind];
      [| discriminate].
    destruct (getkey (kw_move_trick kwargs)) as [move | ex]; cbn [bind];
      [| discriminate].
    match goal with
    | |- context [bind ?m _] => destruct m as [size | ex]; cbn [bind]; [| discriminate]
    end.
    destruct at_.
    - destruct (space_n (action_space (env_set_max_steps made steps))) as [n | ex];
        cbn [bind]; [| discriminate].
      intros [= <-]. cbn. repeat split. intros size0 [= <-]. reflexivity.
    - intros [= <-]. cbn. repeat split. intros size0 [= <-]. reflexivity.
    - intros [= <-]. cbn. repeat split. intros size0 [= <-]. reflexivity.
    - destruct (space_shape0 (action_space (env_set_max_steps made steps))) as [n | ex];
        cbn [bind]; [| discriminate].
      intros [= <-]. cbn. repeat split. intros size0 [= <-]. reflexivity.
    - destruct (space_shape0 (action_space (env_set_max_steps made steps))) as [n | ex];
        cbn [bind]; [| discriminate].
      destruct (getkey (kw_num_discrete kwargs)) as [nd | ex]; cbn [bind];
        [| discriminate].
      destruct (space_low0 (action_space (env_set_max_steps made steps)))
        as [low | ex]; cbn [bind]; [| discriminate].
      destruct (space_high0 (action_space (env_set_max_steps made steps)))
        as [high | ex]; cbn [bind]; [| discriminate].
      destruct (make_discrete_arrays low high nd) as [[da sda] | ex]; cbn [bind];
        [| discriminate].
      intros [= <-]. cbn. repeat split. intros size0 [= <-]. reflexivity. }
  destruct Hfields as (Henv & Hot & Hsize).
  rewrite Henv in Hroom.
  split.
  - intros ->. apply Hsize. rewrite Hroom. reflexivity.
  - intros ->.
    assert (Hsz : obs_size w = Z.of_nat (length room) * Z.of_nat (length room)).
    { rewrite (Hsize (Z.of_nat (length room) ^ 2)); [lia |].
      rewrite Hroom. reflexivity. }
    split; [exact Hsz |].
    intros raw. exists (flatten room).
    split.
    { unfold process_obs. rewrite Hot, Henv, Hroom. reflexivity. }
    pose proof (length_concat_rectangular room cols Hrect) as Hlen.
    split; [exact Hlen |].
    intros Hpos. unfold flatten. rewrite Hsz, Hlen. split; intros Heq; [nia | subst; lia].
Qed.

End ObsSizeProps.

Lemma obs_size_room_state_witness :
  EnvWrapper_init (sokoban_env wide_room []) "Sokoban-v0" ROOM_STATE_VECTOR PUSH_ONLY 300
    (mkKwargs (Some false) (Some false) None)
  = Ok (room_wrapper wide_room ROOM_STATE_VECTOR) /\
  rectangular wide_room 3 /\
  obs_size (room_wrapper wide_room ROOM_STATE_VECTOR) = 4 /\
  exists v, process_obs (room_wrapper wide_room ROOM_STATE_VECTOR) [] = Ok (ObsCells v) /\
            Z.of_nat (length v) = 6.
Proof.
  assert (Hrect : rectangular wide_room 3)
    by (unfold rectangular, wide_room; repeat constructor).
  split; [reflexivity |]. split; [exact Hrect |].
  destruct (@obs_size_room_state FixedEnv FixedEnv_GymEnv
              (sokoban_env wide_room []) "Sokoban-v0" ROOM_STATE_VECTOR PUSH_ONLY 300
              (mkKwargs (Some false) (Some false) None)
              (room_wrapper wide_room ROOM_STATE_VECTOR) wide_room 3
              eq_refl eq_refl Hrect)
    as (_ & Hvec).
  destruct (Hvec eq_refl) as (Hsz & Hobs).
  split; [exact Hsz |].
  destruct (Hobs []) as (v & Hp & Hlen & _).
  exists v. split; [exact Hp | exact Hlen].
Defined.

(** ** Reparametrisation and broadcasting *)



(** ** On-policy selection from the tables *)

Lemma softmax_row_length (row : list R) : length (softmax_row row) = length row.
Proof. unfold softmax_row. apply length_map. Qed.

Lemma table_get_inside (table : list Q) (i : nat) :
  (i < length table)%nat -> exists v, table_get table i = Ok v /\ nth_error table i = Some v.
Proof.
  intros Hi. unfold table_get.
  destruct (nth_error table i) as [v |] eqn:Hv.
  - exists v. split; reflexivity.
  - apply nth_error_None in Hv. lia.
Qed.

Lemma table_get_outside (table : list Q) (i : nat) :
  (length table <= i)%nat -> table_get table i = Raise IndexError.
Proof.
  intros Hi. unfold table_get.
  apply nth_error_None in Hi. rewrite Hi. reflexivity.
Qed.

(** X11: on the two-engine lander in DISCRETIZIED mode, with bounds -1
    and 1, the tables of the constructor and [num_discrete] value estimates
    per engine.  When [num_discrete] is a power of two from 2 to 2^20,
    whatever pair of buckets the multinomial draw returns, [on_policy]
    returns the two table values together with the pair.  When
    [num_discrete] is one more than such a power, a draw of the last bucket
    for the second engine raises [IndexError]: the split table has one
    entry less than there are buckets. *)
Theorem on_policy_lander {E : Type} (w : EnvWrapper E) (m : Z)
    (row0 row1 : list R) :
  env_name w = LUNAR_LANDER -> action_type w = DISCRETIZIED ->
  1 <= m <= 20 ->
  make_discrete_arrays (-1) 1 (num_discrete w)
  = Ok (discrete_array w, split_discrete_array w) ->
  Z.of_nat (length row0) = num_discrete w ->
  Z.of_nat (length row1) = num_discrete w ->
  (num_discrete w = 2 ^ m ->
   forall i0 i1, Z.of_nat i0 < num_discrete w -> Z.of_nat i1 < num_discrete w ->
     exists a0 a1,
       on_policy w [row0; row1] [i0; i1] = Ok (PValues [a0; a1], [i0; i1]) /\
       nth_error (discrete_array w) i0 = Some a0 /\
       nth_error (split_discrete_array w) i1 = Some a1) /\
  (num_discrete w = 2 ^ m + 1 ->
   forall i0, Z.of_nat i0 < num_discrete w ->
     on_policy w [row0; row1] [i0; Z.to_nat (num_discrete w - 1)]
     = Raise IndexError).
Proof.
  intros Hname Hat Hm Hmk Hr0 Hr1.
  assert (Hlt : (-1 < 1)%Q) by reflexivity.
  destruct (discrete_tables (-1) 1 _ _ _ Hlt Hmk)
    as (Hlen & _ & _ & _ & Hslen & _).
  destruct (make_discrete_arrays_Ok (-1) 1 _ _ _ Hlt Hmk) as (Hn & _ & _).
  assert (Hmulti : forall draw,
            multinomial1 (map softmax_row [row0; row1]) draw = Ok draw).
  { intros draw. unfold multinomial1. cbn [map existsb].
    rewrite !softmax_row_length.
    destruct (length row0) eqn:H0; [lia |].
    destruct (length row1) eqn:H1; [lia |]. reflexivity. }
  assert (Hrun : forall i0 i1,
            on_policy w [row0; row1] [i0; i1] =
            (a0 <- table_get (discrete_array w) i0 ;;
             a1 <- table_get (split_discrete_array w) i1 ;;
             Ok (PValues [a0; a1], [i0; i1]))).
  { intros i0 i1. unfold on_policy. rewrite Hat, Hmulti. cbn [bind].
    rewrite Hname, String.eqb_refl.
    rewrite seq_get_head. cbn [bind].
    replace (seq_get [i0; i1] 1) with (Ok i1) by reflexivity.
    reflexivity. }
  split.
  - intros Hpow i0 i1 Hi0 Hi1.
    assert (Hhalf : 2 * (num_discrete w / 2) = num_discrete w)
      by (rewrite Hpow; apply pow2_halves; lia).
    destruct (table_get_inside (discrete_array w) i0) as (a0 & Ha0 & Hn0); [lia |].
    destruct (table_get_inside (split_discrete_array w) i1) as (a1 & Ha1 & Hn1);
      [lia |].
    exists a0, a1. rewrite Hrun, Ha0. cbn [bind]. rewrite Ha1.
    split; [reflexivity |]. split; assumption.
  - intros Hpow i0 Hi0.
    destruct (table_get_inside (discrete_array w) i0) as (a0 & Ha0 & _); [lia |].
    rewrite Hrun, Ha0. cbn [bind].
    rewrite table_get_outside; [reflexivity |].
    assert (Hhalf : 2 * (num_discrete w / 2) = num_discrete w - 1).
    { rewrite Hpow. replace (2 ^ m + 1) with (1 + 2 ^ m) by lia.
      rewrite <- (pow2_halves m) at 1 by lia.
      rewrite (Z.mul_comm 2 (2 ^ m / 2)), Z.div_add by lia.
      replace (1 / 2) with 0 by reflexivity.
      pose proof (pow2_halves m ltac:(lia)). lia. }
    lia.
Qed.

Lemma on_policy_lander_witness :
  exists w : EnvWrapper FixedEnv,
    EnvWrapper_init continuous_env LUNAR_LANDER BOX2D DISCRETIZIED 300
      (discretized_kwargs 5) = Ok w /\
    1 <= 2 <= 20 /\
    num_discrete w = 2 ^ 2 + 1 /\
    on_policy w [[0%R; 0%R; 0%R; 0%R; 0%R]; [0%R; 0%R; 0%R; 0%R; 0%R]]
      [0%nat; Z.to_nat (num_discrete w - 1)]
    = Raise IndexError.
Proof.
  destruct (EnvWrapper_init continuous_env LUNAR_LANDER BOX2D DISCRETIZIED 300
              (discretized_kwargs 5)) as [w | ex] eqn:Hinit;
    [| vm_compute in Hinit; discriminate Hinit].
  destruct (@EnvWrapper_init_tables FixedEnv FixedEnv_GymEnv continuous_env
              LUNAR_LANDER BOX2D 300 (discretized_kwargs 5) w Hinit)
    as (Hat & Hnd & low & high & Hlow & Hhigh & Hmk).
  assert (Hfields : env_name w = LUNAR_LANDER /\ num_discrete w = 5 /\
                    action_space (env w) = Box [-1; -1]%Q [1; 1]%Q).
  { vm_compute in Hinit. injection Hinit as <-. repeat split. }
  destruct Hfields as (Hname & Hn & Hspace).
  rewrite Hspace in Hlow, Hhigh. cbn [space_low0 space_high0] in Hlow, Hhigh.
  rewrite seq_get_head in Hlow, Hhigh.
  injection Hlow as <-. injection Hhigh as <-.
  assert (Hm : 1 <= 2 <= 20) by lia.
  assert (Hpow : num_discrete w = 2 ^ 2 + 1) by (rewrite Hn; reflexivity).
  exists w. split; [reflexivity |]. split; [exact Hm |]. split; [exact Hpow |].
  apply (proj2 (on_policy_lander w 2
                  [0%R; 0%R; 0%R; 0%R; 0%R] [0%R; 0%R; 0%R; 0%R; 0%R]
                  Hname Hat Hm Hmk
                  ltac:(rewrite Hn; reflexivity)
                  ltac:(rewrite Hn; reflexivity))
           Hpow 0%nat).
  rewrite Hn. reflexivity.
Defined.

(** ** The worker's loop *)

Lemma list_set_length {A : Type} (xs : list A) (i : nat) (a : A) :
  length (list_set xs i a) = length xs.
Proof.
  revert i. induction xs as [| x xs IH]; intros [| i]; simpl; try reflexivity.
  rewrite IH. reflexivity.
Qed.

Lemma list_set_app {A : Type} (l1 l2 : list A) (x y : A) :
  list_set (l1 ++ x :: l2) (length l1) y = l1 ++ y :: l2.
Proof.
  induction l1 as [| z l1 IH]; simpl; [reflexivity |]. rewrite IH. reflexivity.
Qed.

Lemma firstn_snoc {A : Type} (xs : list A) (k : nat) (x : A) :
  nth_error xs k = Some x -> firstn (Datatypes.S k) xs = firstn k xs ++ [x].
Proof.
  revert k. induction xs as [| z xs IH]; intros [| k] Hx; simpl in *;
    try discriminate.
  - injection Hx as ->. reflexivity.
  - rewrite (IH k Hx). reflexivity.
Qed.

Lemma skipn_cons_nth {A : Type} (xs : list A) (k : nat) (x : A) :
  nth_error xs k = Some x -> skipn k xs = x :: skipn (Datatypes.S k) xs.
Proof.
  revert k. induction xs as [| z xs IH]; intros [| k] Hx; simpl in *;
    try discriminate.
  - injection Hx as ->. reflexivity.
  - apply (IH k Hx).
Qed.

Lemma queue_maxsize_pos (m : Z) : 0 < queue_maxsize m.
Proof.
  unfold queue_maxsize, SEM_VALUE_MAX. destruct (m <=? 0) eqn:Hm; lia.
Qed.

Section PoolExtras.

Variables (X S : Type).
Variable reset_env : X -> result (S * X).

(** X12: in every state the pool goes through, the queue holds at most
    [q_maxsize] pairs, which is [len(envs) - 1] for a pool of at least two
    environments and the largest semaphore value for a pool of one or
    none; the pool keeps its size, and the worker's index stays inside its
    copy of the pool. *)
Theorem queue_bounded (es : list X) (interval : R) (g : AsyncEnvGen X S) :
  pool_reachable X S reset_env es interval g ->
  Z.of_nat (length (q X S g)) <= q_maxsize X S g /\
  q_maxsize X S g = queue_maxsize (Z.of_nat (length es) - 1) /\
  (2 <= Z.of_nat (length es) -> q_maxsize X S g = Z.of_nat (length es) - 1) /\
  (Z.of_nat (length es) <= 1 -> q_maxsize X S g = SEM_VALUE_MAX) /\
  length (envs X S g) = length es /\
  length (worker_envs X S g) = length es /\
  0 <= env_idx X S g /\
  (es <> [] -> env_idx X S g < Z.of_nat (length es)).
Proof.
  intros Hreach.
  assert (Hmain :
    Z.of_nat (length (q X S g)) <= q_maxsize X S g /\
    q_maxsize X S g = queue_maxsize (Z.of_nat (length es) - 1) /\
    length (envs X S g) = length es /\
    length (worker_envs X S g) = length es /\
    0 <= env_idx X S g /\
    (es <> [] -> env_idx X S g < Z.of_nat (length es))).
  { induction Hreach as [| g Hg IH Hq Ha Hk | g Hg IH Ha | g item g' Hg IH Hget | g Hg IH].
    - cbn. pose proof (queue_maxsize_pos (Z.of_nat (length es) - 1)).
      repeat split; try lia.
      intros Hne. destruct es; [congruence | simpl; lia].
    - destruct IH as (H1 & H2 & H3 & H4 & H5 & H6). cbn.
      repeat split; assumption.
    - destruct IH as (H1 & H2 & H3 & H4 & H5 & H6). unfold worker_turn.
      destruct (kill_set X S g); [cbn; repeat split; assumption |].
      destruct (Z.of_nat (length (q X S g)) =? q_maxsize X S g) eqn:Hfull;
        cbn [negb]; [repeat split; assumption |].
      destruct (seq_get (worker_envs X S g) (env_idx X S g)) as [x | ex];
        cbn [bind]; [| cbn; repeat split; assumption].
      destruct (reset_env x) as [[state e] | ex];
        [| cbn; repeat split; assumption].
      cbn [q q_maxsize envs worker_envs env_idx].
      rewrite length_app, list_set_length. cbn [length].
      apply Z.eqb_neq in Hfull.
      destruct (env_idx X S g + 1 =? Z.of_nat (length (worker_envs X S g))) eqn:Hwrap;
        repeat split; try assumption; try lia.
      intros Hne. apply Z.eqb_neq in Hwrap. specialize (H6 Hne). lia.
    - destruct IH as (H1 & H2 & H3 & H4 & H5 & H6).
      unfold get_reset_env in Hget. destruct (alive X S g).
      + destruct (q X S g) as [| it rest] eqn:Hq; [discriminate |].
        injection Hget as _ <-. cbn. cbn [length] in H1.
        repeat split; try assumption; lia.
      + destruct (seq_get (envs X S g) 0) as [e0 | ex]; cbn [bind] in Hget;
          [| discriminate].
        destruct (reset_env e0) as [[state e0'] | ex]; cbn [bind] in Hget;
          [| discriminate].
        injection Hget as _ <-. cbn. rewrite list_set_length.
        repeat split; assumption.
    - destruct IH as (H1 & H2 & H3 & H4 & H5 & H6). cbn.
      repeat split; assumption. }
  destruct Hmain as (H1 & H2 & H3 & H4 & H5 & H6).
  split; [exact H1 |]. split; [exact H2 |].
  split; [| split; [| repeat split; assumption]].
  - intros Hlen. rewrite H2. unfold queue_maxsize.
    destruct (Z.of_nat (length es) - 1 <=? 0) eqn:Hc; lia.
  - intros Hlen. rewrite H2. unfold queue_maxsize.
    destruct (Z.of_nat (length es) - 1 <=? 0) eqn:Hc; lia.
Qed.

Lemma get_many_alive (items : list (S * X)) :
  forall g, alive X S g = true -> q X S g = items ->
  exists g', get_many X S reset_env (length items) g = Some (items, g') /\
             q X S g' = [] /\ envs X S g' = envs X S g.
Proof.
  induction items as [| item rest IH]; intros g Ha Hq.
  - exists g. repeat split; assumption.
  - destruct g as [e0 q0 m0 ks0 al0 we0 idx0 si0]. cbn in Ha, Hq. subst al0 q0.
    destruct (IH (mkAsyncEnvGen X S e0 rest m0 ks0 true we0 idx0 si0))
      as (g' & Hget & Hq' & Henvs); [reflexivity | reflexivity |].
    exists g'. cbn [length get_many]. unfold get_reset_env. cbn [alive q].
    cbn [envs q_maxsize kill_set worker_envs env_idx sleep_interval].
    rewrite Hget. repeat split; assumption.
Qed.

(** X13: the worker resets the environments in the order of the pool and
    the queue hands them out in that order.  After [k < len(envs)] turns of
    a freshly started worker whose resets return, the queue holds the
    resets of the first [k] environments, oldest first, and [k] calls of
    [get_reset_env] return exactly those and leave the queue empty.  Once
    [len(envs) - 1] pairs are queued (pool of at least two) a turn of the
    worker changes nothing. *)
Theorem worker_round_robin (es : list X) (interval : R) (r : X -> S * X) (k : nat) :
  (forall x, In x es -> reset_env x = Ok (r x)) ->
  (k < length es)%nat ->
  q X S (worker_turns X S reset_env k (start X S (AsyncEnvGen_init X S es interval)))
  = map r (firstn k es) /\
  (exists g',
     get_many X S reset_env k
       (worker_turns X S reset_env k (start X S (AsyncEnvGen_init X S es interval)))
     = Some (map r (firstn k es), g') /\
     q X S g' = [] /\ envs X S g' = es) /\
  (Datatypes.S k = length es -> (2 <= length es)%nat ->
   worker_turn X S reset_env
     (worker_turns X S reset_env k (start X S (AsyncEnvGen_init X S es interval)))
   = worker_turns X S reset_env k (start X S (AsyncEnvGen_init X S es interval))).
Proof.
  intros Hreset Hk.
  set (g0 := start X S (AsyncEnvGen_init X S es interval)).
  assert (Hinv : forall j, (j <= k)%nat ->
    let g := worker_turns X S reset_env j g0 in
    q X S g = map r (firstn j es) /\ alive X S g = true /\ kill_set X S g = false /\
    q_maxsize X S g = queue_maxsize (Z.of_nat (length es) - 1) /\
    env_idx X S g = Z.of_nat j /\
    worker_envs X S g = map (fun x => snd (r x)) (firstn j es) ++ skipn j es /\
    envs X S g = es).
  { induction j as [| j IH]; intros Hj.
    - cbn. repeat split; reflexivity.
    - specialize (IH ltac:(lia)).
      cbn zeta in *. cbn [worker_turns].
      set (g := worker_turns X S reset_env j g0) in *.
      destruct IH as (Hq & Ha & Hkill & Hmax & Hidx & Hwe & Henvs).
      assert (Hlenq : length (q X S g) = j).
      { rewrite Hq, length_map, length_firstn. lia. }
      assert (Hcap : q_maxsize X S g = Z.of_nat (length es) - 1).
      { rewrite Hmax. unfold queue_maxsize.
        destruct (Z.of_nat (length es) - 1 <=? 0) eqn:Hc; lia. }
      destruct (nth_error es j) as [x |] eqn:Hx.
      2:{ apply nth_error_None in Hx. lia. }
      assert (Hpre : length (map (fun x0 => snd (r x0)) (firstn j es)) = j).
      { rewrite length_map, length_firstn. lia. }
      assert (Hwlen : length (worker_envs X S g) = length es).
      { rewrite Hwe, length_app, Hpre, length_skipn. lia. }
      assert (Hget : seq_get (worker_envs X S g) (env_idx X S g) = Ok x).
      { unfold seq_get. rewrite Hidx, norm_index_inside by lia. cbn [bind].
        rewrite Nat2Z.id, Hwe.
        rewrite nth_error_app2 by lia. rewrite Hpre, Nat.sub_diag.
        rewrite (skipn_cons_nth es j x Hx). reflexivity. }
      unfold worker_turn. rewrite Hkill.
      replace (Z.of_nat (length (q X S g)) =? q_maxsize X S g) with false
        by (symmetry; apply Z.eqb_neq; lia).
      cbn [negb]. rewrite Hget. cbn [bind].
      rewrite (Hreset x (nth_error_In es j Hx)).
      destruct (r x) as [state e] eqn:Hr.
      cbn [q alive kill_set q_maxsize env_idx worker_envs envs].
      replace (env_idx X S g <? 0) with false by (symmetry; apply Z.ltb_ge; lia).
      rewrite Hidx, Nat2Z.id, Hwlen.
      replace (Z.of_nat j + 1 =? Z.of_nat (length es)) with false
        by (symmetry; apply Z.eqb_neq; lia).
      rewrite (firstn_snoc es j x Hx), !map_app. cbn [map]. rewrite Hr. cbn [snd].
      repeat split; try assumption.
      + rewrite Hq. reflexivity.
      + lia.
      + rewrite Hwe, (skipn_cons_nth es j x Hx).
        pose proof (list_set_app (map (fun x0 => snd (r x0)) (firstn j es))
                      (skipn (Datatypes.S j) es) x e) as Hls.
        rewrite Hpre in Hls. rewrite Hls.
        rewrite <- app_assoc. reflexivity. }
  destruct (Hinv k (Nat.le_refl k)) as (Hq & Ha & Hkill & Hmax & Hidx & Hwe & Henvs).
  split; [exact Hq |]. split.
  - destruct (get_many_alive (map r (firstn k es)) _ Ha Hq) as (g' & Hget & Hq' & He').
    rewrite length_map, length_firstn, Nat.min_l in Hget by lia.
    exists g'. split; [exact Hget |]. split; [exact Hq' |]. congruence.
  - intros Hfull Hlen. unfold worker_turn. rewrite Hkill.
    replace (Z.of_nat (length (q X S (worker_turns X S reset_env k g0)))
             =? q_maxsize X S (worker_turns X S reset_env k g0)) with true;
      [reflexivity |].
    symmetry. apply Z.eqb_eq.
    rewrite Hq, length_map, length_firstn, Hmax. unfold queue_maxsize.
    destruct (Z.of_nat (length es) - 1 <=? 0) eqn:Hc; lia.
Qed.

End PoolExtras.

Lemma queue_bounded_witness :
  pool_reachable _ _ reset room_pool 0
    (worker_turn _ _ reset (start _ _ (AsyncEnvGen_init _ _ room_pool 0))) /\
  Z.of_nat (length (q _ _ (worker_turn _ _ reset
                              (start _ _ (AsyncEnvGen_init _ _ room_pool 0)))))
  <= q_maxsize _ _ (worker_turn _ _ reset
                      (start _ _ (AsyncEnvGen_init _ _ room_pool 0))).
Proof.
  assert (Hreach : pool_reachable _ _ reset room_pool 0
            (worker_turn _ _ reset (start _ _ (AsyncEnvGen_init _ _ room_pool 0)))).
  { apply reach_turn; [| reflexivity].
    apply reach_start; try reflexivity. apply reach_init. }
  split; [exact Hreach |].
  exact (proj1 (queue_bounded (EnvWrapper FixedEnv) (Obs FixedEnv) reset
                  room_pool 0 _ Hreach)).
Defined.

Lemma room_pool_resets (x : EnvWrapper FixedEnv) :
  In x room_pool ->
  reset x = Ok (match env_room_state (env x) with
                | Some room => ObsCells (flatten room)
                | None => ObsCells []
                end, x).
Proof.
  intros [<- | [<- | [<- | []]]]; reflexivity.
Qed.

Lemma worker_round_robin_witness :
  (2 < length room_pool)%nat /\
  q _ _ (worker_turns _ _ reset 2 (start _ _ (AsyncEnvGen_init _ _ room_pool 0)))
  = [(ObsCells (flatten room_with_box), room_wrapper room_with_box ROOM_STATE_VECTOR);
     (ObsCells (flatten room_without_box),
      room_wrapper room_without_box ROOM_STATE_VECTOR)].
Proof.
  split; [simpl; lia |].
  exact (proj1 (worker_round_robin (EnvWrapper FixedEnv) (Obs FixedEnv) reset
                  room_pool 0
                  (fun x => (match env_room_state (env x) with
                             | Some room => ObsCells (flatten room)
                             | None => ObsCells []
                             end, x))
                  2 room_pool_resets ltac:(simpl; lia))).
Defined.

(** ** The window of the statistics *)

Lemma py_last_positive {A : Type} (xs : list A) (k : Z) :
  0 < k -> py_last xs k = skipn (Z.to_nat (Z.of_nat (length xs) - k)) xs.
Proof.
  intros Hk. unfold py_last.
  replace (- k <? 0) with true by (symmetry; apply Z.ltb_lt; lia).
  f_equal. lia.
Qed.

Lemma py_last_zero {A : Type} (xs : list A) : py_last xs 0 = xs.
Proof.
  unfold py_last. cbn [Z.opp Z.ltb Z.compare].
  rewrite Z.min_l by lia. reflexivity.
Qed.

(** X14: [print_stats] averages the last [print_interval] entries of each
    history, and the whole history when there are fewer.  An interval of 0
    does not give an empty window: [xs[-0:]] is all of [xs], so the three
    averages are taken over the whole histories.  For an interval that is
    not negative the window is empty, and the average not a number, only
    when the history itself is empty. *)
Theorem print_stats_window (agent : AgentStats) (k : Z) :
  print_stats_means agent 0
  = (np_mean (all_rewards agent), np_mean (all_lengths agent),
     np_mean (all_times agent)) /\
  (forall xs : list R, 0 < k <= Z.of_nat (length xs) ->
     Z.of_nat (length (py_last xs k)) = k /\
     exists older, xs = older ++ py_last xs k) /\
  (forall xs : list R, 0 < k -> Z.of_nat (length xs) <= k -> py_last xs k = xs) /\
  (forall xs : list R, 0 <= k -> (np_mean (py_last xs k) = None <-> xs = [])).
Proof.
  split; [unfold print_stats_means; rewrite !py_last_zero; reflexivity |].
  split; [| split].
  - intros xs Hk. rewrite py_last_positive by lia. split.
    + rewrite length_skipn. lia.
    + exists (firstn (Z.to_nat (Z.of_nat (length xs) - k)) xs).
      symmetry. apply firstn_skipn.
  - intros xs Hk Hlen. rewrite py_last_positive by lia.
    replace (Z.to_nat (Z.of_nat (length xs) - k)) with 0%nat by lia. reflexivity.
  - intros xs Hk.
    assert (Hempty : py_last xs k = [] <-> xs = []).
    { destruct (Z.eq_dec k 0) as [-> | Hne]; [rewrite py_last_zero; reflexivity |].
      rewrite py_last_positive by lia. split.
      - intros Hs. apply (f_equal (@length R)) in Hs.
        rewrite length_skipn in Hs. cbn [length] in Hs.
        destruct xs; [reflexivity | cbn [length] in Hs; lia].
      - intros ->. apply skipn_nil. }
    rewrite <- Hempty. unfold np_mean.
    destruct (py_last xs k); split; intros; congruence.
Qed.

Lemma print_stats_window_witness :
  0 < 2 <= Z.of_nat (length [1%R; 2%R; 3%R]) /\
  Z.of_nat (length (py_last [1%R; 2%R; 3%R] 2)) = 2.
Proof.
  split; [simpl; lia |].
  apply (proj1 (proj2 (print_stats_window (mkAgentStats [] [] []) 2))
           [1%R; 2%R; 3%R]).
  simpl. lia.
Defined.
